(** * The streaming chat gateway of the editorial RAG assistant

    A shallow embedding of the chat route ([POST], [handleGemini],
    [handleOpenAI], [handleOpenAISimple]), of the OpenAI resource helpers
    ([getOrCreateAssistant], [ensureVectorStore], [uploadFileToVectorStore],
    [streamAssistantResponse]) and of the frame decoding loop of the chat
    component ([ChatInterface.handleSubmit]).  The helpers for the files of a
    vector store ([listVectorStoreFiles], [deleteVectorStoreFile]), the
    settings that the browser stores ([lib/settings]) and the request that
    the chat component builds from them are embedded as well.

    Conventions of the embedding.
    - A JavaScript string is the Rocq [string] of its UTF-8 bytes.
      [JSON.stringify] leaves every code unit from U+0020 on untouched, except
      the double quote and the backslash, so it acts on those bytes one by
      one; [TextEncoder.encode] is then the identity, and so is
      [TextDecoder.decode] on a stream of ASCII bytes.
    - Token counts are integers ([Z]); [undefined] is [None].
    - An [async] function is a computation in the monad [M]: it threads the
      state of the vendors and the log of the SDK calls made so far, and it
      ends with a value or with a thrown error (a rejected promise).
    - An async iterable handed out by a vendor SDK is the list of the events
      it yields, followed by how it ends. *)

From Stdlib Require Import String Ascii List ZArith Bool Lia.
From Stdlib Require Import DecimalString.
From Stdlib Require DecimalPos DecimalFacts.
From Stdlib Require QArith.
Import ListNotations.
Open Scope string_scope.
Set Warnings "-register-all".

(** ** JavaScript strings *)

Definition LF : ascii := ascii_of_nat 10.
Definition CR : ascii := ascii_of_nat 13.
Definition TAB : ascii := ascii_of_nat 9.
Definition DQ : ascii := ascii_of_nat 34.
Definition BSL : ascii := ascii_of_nat 92.

Definition nl : string := String LF "".

(** [s.startsWith(p)] *)
Definition startsWith (s p : string) : bool := String.prefix p s.

(** [s.slice(n)] for [0 <= n] *)
Fixpoint slice (n : nat) (s : string) : string :=
  match n, s with
  | O, _ => s
  | S _, EmptyString => EmptyString
  | S k, String _ r => slice k r
  end.

(** [s.substring(0, n)] *)
Fixpoint substring0 (n : nat) (s : string) : string :=
  match n, s with
  | O, _ => EmptyString
  | S _, EmptyString => EmptyString
  | S k, String c r => String c (substring0 k r)
  end.

(** [s.split('\n')]: the pieces between line feeds, the empty ones too. *)
Fixpoint split_nl (s : string) : list string :=
  match s with
  | EmptyString => [EmptyString]
  | String c r =>
      if Ascii.eqb c LF then EmptyString :: split_nl r
      else match split_nl r with
           | l :: ls => String c l :: ls
           | [] => [String c EmptyString]
           end
  end.

(** [xs.join(sep)] *)
Definition join (sep : string) (xs : list string) : string := String.concat sep xs.

Fixpoint contains_char (c : ascii) (s : string) : bool :=
  match s with
  | EmptyString => false
  | String d r => Ascii.eqb d c || contains_char c r
  end.

Definition Z_to_string (z : Z) : string := NilZero.string_of_int (Z.to_int z).

(** ** JSON *)

Module JSON.

(** A JSON number is kept as the decimal it was written as: [Number m e]
    is [m * 10^e]. *)
Inductive value : Type :=
| Null
| Bool (b : bool)
| Number (m e : Z)
| Str (s : string)
| Arr (xs : list value)
| Obj (fields : list (string * value)).

Definition int (n : Z) : value := Number n 0.

(** *** [JSON.stringify] *)

Definition hex_digit (n : nat) : ascii :=
  nth n (list_ascii_of_string "0123456789abcdef") "0"%char.

Definition quote_char (c : ascii) : string :=
  let n := nat_of_ascii c in
  if Ascii.eqb c DQ then String BSL (String DQ "")
  else if Ascii.eqb c BSL then String BSL (String BSL "")
  else if Nat.eqb n 8 then String BSL "b"
  else if Nat.eqb n 9 then String BSL "t"
  else if Nat.eqb n 10 then String BSL "n"
  else if Nat.eqb n 12 then String BSL "f"
  else if Nat.eqb n 13 then String BSL "r"
  else if Nat.ltb n 32 then
    String BSL (String "u" (String "0" (String "0"
      (String (hex_digit (n / 16)) (String (hex_digit (n mod 16)) "")))))
  else String c "".

Fixpoint quote_body (s : string) : string :=
  match s with
  | EmptyString => EmptyString
  | String c r => quote_char c ++ quote_body r
  end.

Definition quote (s : string) : string :=
  String DQ (quote_body s ++ String DQ "").

(** Strip the trailing zeros of a decimal with a negative exponent. *)
Fixpoint normalize (fuel : nat) (m e : Z) : Z * Z :=
  match fuel with
  | O => (m, e)
  | S f =>
      if ((e <? 0) && (m mod 10 =? 0))%Z then normalize f (m / 10)%Z (e + 1)%Z
      else (m, e)
  end.

Fixpoint zeros (n : nat) : string :=
  match n with O => "" | S k => String "0" (zeros k) end.

(** [String(x)] of a number; the exponent notation that JavaScript uses
    from 1e21 on and below 1e-6 is left out. *)
Definition number_to_string (m e : Z) : string :=
  if (0 <=? e)%Z then Z_to_string (m * 10 ^ e)
  else
    let '(m', e') := normalize (Z.to_nat (- e)) m e in
    if (e' =? 0)%Z then Z_to_string m'
    else
      let digits := Z_to_string (Z.abs m') in
      let k := Z.to_nat (- e') in
      let sign := if (m' <? 0)%Z then "-" else "" in
      if Nat.ltb k (String.length digits) then
        sign ++ substring0 (String.length digits - k) digits ++ "."
             ++ slice (String.length digits - k) digits
      else sign ++ "0." ++ zeros (k - String.length digits) ++ digits.

Fixpoint stringify (v : value) : string :=
  match v with
  | Null => "null"
  | Bool true => "true"
  | Bool false => "false"
  | Number m e => number_to_string m e
  | Str s => quote s
  | Arr xs => "[" ++ join "," (map stringify xs) ++ "]"
  | Obj fields =>
      "{" ++ join "," (map (fun kv => let '(k, x) := kv in
                                      quote k ++ ":" ++ stringify x) fields)
          ++ "}"
  end.

(** *** [JSON.parse] *)

Definition is_ws (c : ascii) : bool :=
  Ascii.eqb c " " || Ascii.eqb c TAB || Ascii.eqb c LF || Ascii.eqb c CR.

Fixpoint skip_ws (s : string) : string :=
  match s with
  | String c r => if is_ws c then skip_ws r else s
  | EmptyString => s
  end.

Definition digit_of (c : ascii) : option Z :=
  let n := nat_of_ascii c in
  if Nat.leb 48 n && Nat.leb n 57 then Some (Z.of_nat (n - 48)) else None.

(** The leading digits of [s]: their value on top of [acc], how many there
    are on top of [count], and what follows them. *)
Fixpoint take_digits (s : string) (acc : Z) (count : nat) : Z * nat * string :=
  match s with
  | String c r =>
      match digit_of c with
      | Some d => take_digits r (acc * 10 + d)%Z (S count)
      | None => (acc, count, s)
      end
  | EmptyString => (acc, count, s)
  end.

Definition parse_int_part (s : string) : option (Z * string) :=
  match s with
  | String c r =>
      match digit_of c with
      | Some d =>
          if (d =? 0)%Z then Some (0%Z, r)
          else let '(n, _, rest) := take_digits r d 1 in Some (n, rest)
      | None => None
      end
  | EmptyString => None
  end.

Definition parse_frac_part (s : string) : option (Z * nat * string) :=
  match s with
  | String c r =>
      if Ascii.eqb c "." then
        match take_digits r 0 0 with
        | (_, O, _) => None
        | (n, k, rest) => Some (n, k, rest)
        end
      else Some (0%Z, O, s)
  | EmptyString => Some (0%Z, O, s)
  end.

(** An optional sign. *)
Definition parse_sign (minus_only : bool) (s : string) : Z * string :=
  match s with
  | String c r =>
      if Ascii.eqb c "-" then ((-1)%Z, r)
      else if negb minus_only && Ascii.eqb c "+" then (1%Z, r)
      else (1%Z, s)
  | EmptyString => (1%Z, s)
  end.

Definition parse_exp_part (s : string) : option (Z * string) :=
  match s with
  | String c r =>
      if Ascii.eqb c "e" || Ascii.eqb c "E" then
        let '(sign, r') := parse_sign false r in
        match take_digits r' 0 0 with
        | (_, O, _) => None
        | (n, _, rest) => Some ((sign * n)%Z, rest)
        end
      else Some (0%Z, s)
  | EmptyString => Some (0%Z, s)
  end.

Definition parse_number (s : string) : option (value * string) :=
  let '(sign, s1) := parse_sign true s in
  match parse_int_part s1 with
  | None => None
  | Some (i, s2) =>
      match parse_frac_part s2 with
      | None => None
      | Some (f, k, s3) =>
          match parse_exp_part s3 with
          | None => None
          | Some (x, s4) =>
              Some (Number (sign * (i * 10 ^ Z.of_nat k + f))
                           (x - Z.of_nat k), s4)
          end
      end
  end.

Definition hex_val (c : ascii) : option nat :=
  let n := nat_of_ascii c in
  if Nat.leb 48 n && Nat.leb n 57 then Some (n - 48)
  else if Nat.leb 97 n && Nat.leb n 102 then Some (n - 87)
  else if Nat.leb 65 n && Nat.leb n 70 then Some (n - 55)
  else None.

Definition hex4 (a b c d : ascii) : option nat :=
  match hex_val a, hex_val b, hex_val c, hex_val d with
  | Some x, Some y, Some z, Some w => Some (((x * 16 + y) * 16 + z) * 16 + w)
  | _, _, _, _ => None
  end.

(** The UTF-8 bytes of a code point of the basic plane. *)
Definition utf8 (n : nat) : string :=
  if Nat.ltb n 128 then String (ascii_of_nat n) ""
  else if Nat.ltb n 2048 then
    String (ascii_of_nat (192 + n / 64)) (String (ascii_of_nat (128 + n mod 64)) "")
  else
    String (ascii_of_nat (224 + n / 4096))
      (String (ascii_of_nat (128 + (n / 64) mod 64))
         (String (ascii_of_nat (128 + n mod 64)) "")).

Definition simple_escape (c : ascii) : option ascii :=
  if Ascii.eqb c DQ then Some DQ
  else if Ascii.eqb c BSL then Some BSL
  else if Ascii.eqb c "/" then Some "/"%char
  else if Ascii.eqb c "b" then Some (ascii_of_nat 8)
  else if Ascii.eqb c "f" then Some (ascii_of_nat 12)
  else if Ascii.eqb c "n" then Some LF
  else if Ascii.eqb c "r" then Some CR
  else if Ascii.eqb c "t" then Some TAB
  else None.

Definition prepend (p : string) (r : option (string * string)) : option (string * string) :=
  match r with
  | Some (s, rest) => Some (p ++ s, rest)
  | None => None
  end.

(** What follows an opening double quote: the text up to the closing one,
    unescaped, and the rest of the input. *)
Fixpoint parse_string_body (s : string) : option (string * string) :=
  match s with
  | EmptyString => None
  | String c r =>
      if Ascii.eqb c DQ then Some ("", r)
      else if Ascii.eqb c BSL then
        match r with
        | String e r1 =>
            match simple_escape e with
            | Some d => prepend (String d "") (parse_string_body r1)
            | None =>
                if Ascii.eqb e "u" then
                  match r1 with
                  | String h1 (String h2 (String h3 (String h4 r2))) =>
                      match hex4 h1 h2 h3 h4 with
                      | Some n => prepend (utf8 n) (parse_string_body r2)
                      | None => None
                      end
                  | _ => None
                  end
                else None
            end
        | EmptyString => None
        end
      else if Nat.ltb (nat_of_ascii c) 32 then None
      else prepend (String c "") (parse_string_body r)
  end.

Definition parse_literal (lit : string) (v : value) (s : string) : option (value * string) :=
  if startsWith s lit then Some (v, slice (String.length lit) s) else None.

(** After white space, the character [c]: what follows it. *)
Definition expect (c : ascii) (s : string) : option string :=
  match skip_ws s with
  | String d r => if Ascii.eqb d c then Some r else None
  | EmptyString => None
  end.

Fixpoint parse_value (fuel : nat) (s : string) : option (value * string) :=
  match fuel with
  | O => None
  | S f =>
      match skip_ws s with
      | EmptyString => None
      | String c r =>
          if Ascii.eqb c "{" then
            match expect "}" r with
            | Some r' => Some (Obj [], r')
            | None =>
                match parse_members f r with
                | Some (fields, rest) => Some (Obj fields, rest)
                | None => None
                end
            end
          else if Ascii.eqb c "[" then
            match expect "]" r with
            | Some r' => Some (Arr [], r')
            | None =>
                match parse_elements f r with
                | Some (xs, rest) => Some (Arr xs, rest)
                | None => None
                end
            end
          else if Ascii.eqb c DQ then
            match parse_string_body r with
            | Some (str, rest) => Some (Str str, rest)
            | None => None
            end
          else if Ascii.eqb c "t" then parse_literal "true" (Bool true) (String c r)
          else if Ascii.eqb c "f" then parse_literal "false" (Bool false) (String c r)
          else if Ascii.eqb c "n" then parse_literal "null" Null (String c r)
          else parse_number (String c r)
      end
  end
with parse_elements (fuel : nat) (s : string) : option (list value * string) :=
  match fuel with
  | O => None
  | S f =>
      match parse_value f s with
      | None => None
      | Some (v, r) =>
          match expect "," r with
          | Some r' =>
              match parse_elements f r' with
              | Some (vs, rest) => Some (v :: vs, rest)
              | None => None
              end
          | None =>
              match expect "]" r with
              | Some r' => Some ([v], r')
              | None => None
              end
          end
      end
  end
with parse_members (fuel : nat) (s : string) : option (list (string * value) * string) :=
  match fuel with
  | O => None
  | S f =>
      match expect DQ s with
      | None => None
      | Some r =>
          match parse_string_body r with
          | None => None
          | Some (key, r1) =>
              match expect ":" r1 with
              | None => None
              | Some r2 =>
                  match parse_value f r2 with
                  | None => None
                  | Some (v, r3) =>
                      match expect "," r3 with
                      | Some r4 =>
                          match parse_members f r4 with
                          | Some (fields, rest) => Some ((key, v) :: fields, rest)
                          | None => None
                          end
                      | None =>
                          match expect "}" r3 with
                          | Some r4 => Some ([(key, v)], r4)
                          | None => None
                          end
                      end
                  end
              end
          end
      end
  end.

(** [JSON.parse(text)]; [None] is the [SyntaxError] it throws.  The fuel
    bounds the nesting of the calls of the three parsers, and of two nested
    calls at least one consumes a character: twice the length of the text
    is fuel enough, and more fuel changes nothing ([parse_fuel_enough]
    below). *)
Definition parse (text : string) : option value :=
  match parse_value (2 * String.length text + 2) text with
  | Some (v, rest) =>
      match skip_ws rest with
      | EmptyString => Some v
      | _ => None
      end
  | None => None
  end.

(** *** Reading parsed values *)

(** The own property [k] of an object; for a key written twice the last
    one stands. *)
Fixpoint lookup (k : string) (fields : list (string * value)) : option value :=
  match fields with
  | [] => None
  | (k', v) :: rest =>
      match lookup k rest with
      | Some w => Some w
      | None => if String.eqb k' k then Some v else None
      end
  end.

(** [v.k] for a key that no primitive and no array carries: [None] when
    reading throws (on [null]), [Some None] for [undefined]. *)
Definition get (v : value) (k : string) : option (option value) :=
  match v with
  | Null => None
  | Obj fields => Some (lookup k fields)
  | _ => Some None
  end.

Definition truthy (v : value) : bool :=
  match v with
  | Null => false
  | Bool b => b
  | Number m _ => negb (m =? 0)%Z
  | Str s => negb (String.eqb s "")
  | Arr _ | Obj _ => true
  end.

(** [String(v)], which [+=] on a string applies to its right operand. *)
Fixpoint to_string (v : value) : string :=
  match v with
  | Null => "null"
  | Bool true => "true"
  | Bool false => "false"
  | Number m e => number_to_string m e
  | Str s => s
  | Arr xs =>
      join "," (map (fun x => match x with Null => "" | _ => to_string x end) xs)
  | Obj _ => "[object Object]"
  end.

End JSON.

(** ** The wire frames

    The two lines the adapters write: [`0:${JSON.stringify(text)}\n`] and
    [`2:${JSON.stringify({usage: {...}, threadId})}\n`]. *)

Definition text_frame (text : string) : string :=
  "0:" ++ JSON.stringify (JSON.Str text) ++ nl.

Definition usage_payload (inputTokens outputTokens : Z) (model : string)
    (threadId : option string) : JSON.value :=
  JSON.Obj
    (("usage", JSON.Obj [("inputTokens", JSON.int inputTokens);
                         ("outputTokens", JSON.int outputTokens);
                         ("model", JSON.Str model)])
     :: match threadId with
        | Some t => [("threadId", JSON.Str t)]
        | None => []
        end).

Definition usage_frame (inputTokens outputTokens : Z) (model : string)
    (threadId : option string) : string :=
  "2:" ++ JSON.stringify (usage_payload inputTokens outputTokens model threadId) ++ nl.

(** ** Errors and streams *)

(** A thrown JavaScript [Error]; its message is all the code reads. *)
Inductive Error : Type := JsError (message : string).

Definition message (e : Error) : string := let '(JsError m) := e in m.

(** How a [ReadableStream] ends: [controller.close()] or
    [controller.error(e)]. *)
Inductive StreamEnd : Type :=
| Closed
| Errored (e : Error).

(** A [ReadableStream] of encoded text: what was enqueued, in order, and how
    the stream ended. *)
Record ByteStream : Type := mkByteStream {
  enqueued : list string;
  ending : StreamEnd
}.

(** An async iterable of a vendor SDK: the events it yields, then either
    completion or a thrown error. *)
Record Upstream (A : Type) : Type := mkUpstream {
  events : list A;
  failure : option Error
}.
Arguments mkUpstream {A} _ _.
Arguments events {A} _.
Arguments failure {A} _.

(** ** The client: the frame decoding loop of [ChatInterface.handleSubmit] *)

Module ChatInterface.

Record Message : Type := mkMessage {
  id : string;
  role : string;
  content : string
}.

(** The state the read loop works on: the local variables [assistantContent]
    and [chunkCount], the React state [messages], the calls of [trackUsage]
    and the lines passed to [log]. *)
Record Client : Type := mkClient {
  assistantContent : string;
  chunkCount : nat;
  messages : list Message;
  trackUsage_calls : list (option JSON.value * option JSON.value * option JSON.value);
  devLogs : list string
}.

Definition log (msg : string) (c : Client) : Client :=
  mkClient (assistantContent c) (chunkCount c) (messages c) (trackUsage_calls c)
           (devLogs c ++ [msg]).

(** A value inside a template literal. *)
Definition show (v : option JSON.value) : string :=
  match v with
  | Some x => JSON.to_string x
  | None => "undefined"
  end.

(** The body of [for (const line of lines)]. *)
Definition handle_line (c : Client) (line : string) : Client :=
  if startsWith line "0:" then
    match JSON.parse (slice 2 line) with
    | Some text =>
        mkClient (assistantContent c ++ JSON.to_string text) (chunkCount c)
                 (messages c) (trackUsage_calls c) (devLogs c)
    | None => log ("Parse error on line: " ++ line) c
    end
  else if startsWith line "2:" then
    match JSON.parse (slice 2 line) with
    | Some meta =>
        match JSON.get meta "usage" with
        | None => log ("Usage parse error: " ++ line) c
        | Some None => c
        | Some (Some usage) =>
            if JSON.truthy usage then
              let field k := match JSON.get usage k with
                             | Some v => v
                             | None => None
                             end in
              let inputTokens := field "inputTokens" in
              let outputTokens := field "outputTokens" in
              let model := field "model" in
              log ("Usage: " ++ show inputTokens ++ " in, " ++ show outputTokens ++ " out")
                  (mkClient (assistantContent c) (chunkCount c) (messages c)
                            (trackUsage_calls c ++ [(inputTokens, outputTokens, model)])
                            (devLogs c))
            else c
        end
    | None => log ("Usage parse error: " ++ line) c
    end
  else c.

(** [setMessages(prev => ...)]: the last message, when it is the in-flight
    assistant message, is replaced by one with the content so far. *)
Fixpoint update_last (assistantMsgId text : string) (prev : list Message) : list Message :=
  match prev with
  | [] => []
  | [m] => if String.eqb (id m) assistantMsgId
           then [mkMessage (id m) (role m) text] else [m]
  | m :: rest => m :: update_last assistantMsgId text rest
  end.

(** One turn of [while (true)] with [done] false: [chunk] is the text that
    [decoder.decode(value, {stream: true})] made of the bytes read. *)
Definition handle_chunk (assistantMsgId : string) (c : Client) (chunk : string) : Client :=
  let c1 := mkClient (assistantContent c) (S (chunkCount c)) (messages c)
                     (trackUsage_calls c) (devLogs c) in
  let c2 := log ("Chunk " ++ Z_to_string (Z.of_nat (chunkCount c1)) ++ ": "
                 ++ substring0 50 chunk ++ "...") c1 in
  let c3 := fold_left handle_line (split_nl chunk) c2 in
  mkClient (assistantContent c3) (chunkCount c3)
           (update_last assistantMsgId (assistantContent c3) (messages c3))
           (trackUsage_calls c3) (devLogs c3).

(** The read loop, from the empty assistant message to the end of the
    response body; [reads] are the texts of the successive [reader.read()].
    A body that ends in an error leaves through the [catch], which appends
    an assistant message with the error text (its [id], made of the time,
    is written "error"). *)
Definition read_body (currentMessages : list Message) (assistantMsgId : string)
    (reads : list string) (fin : StreamEnd) : Client :=
  let c0 := mkClient "" 0
              (currentMessages ++ [mkMessage assistantMsgId "assistant" ""]) [] [] in
  let c1 := fold_left (handle_chunk assistantMsgId) reads c0 in
  match fin with
  | Closed =>
      let c2 := log ("Stream complete. Total chunks: "
                     ++ Z_to_string (Z.of_nat (chunkCount c1))) c1 in
      log ("Final content length: "
           ++ Z_to_string (Z.of_nat (String.length (assistantContent c2))) ++ " chars") c2
  | Errored e =>
      let c2 := log ("ERROR: " ++ message e) c1 in
      mkClient (assistantContent c2) (chunkCount c2)
               (messages c2 ++ [mkMessage "error" "assistant" ("Error: " ++ message e)])
               (trackUsage_calls c2) (devLogs c2)
  end.

End ChatInterface.

(** ** What the vendor SDKs hand out *)

Inductive result (A : Type) : Type :=
| Ok (a : A)
| Throw (e : Error).
Arguments Ok {A} _.
Arguments Throw {A} _.

Module Gemini.

(** An entry of [fileManager.listFiles()]. *)
Record File : Type := mkFile {
  state : string;
  mimeType : string;
  uri : string;
  displayName : string
}.

(** [files] is missing when nothing was uploaded. *)
Record ListFilesResponse : Type := mkListFilesResponse {
  files : option (list File)
}.

Inductive Part : Type :=
| TextPart (text : string)
| FileDataPart (mime fileUri : string).

Record Content : Type := mkContent {
  role : string;
  parts : list Part
}.

Record UsageMetadata : Type := mkUsageMetadata {
  promptTokenCount : option Z;
  candidatesTokenCount : option Z
}.

(** A chunk of [result.stream]; [chunk.text()] throws on a blocked
    response. *)
Record Chunk : Type := mkChunk {
  text : result string;
  usageMetadata : option UsageMetadata
}.

(** The argument of [genAI.getGenerativeModel]. *)
Record ModelParams : Type := mkModelParams {
  model : string;
  systemInstruction : string
}.

End Gemini.

Module OpenAI.

(** An assistant, with [tool_resources?.file_search?.vector_store_ids]. *)
Module Assistant.
Record t : Type := mk {
  id : string;
  vector_store_ids : option (list string)
}.
End Assistant.

(** The argument of [beta.assistants.create]. *)
Record AssistantCreateParams : Type := mkAssistantCreateParams {
  name : string;
  instructions : string;
  model : string;
  tools : list string;
  file_search_vector_store_ids : list string
}.

Module VectorStoreFile.
Record t : Type := mk {
  id : string;
  status : string
}.
End VectorStoreFile.

(** A content block of a message delta, with [block.text?.value]. *)
Record Block : Type := mkBlock {
  type : string;
  text_value : option string
}.

Record Usage : Type := mkUsage {
  prompt_tokens : option Z;
  completion_tokens : option Z
}.

(** The events of a run, by their [event] name; [delta.content] and
    [data.usage] may be missing. *)
Inductive RunEvent : Type :=
| thread_message_delta (content : option (list Block))
| thread_run_completed (usage : option Usage)
| other_event (event : string).

(** A choice of a completion chunk, with [delta?.content]. *)
Record Choice : Type := mkChoice {
  delta_content : option string
}.

Record CompletionChunk : Type := mkCompletionChunk {
  choices : list Choice;
  usage : option Usage
}.

Record ChatMessageParam : Type := mkChatMessageParam {
  role : string;
  content : string
}.

End OpenAI.

(** The SDK calls that reach a vendor, with their arguments. *)
Inductive Call : Type :=
| C_listFiles
| C_sendMessageStream (params : Gemini.ModelParams) (history : list Gemini.Content)
    (request : string)
| C_assistants_retrieve (assistantId : string)
| C_assistants_create (params : OpenAI.AssistantCreateParams)
| C_assistants_update (assistantId : string) (vector_store_ids : list string)
| C_vectorStores_create (name : string)
| C_files_create (file fileName mimeType purpose : string)
| C_vectorStores_files_create (vectorStoreId fileId : string)
| C_vectorStores_files_retrieve (vectorStoreId vectorStoreFileId : string)
| C_threads_create
| C_threads_retrieve (threadId : string)
| C_threads_messages_create (threadId role content : string)
| C_threads_runs_stream (threadId assistantId : string)
| C_chat_completions_create (model : string) (messages : list OpenAI.ChatMessageParam).

(** ** The SDK clients and the monad of [async] functions

    [V] is the state of the vendors' services, of which the code knows
    nothing: every SDK call is a transition on it that returns a value or
    throws. *)

Section Clients.

Variable V : Type.

(** [new OpenAI({apiKey})] *)
Record OpenAIClient : Type := mkOpenAIClient {
  beta_assistants_retrieve : string -> V -> result OpenAI.Assistant.t * V;
  beta_assistants_create : OpenAI.AssistantCreateParams -> V -> result OpenAI.Assistant.t * V;
  beta_assistants_update : string -> list string -> V -> result OpenAI.Assistant.t * V;
  (** returns the [id] of the store *)
  beta_vectorStores_create : string -> V -> result string * V;
  (** returns the [id] of the file *)
  files_create : string -> string -> string -> string -> V -> result string * V;
  beta_vectorStores_files_create : string -> string -> V -> result OpenAI.VectorStoreFile.t * V;
  beta_vectorStores_files_retrieve : string -> string -> V -> result OpenAI.VectorStoreFile.t * V;
  (** returns the [id] of the thread *)
  beta_threads_create : V -> result string * V;
  beta_threads_retrieve : string -> V -> result unit * V;
  beta_threads_messages_create : string -> string -> string -> V -> result unit * V;
  (** not awaited: what fails shows when the run is iterated *)
  beta_threads_runs_stream : string -> string -> V -> Upstream OpenAI.RunEvent * V;
  chat_completions_create :
    string -> list OpenAI.ChatMessageParam -> V -> result (Upstream OpenAI.CompletionChunk) * V
}.

(** [new GoogleAIFileManager(apiKey)] *)
Record GoogleAIFileManager : Type := mkGoogleAIFileManager {
  listFiles : V -> result Gemini.ListFilesResponse * V
}.

(** [new GoogleGenerativeAI(apiKey)]; [sendMessageStream] is the call of
    [getGenerativeModel(params).startChat({history}).sendMessageStream(request)],
    the only one of the three that reaches the vendor. *)
Record GoogleGenerativeAI : Type := mkGoogleGenerativeAI {
  sendMessageStream :
    Gemini.ModelParams -> list Gemini.Content -> string -> V -> result (Upstream Gemini.Chunk) * V
}.

(** The three constructors, from the API key. *)
Record Sdk : Type := mkSdk {
  new_OpenAI : string -> OpenAIClient;
  new_GoogleGenerativeAI : string -> GoogleGenerativeAI;
  new_GoogleAIFileManager : string -> GoogleAIFileManager
}.

Record World : Type := mkWorld {
  vendor : V;
  calls : list Call
}.

Definition M (A : Type) : Type := World -> result A * World.

Definition ret {A : Type} (a : A) : M A := fun w => (Ok a, w).

Definition throw {A : Type} (e : Error) : M A := fun w => (Throw e, w).

Definition bind {A B : Type} (m : M A) (k : A -> M B) : M B :=
  fun w =>
    match m w with
    | (Ok a, w') => k a w'
    | (Throw e, w') => (Throw e, w')
    end.

(** [try { m } catch (e) { handler }] *)
Definition try_catch {A : Type} (m : M A) (handler : Error -> M A) : M A :=
  fun w =>
    match m w with
    | (Ok a, w') => (Ok a, w')
    | (Throw e, w') => handler e w'
    end.

(** An awaited SDK call: it is logged, and the vendor moves on. *)
Definition sdk_call {A : Type} (c : Call) (op : V -> result A * V) : M A :=
  fun w =>
    let '(r, v') := op (vendor w) in
    (r, mkWorld v' (calls w ++ [c])%list).

(** An SDK call that hands out its stream without throwing. *)
Definition sdk_open {A : Type} (c : Call) (op : V -> A * V) : M A :=
  fun w =>
    let '(a, v') := op (vendor w) in
    (Ok a, mkWorld v' (calls w ++ [c])%list).

End Clients.

Arguments ret {V A} _ _.
Arguments throw {V A} _ _.
Arguments bind {V A B} _ _ _.
Arguments try_catch {V A} _ _ _.
Arguments sdk_call {V A} _ _ _.
Arguments sdk_open {V A} _ _ _.
Arguments mkWorld {V} _ _.
Arguments vendor {V} _.
Arguments calls {V} _.
Arguments beta_assistants_retrieve {V} _ _ _.
Arguments beta_assistants_create {V} _ _ _.
Arguments beta_assistants_update {V} _ _ _ _.
Arguments beta_vectorStores_create {V} _ _ _.
Arguments files_create {V} _ _ _ _ _ _.
Arguments beta_vectorStores_files_create {V} _ _ _ _.
Arguments beta_vectorStores_files_retrieve {V} _ _ _ _.
Arguments beta_threads_create {V} _ _.
Arguments beta_threads_retrieve {V} _ _ _.
Arguments beta_threads_messages_create {V} _ _ _ _ _.
Arguments beta_threads_runs_stream {V} _ _ _ _.
Arguments chat_completions_create {V} _ _ _ _.
Arguments listFiles {V} _ _.
Arguments sendMessageStream {V} _ _ _ _ _.
Arguments new_OpenAI {V} _ _.
Arguments new_GoogleGenerativeAI {V} _ _.
Arguments new_GoogleAIFileManager {V} _ _.

Declare Scope async_scope.
Delimit Scope async_scope with async.
Notation "x <- c1 ;; c2" := (bind c1 (fun x => c2))
  (at level 61, c1 at next level, right associativity) : async_scope.
Notation "c1 ;; c2" := (bind c1 (fun _ => c2))
  (at level 61, right associativity) : async_scope.

(** [x || d] on a string that may be missing. *)
Definition or_else (x : option string) (d : string) : string :=
  match x with
  | Some s => if String.eqb s "" then d else s
  | None => d
  end.

(** [x || 0] on a count that may be missing. *)
Definition or_zero (x : option Z) : Z :=
  match x with
  | Some n => n
  | None => 0%Z
  end.

(** The truth value of a string that may be missing. *)
Definition given (x : option string) : bool :=
  match x with
  | Some s => negb (String.eqb s "")
  | None => false
  end.

(** [s.includes(sub)] *)
Fixpoint includes (s sub : string) : bool :=
  String.prefix sub s ||
  match s with
  | EmptyString => false
  | String _ r => includes r sub
  end.

(** ** [lib/openai-assistants]: assistants, vector stores and threads *)

Module OpenAIAssistants.

Local Open Scope async_scope.

Definition ASSISTANT_NAME : string := "Editorial RAG Assistant".

Definition ASSISTANT_INSTRUCTIONS : string :=
  "You are a helpful expert editorial assistant. " ++ nl ++ nl
  ++ "IMPORTANT RULES:" ++ nl
  ++ "1. Use the provided documents to answer questions accurately" ++ nl
  ++ "2. ALWAYS cite your sources using the format: [Source: document_name]" ++ nl
  ++ "3. If information comes from multiple documents, cite all relevant sources" ++ nl
  ++ "4. If you cannot find information in the documents, clearly state that" ++ nl
  ++ "5. Match the company's style and tone based on the documents".

(** The value both functions resolve to: [{ assistantId, vectorStoreId }]. *)
Record Handles : Type := mkHandles {
  assistantId : string;
  vectorStoreId : string
}.

(** [{ fileId, vectorStoreFileId }] *)
Record Uploaded : Type := mkUploaded {
  fileId : string;
  vectorStoreFileId : string
}.

Section WithClient.

Context {V : Type}.
Variable openai : OpenAIClient V.

Definition ensureVectorStore (assistantId : string) : M V string :=
  assistant <- sdk_call (C_assistants_retrieve assistantId)
                 (beta_assistants_retrieve openai assistantId) ;;
  match OpenAI.Assistant.vector_store_ids assistant with
  | Some (first :: _) => ret first
  | _ =>
      vectorStore <- sdk_call (C_vectorStores_create "Editorial Knowledge Base")
                       (beta_vectorStores_create openai "Editorial Knowledge Base") ;;
      _ <- sdk_call (C_assistants_update assistantId [vectorStore])
             (beta_assistants_update openai assistantId [vectorStore]) ;;
      ret vectorStore
  end.

(** The parameters of the assistant that [getOrCreateAssistant] creates. *)
Definition new_assistant_params (vectorStore : string) : OpenAI.AssistantCreateParams :=
  OpenAI.mkAssistantCreateParams ASSISTANT_NAME ASSISTANT_INSTRUCTIONS "gpt-4o"
    ["file_search"] [vectorStore].

(** The end of [getOrCreateAssistant], from [beta.vectorStores.create] on. *)
Definition createAssistant : M V Handles :=
  vectorStore <- sdk_call (C_vectorStores_create "Editorial Knowledge Base")
                   (beta_vectorStores_create openai "Editorial Knowledge Base") ;;
  assistant <- sdk_call (C_assistants_create (new_assistant_params vectorStore))
                 (beta_assistants_create openai (new_assistant_params vectorStore)) ;;
  ret (mkHandles (OpenAI.Assistant.id assistant) vectorStore).

(** The [try] block returns from the function; the [catch] block falls
    through to the creation, for whatever was thrown inside the [try]. *)
Definition getOrCreateAssistant (assistantId vectorStoreId : option string) : M V Handles :=
  found <-
    match assistantId with
    | Some a =>
        if given assistantId then
          try_catch
            (existing <- sdk_call (C_assistants_retrieve a)
                           (beta_assistants_retrieve openai a) ;;
             vsId <- (if given vectorStoreId
                      then ret (or_else vectorStoreId "")
                      else ensureVectorStore (OpenAI.Assistant.id existing)) ;;
             ret (Some (mkHandles (OpenAI.Assistant.id existing) vsId)))
            (fun _ => ret None)
        else ret None
    | None => ret None
    end ;;
  match found with
  | Some handles => ret handles
  | None => createAssistant
  end.

(** [while (status === "in_progress")]: [None] when the fuel runs out with
    the status still in progress, that is, while the loop is still turning.
    The second of waiting is not modelled. *)
Fixpoint poll (fuel : nat) (vectorStoreId vectorStoreFileId status : string)
    : M V (option string) :=
  if String.eqb status "in_progress" then
    match fuel with
    | O => ret None
    | S f =>
        updated <- sdk_call (C_vectorStores_files_retrieve vectorStoreId vectorStoreFileId)
                     (beta_vectorStores_files_retrieve openai vectorStoreId vectorStoreFileId) ;;
        poll f vectorStoreId vectorStoreFileId (OpenAI.VectorStoreFile.status updated)
    end
  else ret (Some status).

Definition uploadFileToVectorStore (fuel : nat)
    (vectorStoreId fileBuffer fileName mimeType : string) : M V (option Uploaded) :=
  file <- sdk_call (C_files_create fileBuffer fileName mimeType "assistants")
            (files_create openai fileBuffer fileName mimeType "assistants") ;;
  vectorStoreFile <- sdk_call (C_vectorStores_files_create vectorStoreId file)
                       (beta_vectorStores_files_create openai vectorStoreId file) ;;
  polled <- poll fuel vectorStoreId (OpenAI.VectorStoreFile.id vectorStoreFile)
              (OpenAI.VectorStoreFile.status vectorStoreFile) ;;
  match polled with
  | None => ret None
  | Some status =>
      if negb (String.eqb status "completed") then
        throw (JsError ("File processing failed: " ++ status))
      else ret (Some (mkUploaded file (OpenAI.VectorStoreFile.id vectorStoreFile)))
  end.

Definition getOrCreateThread (threadId : option string) : M V string :=
  found <-
    match threadId with
    | Some t =>
        if given threadId then
          try_catch
            (_ <- sdk_call (C_threads_retrieve t) (beta_threads_retrieve openai t) ;;
             ret (Some t))
            (fun _ => ret None)
        else ret None
    | None => ret None
    end ;;
  match found with
  | Some t => ret t
  | None => sdk_call C_threads_create (beta_threads_create openai)
  end.

(** What [streamAssistantResponse] yields. *)
Inductive Yield : Type :=
| yield_text (content : string)
| yield_usage (input output : option Z).

Definition yields_of_block (block : OpenAI.Block) : list Yield :=
  if String.eqb (OpenAI.type block) "text" && given (OpenAI.text_value block)
  then [yield_text (or_else (OpenAI.text_value block) "")]
  else [].

Definition yields_of_event (event : OpenAI.RunEvent) : list Yield :=
  match event with
  | OpenAI.thread_message_delta (Some blocks) => flat_map yields_of_block blocks
  | OpenAI.thread_message_delta None => []
  | OpenAI.thread_run_completed (Some usage) =>
      [yield_usage (OpenAI.prompt_tokens usage) (OpenAI.completion_tokens usage)]
  | OpenAI.thread_run_completed None => []
  | OpenAI.other_event _ => []
  end.

(** The generator, run to its end: what it yielded and, when the run threw,
    the error that ended it. *)
Definition streamAssistantResponse (assistantId threadId userMessage : string)
    : M V (list Yield * option Error) :=
  _ <- sdk_call (C_threads_messages_create threadId "user" userMessage)
         (beta_threads_messages_create openai threadId "user" userMessage) ;;
  run <- sdk_open (C_threads_runs_stream threadId assistantId)
           (beta_threads_runs_stream openai threadId assistantId) ;;
  ret (flat_map yields_of_event (events run), failure run).

End WithClient.

End OpenAIAssistants.

(** ** [app/api/chat/route]: the dispatcher and the three adapters *)

Module ChatRoute.

Local Open Scope async_scope.

(** An element of [messages]. *)
Record ChatMessage : Type := mkChatMessage {
  role : string;
  content : string
}.

(** The parsed request body; a missing field is [None]. *)
Record ChatBody : Type := mkChatBody {
  messages : list ChatMessage;
  apiKey : option string;
  model : option string;
  provider : option string;
  assistantId : option string;
  threadId : option string
}.

Inductive Response : Type :=
| JsonResponse (status : nat) (body : JSON.value)
| StreamResponse (body : ByteStream).

(** Reading [.content] of [messages[messages.length - 1]]. *)
Definition last_content (messages : list ChatMessage) : result string :=
  match rev messages with
  | lastMessage :: _ => Ok (content lastMessage)
  | [] => Throw (JsError "Cannot read properties of undefined (reading 'content')")
  end.

(** *** The Gemini adapter *)

Definition is_active (f : Gemini.File) : bool := String.eqb (Gemini.state f) "ACTIVE".

Definition activeFiles (files : list Gemini.File) : list Gemini.Part :=
  map (fun f => Gemini.FileDataPart (Gemini.mimeType f) (Gemini.uri f))
      (filter is_active files).

Definition fileNames (files : list Gemini.File) : string :=
  join ", " (map Gemini.displayName (filter is_active files)).

Definition gemini_systemInstruction (fileNames : string) : string :=
  "You are a helpful expert editorial assistant. You have access to the following knowledge base documents: "
  ++ or_else (Some fileNames) "none" ++ "." ++ nl ++ nl
  ++ "IMPORTANT RULES:" ++ nl
  ++ "1. Use the provided documents to answer questions accurately" ++ nl
  ++ "2. ALWAYS cite your sources using the format: [Source: document_name]" ++ nl
  ++ "3. If information comes from multiple documents, cite all relevant sources" ++ nl
  ++ "4. If you cannot find information in the documents, clearly state that" ++ nl
  ++ "5. Match the company's style and tone based on the documents".

Definition formattedHistory (messages : list ChatMessage) : list Gemini.Content :=
  map (fun m => Gemini.mkContent (if String.eqb (role m) "user" then "user" else "model")
                                 [Gemini.TextPart (content m)])
      (removelast messages).

(** The [history] of [model.startChat]. *)
Definition gemini_history (files : list Gemini.File) (messages : list ChatMessage)
    : list Gemini.Content :=
  (Gemini.mkContent "user"
     ([Gemini.TextPart "Here is the knowledge base containing all relevant documents for our session:"]
      ++ activeFiles files
      ++ [Gemini.TextPart "Please use these documents to answer my future questions."])
   :: Gemini.mkContent "model"
        [Gemini.TextPart "Understood. I have processed the knowledge base and am ready to assist you."]
   :: formattedHistory messages)%list.

(** [start(controller)] of the stream of [handleGemini]: [sent] is what was
    enqueued so far. *)
Fixpoint gemini_start (modelId : string) (chunks : list Gemini.Chunk) (failure : option Error)
    (sent : list string) (totalInputTokens totalOutputTokens : Z) : ByteStream :=
  match chunks with
  | chunk :: rest =>
      match Gemini.text chunk with
      | Throw e => mkByteStream sent (Errored e)
      | Ok text =>
          let sent' := if String.eqb text "" then sent
                       else (sent ++ [text_frame text])%list in
          match Gemini.usageMetadata chunk with
          | Some usage =>
              gemini_start modelId rest failure sent'
                (or_zero (Gemini.promptTokenCount usage))
                (or_zero (Gemini.candidatesTokenCount usage))
          | None =>
              gemini_start modelId rest failure sent' totalInputTokens totalOutputTokens
          end
      end
  | [] =>
      match failure with
      | Some e => mkByteStream sent (Errored e)
      | None =>
          mkByteStream
            (sent ++ [usage_frame totalInputTokens totalOutputTokens modelId None])%list
            Closed
      end
  end.

Definition gemini_stream (modelId : string) (up : Upstream Gemini.Chunk) : ByteStream :=
  gemini_start modelId (events up) (failure up) [] 0 0.

(** *** The OpenAI run adapter *)

Definition block_frames (block : OpenAI.Block) : list string :=
  if String.eqb (OpenAI.type block) "text" && given (OpenAI.text_value block)
  then [text_frame (or_else (OpenAI.text_value block) "")]
  else [].

(** [start(controller)] of the stream of [handleOpenAI]. *)
Fixpoint openai_start (modelId currentThreadId : string) (run : list OpenAI.RunEvent)
    (failure : option Error) (sent : list string)
    (totalInputTokens totalOutputTokens : Z) : ByteStream :=
  match run with
  | event :: rest =>
      match event with
      | OpenAI.thread_message_delta (Some blocks) =>
          openai_start modelId currentThreadId rest failure
            (sent ++ flat_map block_frames blocks)%list totalInputTokens totalOutputTokens
      | OpenAI.thread_run_completed (Some usage) =>
          openai_start modelId currentThreadId rest failure sent
            (or_zero (OpenAI.prompt_tokens usage))
            (or_zero (OpenAI.completion_tokens usage))
      | _ =>
          openai_start modelId currentThreadId rest failure sent
            totalInputTokens totalOutputTokens
      end
  | [] =>
      match failure with
      | Some e => mkByteStream sent (Errored e)
      | None =>
          mkByteStream
            (sent ++ [usage_frame totalInputTokens totalOutputTokens modelId
                        (Some currentThreadId)])%list
            Closed
      end
  end.

Definition openai_stream (modelId currentThreadId : string) (run : Upstream OpenAI.RunEvent)
    : ByteStream :=
  openai_start modelId currentThreadId (events run) (failure run) [] 0 0.

(** *** The OpenAI completion adapter *)

Definition simple_systemMessage : OpenAI.ChatMessageParam :=
  OpenAI.mkChatMessageParam "system"
    ("You are a helpful expert editorial assistant. " ++ nl ++ nl
     ++ "IMPORTANT RULES:" ++ nl
     ++ "1. Answer questions accurately and helpfully" ++ nl
     ++ "2. If you reference information, cite it clearly" ++ nl
     ++ "3. Be concise but thorough").

Definition formattedMessages (messages : list ChatMessage) : list OpenAI.ChatMessageParam :=
  simple_systemMessage
  :: map (fun m => OpenAI.mkChatMessageParam (role m) (content m)) messages.

(** [chunk.choices[0]?.delta?.content] *)
Definition first_content (chunk : OpenAI.CompletionChunk) : option string :=
  match OpenAI.choices chunk with
  | choice :: _ => OpenAI.delta_content choice
  | [] => None
  end.

(** [start(controller)] of the stream of [handleOpenAISimple]. *)
Fixpoint simple_start (modelId : string) (response : list OpenAI.CompletionChunk)
    (failure : option Error) (sent : list string)
    (totalInputTokens totalOutputTokens : Z) : ByteStream :=
  match response with
  | chunk :: rest =>
      let sent' := if given (first_content chunk)
                   then (sent ++ [text_frame (or_else (first_content chunk) "")])%list
                   else sent in
      match OpenAI.usage chunk with
      | Some usage =>
          simple_start modelId rest failure sent'
            (or_zero (OpenAI.prompt_tokens usage))
            (or_zero (OpenAI.completion_tokens usage))
      | None =>
          simple_start modelId rest failure sent' totalInputTokens totalOutputTokens
      end
  | [] =>
      match failure with
      | Some e => mkByteStream sent (Errored e)
      | None =>
          mkByteStream
            (sent ++ [usage_frame totalInputTokens totalOutputTokens modelId None])%list
            Closed
      end
  end.

Definition simple_stream (modelId : string) (response : Upstream OpenAI.CompletionChunk)
    : ByteStream :=
  simple_start modelId (events response) (failure response) [] 0 0.

Section WithSdk.

Context {V : Type}.
Variable sdk : Sdk V.

(** Lifting a value that reading may have thrown. *)
Definition lift {A : Type} (r : result A) : M V A :=
  match r with
  | Ok a => ret a
  | Throw e => throw e
  end.

Definition handleGemini (messages : list ChatMessage) (apiKey modelId : string)
    : M V Response :=
  let genAI := new_GoogleGenerativeAI sdk apiKey in
  let fileManager := new_GoogleAIFileManager sdk apiKey in
  fileList <- sdk_call C_listFiles (listFiles fileManager) ;;
  let files := match Gemini.files fileList with
               | Some fs => fs
               | None => []
               end in
  let params := Gemini.mkModelParams modelId (gemini_systemInstruction (fileNames files)) in
  let history := gemini_history files messages in
  request <- lift (last_content messages) ;;
  result <- sdk_call (C_sendMessageStream params history request)
              (sendMessageStream genAI params history request) ;;
  ret (StreamResponse (gemini_stream modelId result)).

Definition handleOpenAISimple (messages : list ChatMessage) (openai : OpenAIClient V)
    (modelId : string) : M V Response :=
  response <- sdk_call (C_chat_completions_create modelId (formattedMessages messages))
                (chat_completions_create openai modelId (formattedMessages messages)) ;;
  ret (StreamResponse (simple_stream modelId response)).

Definition handleOpenAI (messages : list ChatMessage) (apiKey modelId : string)
    (assistantId threadId : option string) : M V Response :=
  let openai := new_OpenAI sdk apiKey in
  if negb (given assistantId) then handleOpenAISimple messages openai modelId
  else
    currentThreadId <-
      (if negb (given threadId)
       then sdk_call C_threads_create (beta_threads_create openai)
       else ret (or_else threadId "")) ;;
    request <- lift (last_content messages) ;;
    _ <- sdk_call (C_threads_messages_create currentThreadId "user" request)
           (beta_threads_messages_create openai currentThreadId "user" request) ;;
    run <- sdk_open (C_threads_runs_stream currentThreadId (or_else assistantId ""))
             (beta_threads_runs_stream openai currentThreadId (or_else assistantId "")) ;;
    ret (StreamResponse (openai_stream modelId currentThreadId run)).

Definition the_provider (body : ChatBody) : string :=
  match provider body with
  | Some p => p
  | None => "gemini"
  end.

Definition effectiveApiKey (body : ChatBody) : string := or_else (apiKey body) "".

Definition effectiveModel (body : ChatBody) : string :=
  or_else (model body)
    (if String.eqb (the_provider body) "openai" then "gpt-4o-mini" else "gemini-2.5-flash").

Definition missing_key_response (body : ChatBody) : Response :=
  JsonResponse 400
    (JSON.Obj [("error", JSON.Str
       ("No " ++ (if String.eqb (the_provider body) "openai" then "OpenAI" else "Gemini")
        ++ " API key configured. Please add one in Settings."))]).

(** The [catch] block of [POST]. *)
Definition error_response (error : Error) : Response :=
  let errorMessage :=
    if includes (message error) "API_KEY_INVALID" || includes (message error) "invalid_api_key"
    then "Invalid API key. Please check your key in Settings."
    else "Failed to generate response" in
  JsonResponse 500 (JSON.Obj [("error", JSON.Str errorMessage)]).

(** [req_json] is what [await req.json()] gives.  The handlers are returned
    without [await], so a handler that rejects rejects the promise of [POST]
    itself: of what is thrown, only a failure of [req.json()] reaches the
    [catch] block. *)
Definition POST (req_json : result ChatBody) : M V Response :=
  match req_json with
  | Throw error => ret (error_response error)
  | Ok body =>
      if String.eqb (effectiveApiKey body) "" then ret (missing_key_response body)
      else if String.eqb (the_provider body) "openai" then
        handleOpenAI (messages body) (effectiveApiKey body) (effectiveModel body)
                     (assistantId body) (threadId body)
      else handleGemini (messages body) (effectiveApiKey body) (effectiveModel body)
  end.

End WithSdk.

End ChatRoute.

(** ** [lib/openai-assistants]: the files of a vector store

    [listVectorStoreFiles] and [deleteVectorStoreFile] use four more
    endpoints of the OpenAI client.  Their calls are logged beside the state
    of the vendor. *)

Module VectorStoreFiles.

Local Open Scope async_scope.

(** An entry of the [data] of [beta.vectorStores.files.list]. *)
Module Entry.
Record t : Type := mk {
  id : string;
  file_id : string;
  status : string
}.
End Entry.

(** What [files.retrieve] resolves to. *)
Record FileObject : Type := mkFileObject {
  filename : string;
  created_at : Z
}.

Inductive FileCall : Type :=
| C_vectorStores_files_list (vectorStoreId : string)
| C_files_retrieve (fileId : string)
| C_vectorStores_files_del (vectorStoreId vectorStoreFileId : string)
| C_files_delete (fileId : string).

(** The four endpoints; [files.retrieve] reads and leaves the vendor as it
    is. *)
Record FilesClient (V : Type) : Type := mkFilesClient {
  beta_vectorStores_files_list : string -> V -> result (list Entry.t) * V;
  files_retrieve : string -> V -> result FileObject;
  beta_vectorStores_files_del : string -> string -> V -> result unit * V;
  files_delete : string -> V -> result unit * V
}.
Arguments beta_vectorStores_files_list {V} _ _ _.
Arguments files_retrieve {V} _ _ _.
Arguments beta_vectorStores_files_del {V} _ _ _ _.
Arguments files_delete {V} _ _ _.

(** The state of the vendor with the log of the calls to these endpoints. *)
Record Logged (V : Type) : Type := mkLogged {
  service : V;
  file_calls : list FileCall
}.
Arguments mkLogged {V} _ _.
Arguments service {V} _.
Arguments file_calls {V} _.

(** An awaited call to one of the endpoints. *)
Definition file_call {V A : Type} (c : FileCall) (op : V -> result A * V)
    : M (Logged V) A :=
  fun w =>
    let '(r, v') := op (service (vendor w)) in
    (r, mkWorld (mkLogged v' (file_calls (vendor w) ++ [c])%list) (calls w)).

(** An element of what [listVectorStoreFiles] resolves to. *)
Record Details : Type := mkDetails {
  id : string;
  fileId : string;
  name : string;
  status : string;
  createdAt : Z
}.

Section WithClient.

Context {V : Type}.
Variable openai : FilesClient V.

(** The callback of [files.data.map]: it catches what the retrieval
    throws. *)
Definition file_details (vsFile : Entry.t) : M (Logged V) Details :=
  try_catch
    (file <- file_call (C_files_retrieve (Entry.file_id vsFile))
               (fun v => (files_retrieve openai (Entry.file_id vsFile) v, v)) ;;
     ret (mkDetails (Entry.id vsFile) (Entry.file_id vsFile) (filename file)
            (Entry.status vsFile) (created_at file)))
    (fun _ =>
       ret (mkDetails (Entry.id vsFile) (Entry.file_id vsFile) "Unknown"
              (Entry.status vsFile) 0)).

(** [Promise.all] of the callbacks: none of them rejects, and they only
    read, so that the order in which the vendor answers changes nothing;
    the retrievals are logged in the order in which [map] starts them. *)
Fixpoint all_file_details (files : list Entry.t) : M (Logged V) (list Details) :=
  match files with
  | [] => ret []
  | vsFile :: rest =>
      details <- file_details vsFile ;;
      others <- all_file_details rest ;;
      ret (details :: others)
  end.

Definition listVectorStoreFiles (vectorStoreId : string) : M (Logged V) (list Details) :=
  files <- file_call (C_vectorStores_files_list vectorStoreId)
             (beta_vectorStores_files_list openai vectorStoreId) ;;
  all_file_details files.

Definition deleteVectorStoreFile (vectorStoreId fileId : string) : M (Logged V) unit :=
  files <- file_call (C_vectorStores_files_list vectorStoreId)
             (beta_vectorStores_files_list openai vectorStoreId) ;;
  _ <- match find (fun f => String.eqb (Entry.file_id f) fileId) files with
       | Some vsFile =>
           file_call (C_vectorStores_files_del vectorStoreId (Entry.id vsFile))
             (beta_vectorStores_files_del openai vectorStoreId (Entry.id vsFile))
       | None => ret tt
       end ;;
  file_call (C_files_delete fileId) (files_delete openai fileId).

End WithClient.

(** A vendor for these endpoints: the entries of the one store, and the
    files that can still be retrieved. *)
Record Store : Type := mkStore {
  entries : list Entry.t;
  objects : list (string * FileObject)
}.

Definition missing : Error := JsError "404 No such File object".

Definition Sim_files : FilesClient Store :=
  mkFilesClient Store
    (fun _ s => (Ok (entries s), s))
    (fun fileId s =>
       match find (fun o => String.eqb (fst o) fileId) (objects s) with
       | Some o => Ok (snd o)
       | None => Throw missing
       end)
    (fun _ vectorStoreFileId s =>
       (Ok tt,
        mkStore
          (filter (fun f => negb (String.eqb (Entry.id f) vectorStoreFileId)) (entries s))
          (objects s)))
    (fun fileId s =>
       match find (fun o => String.eqb (fst o) fileId) (objects s) with
       | Some _ =>
           (Ok tt,
            mkStore (entries s)
                    (filter (fun o => negb (String.eqb (fst o) fileId)) (objects s)))
       | None => (Throw missing, s)
       end).

(** A store of two files, the second of which was deleted at the vendor. *)
Definition two_files : Store :=
  mkStore
    [Entry.mk "file-1" "file-1" "completed"; Entry.mk "file-2" "file-2" "failed"]
    [("file-1", mkFileObject "guide.pdf" 1700000000)].

Definition start (s : Store) : World (Logged Store) := mkWorld (mkLogged s []) [].

End VectorStoreFiles.

(** ** [lib/settings]: what the browser stores

    [localStorage] is the list of its items; [window] is missing on the
    server, where the getters answer their defaults and the setters do
    nothing. *)

Module Settings.

Definition Storage : Type := list (string * string).

Fixpoint getItem (key : string) (storage : Storage) : option string :=
  match storage with
  | [] => None
  | (k, v) :: rest => if String.eqb k key then Some v else getItem key rest
  end.

Definition removeItem (key : string) (storage : Storage) : Storage :=
  filter (fun item => negb (String.eqb (fst item) key)) storage.

Definition setItem (key value : string) (storage : Storage) : Storage :=
  (key, value) :: removeItem key storage.

(** [window], with its [localStorage]; [None] for [undefined]. *)
Definition Window : Type := option Storage.

Module STORAGE_KEYS.
Definition PROVIDER : string := "rag-provider".
Definition GEMINI_API_KEY : string := "rag-gemini-api-key".
Definition OPENAI_API_KEY : string := "rag-openai-api-key".
Definition MODEL : string := "rag-model".
Definition USAGE : string := "rag-usage".
End STORAGE_KEYS.

(** The type [Provider]: the strings [gemini] and [openai]. *)
Inductive Provider : Type := gemini | openai.

Definition provider_string (p : Provider) : string :=
  match p with
  | gemini => "gemini"
  | openai => "openai"
  end.

(** A model, with its prices per million tokens. *)
Record Model : Type := mkModel {
  id : string;
  name : string;
  description : string;
  inputPrice : QArith_base.Q;
  outputPrice : QArith_base.Q;
  speed : string
}.

Definition GEMINI_MODELS : list Model :=
  [mkModel "gemini-2.5-flash" "Gemini 2.5 Flash"
     "Latest & fastest. Best for most use cases."
     (QArith_base.Qmake 15 100) (QArith_base.Qmake 60 100) "fast";
   mkModel "gemini-1.5-flash" "Gemini 1.5 Flash"
     "Fast and cost-effective. Good balance."
     (QArith_base.Qmake 75 1000) (QArith_base.Qmake 30 100) "fast";
   mkModel "gemini-1.5-pro" "Gemini 1.5 Pro"
     "Most capable. Best for complex reasoning."
     (QArith_base.Qmake 125 100) (QArith_base.Qmake 500 100) "slow"].

Definition OPENAI_MODELS : list Model :=
  [mkModel "gpt-4o" "GPT-4o"
     "Most capable. Best for complex tasks."
     (QArith_base.Qmake 250 100) (QArith_base.Qmake 1000 100) "fast";
   mkModel "gpt-4o-mini" "GPT-4o Mini"
     "Fast and affordable. Great for most tasks."
     (QArith_base.Qmake 15 100) (QArith_base.Qmake 60 100) "fast";
   mkModel "gpt-4-turbo" "GPT-4 Turbo"
     "Powerful with large context. Good for analysis."
     (QArith_base.Qmake 1000 100) (QArith_base.Qmake 3000 100) "slow"].

Definition getProvider (window : Window) : Provider :=
  match window with
  | None => gemini
  | Some localStorage =>
      match getItem STORAGE_KEYS.PROVIDER localStorage with
      | Some stored => if String.eqb stored "openai" then openai else gemini
      | None => gemini
      end
  end.

Definition setProvider (provider : Provider) (window : Window) : Window :=
  match window with
  | None => None
  | Some localStorage =>
      Some (setItem STORAGE_KEYS.PROVIDER (provider_string provider) localStorage)
  end.

(** [provider || getProvider()] *)
Definition provider_or_stored (provider : option Provider) (window : Window) : Provider :=
  match provider with
  | Some p => p
  | None => getProvider window
  end.

(** [p === "openai" ? STORAGE_KEYS.OPENAI_API_KEY : STORAGE_KEYS.GEMINI_API_KEY] *)
Definition key_of (p : Provider) : string :=
  match p with
  | openai => STORAGE_KEYS.OPENAI_API_KEY
  | gemini => STORAGE_KEYS.GEMINI_API_KEY
  end.

Definition getApiKey (provider : option Provider) (window : Window) : option string :=
  match window with
  | None => None
  | Some localStorage => getItem (key_of (provider_or_stored provider window)) localStorage
  end.

Definition setApiKey (apiKey : string) (provider : option Provider) (window : Window)
    : Window :=
  match window with
  | None => None
  | Some localStorage =>
      Some (setItem (key_of (provider_or_stored provider window)) apiKey localStorage)
  end.

Definition clearApiKey (provider : option Provider) (window : Window) : Window :=
  match window with
  | None => None
  | Some localStorage =>
      Some (removeItem (key_of (provider_or_stored provider window)) localStorage)
  end.

Definition getModelsForProvider (provider : option Provider) (window : Window)
    : list Model :=
  match provider_or_stored provider window with
  | openai => OPENAI_MODELS
  | gemini => GEMINI_MODELS
  end.

Definition getSelectedModel (provider : option Provider) (window : Window) : string :=
  match window with
  | None => "gemini-2.5-flash"
  | Some localStorage =>
      let stored := getItem STORAGE_KEYS.MODEL localStorage in
      let p := provider_or_stored provider window in
      let models := match p with
                    | openai => OPENAI_MODELS
                    | gemini => GEMINI_MODELS
                    end in
      if given stored && existsb (fun m => String.eqb (id m) (or_else stored "")) models
      then or_else stored ""
      else match p with
           | openai => "gpt-4o-mini"
           | gemini => "gemini-2.5-flash"
           end
  end.

Definition setSelectedModel (modelId : string) (window : Window) : Window :=
  match window with
  | None => None
  | Some localStorage => Some (setItem STORAGE_KEYS.MODEL modelId localStorage)
  end.

End Settings.

(** ** The request of [ChatInterface.handleSubmit] *)

Module OPENAI_STORAGE_KEYS.
Definition ASSISTANT_ID : string := "rag-openai-assistant-id".
Definition VECTOR_STORE_ID : string := "rag-openai-vector-store-id".
Definition THREAD_ID : string := "rag-openai-thread-id".
End OPENAI_STORAGE_KEYS.

(** [if (x) requestBody.field = x]: the field is set when [x] is truthy. *)
Definition when_truthy (x : option string) : option string :=
  if given x then x else None.

(** The request body that [handleSubmit] sends, as [req.json()] gives it
    back to the route; it is built in the browser, on its [localStorage]. *)
Definition requestBody (localStorage : Settings.Storage)
    (currentMessages : list ChatInterface.Message) : ChatRoute.ChatBody :=
  let window := Some localStorage in
  let apiKey := Settings.getApiKey None window in
  let model := Settings.getSelectedModel None window in
  let provider := Settings.getProvider window in
  ChatRoute.mkChatBody
    (map (fun m => ChatRoute.mkChatMessage (ChatInterface.role m) (ChatInterface.content m))
         currentMessages)
    apiKey (Some model) (Some (Settings.provider_string provider))
    (match provider with
     | Settings.openai =>
         when_truthy (Settings.getItem OPENAI_STORAGE_KEYS.ASSISTANT_ID localStorage)
     | Settings.gemini => None
     end)
    (match provider with
     | Settings.openai =>
         when_truthy (Settings.getItem OPENAI_STORAGE_KEYS.THREAD_ID localStorage)
     | Settings.gemini => None
     end).

(** ** What the statements speak of *)

(** *** The run of an adapter: the upstream it was handed *)

Inductive Adapter : Type :=
| GeminiAdapter (result : Upstream Gemini.Chunk)
| OpenAIRunAdapter (currentThreadId : string) (run : Upstream OpenAI.RunEvent)
| OpenAISimpleAdapter (response : Upstream OpenAI.CompletionChunk).

Definition adapter_stream (modelId : string) (a : Adapter) : ByteStream :=
  match a with
  | GeminiAdapter result => ChatRoute.gemini_stream modelId result
  | OpenAIRunAdapter currentThreadId run => ChatRoute.openai_stream modelId currentThreadId run
  | OpenAISimpleAdapter response => ChatRoute.simple_stream modelId response
  end.

Definition text_known (chunk : Gemini.Chunk) : bool :=
  match Gemini.text chunk with
  | Ok _ => true
  | Throw _ => false
  end.

(** The upstream stream ends without an error, and no chunk of it throws
    when read. *)
Definition completes (a : Adapter) : bool :=
  match a with
  | GeminiAdapter result =>
      match failure result with
      | None => forallb text_known (events result)
      | Some _ => false
      end
  | OpenAIRunAdapter _ run =>
      match failure run with None => true | Some _ => false end
  | OpenAISimpleAdapter response =>
      match failure response with None => true | Some _ => false end
  end.

Definition is_some {A : Type} (x : option A) : bool :=
  match x with Some _ => true | None => false end.

Definition run_reports_usage (event : OpenAI.RunEvent) : bool :=
  match event with
  | OpenAI.thread_run_completed (Some _) => true
  | _ => false
  end.

(** Some event of the upstream carries usage. *)
Definition reports_usage (a : Adapter) : bool :=
  match a with
  | GeminiAdapter result =>
      existsb (fun chunk => is_some (Gemini.usageMetadata chunk)) (events result)
  | OpenAIRunAdapter _ run => existsb run_reports_usage (events run)
  | OpenAISimpleAdapter response =>
      existsb (fun chunk => is_some (OpenAI.usage chunk)) (events response)
  end.

Definition nonempty (s : string) : list string :=
  if String.eqb s "" then [] else [s].

Definition gemini_fragment (chunk : Gemini.Chunk) : list string :=
  match Gemini.text chunk with
  | Ok text => nonempty text
  | Throw _ => []
  end.

Definition block_fragment (block : OpenAI.Block) : list string :=
  if String.eqb (OpenAI.type block) "text"
  then match OpenAI.text_value block with
       | Some text => nonempty text
       | None => []
       end
  else [].

Definition run_fragments (event : OpenAI.RunEvent) : list string :=
  match event with
  | OpenAI.thread_message_delta (Some blocks) => flat_map block_fragment blocks
  | _ => []
  end.

Definition completion_fragment (chunk : OpenAI.CompletionChunk) : list string :=
  match OpenAI.choices chunk with
  | choice :: _ =>
      match OpenAI.delta_content choice with
      | Some text => nonempty text
      | None => []
      end
  | [] => []
  end.

(** The non-empty text fragments of the upstream, in the order they came. *)
Definition fragments (a : Adapter) : list string :=
  match a with
  | GeminiAdapter result => flat_map gemini_fragment (events result)
  | OpenAIRunAdapter _ run => flat_map run_fragments (events run)
  | OpenAISimpleAdapter response => flat_map completion_fragment (events response)
  end.

Definition counts (usage : OpenAI.Usage) : Z * Z :=
  (or_zero (OpenAI.prompt_tokens usage), or_zero (OpenAI.completion_tokens usage)).

(** The counts after an event, [acc] being the counts before it. *)
Definition gemini_usage_step (acc : Z * Z) (chunk : Gemini.Chunk) : Z * Z :=
  match Gemini.usageMetadata chunk with
  | Some usage => (or_zero (Gemini.promptTokenCount usage),
                   or_zero (Gemini.candidatesTokenCount usage))
  | None => acc
  end.

Definition run_usage_step (acc : Z * Z) (event : OpenAI.RunEvent) : Z * Z :=
  match event with
  | OpenAI.thread_run_completed (Some usage) => counts usage
  | _ => acc
  end.

Definition completion_usage_step (acc : Z * Z) (chunk : OpenAI.CompletionChunk) : Z * Z :=
  match OpenAI.usage chunk with
  | Some usage => counts usage
  | None => acc
  end.

(** The token counts of the last event that carried usage, none being
    [(0, 0)]. *)
Definition latest_usage (a : Adapter) : Z * Z :=
  match a with
  | GeminiAdapter result => fold_left gemini_usage_step (events result) (0%Z, 0%Z)
  | OpenAIRunAdapter _ run => fold_left run_usage_step (events run) (0%Z, 0%Z)
  | OpenAISimpleAdapter response =>
      fold_left completion_usage_step (events response) (0%Z, 0%Z)
  end.

(** The thread handle that the summary carries. *)
Definition adapter_thread (a : Adapter) : option string :=
  match a with
  | OpenAIRunAdapter currentThreadId _ => Some currentThreadId
  | _ => None
  end.

(** The stream that a completed upstream must give. *)
Definition expected_stream (modelId : string) (a : Adapter) : ByteStream :=
  mkByteStream
    (map text_frame (fragments a)
     ++ [usage_frame (fst (latest_usage a)) (snd (latest_usage a)) modelId
           (adapter_thread a)])%list
    Closed.

(** The lines of a byte stream: what [split('\n')] makes of all of it. *)
Definition lines_of (frames : list string) : list string :=
  split_nl (String.concat "" frames).

(** A frame without its line feed. *)
Definition text_line (text : string) : string := "0:" ++ JSON.stringify (JSON.Str text).

Definition usage_line (inputTokens outputTokens : Z) (model : string)
    (threadId : option string) : string :=
  "2:" ++ JSON.stringify (usage_payload inputTokens outputTokens model threadId).

(** *** A request that reaches an adapter

    [Opens sdk body v a v']: from the vendor state [v] the calls that [POST]
    makes for [body] before it answers all succeed, they leave the vendors
    in [v'], and the last of them hands out the upstream of [a]. *)

Inductive Opens {V : Type} (sdk : Sdk V) (body : ChatRoute.ChatBody) (v : V)
    : Adapter -> V -> Prop :=
| opens_gemini (fileList : Gemini.ListFilesResponse) (request : string)
    (result : Upstream Gemini.Chunk) (v1 v2 : V) :
    ChatRoute.effectiveApiKey body <> "" ->
    ChatRoute.the_provider body <> "openai" ->
    listFiles (new_GoogleAIFileManager sdk (ChatRoute.effectiveApiKey body)) v
      = (Ok fileList, v1) ->
    ChatRoute.last_content (ChatRoute.messages body) = Ok request ->
    sendMessageStream (new_GoogleGenerativeAI sdk (ChatRoute.effectiveApiKey body))
      (Gemini.mkModelParams (ChatRoute.effectiveModel body)
         (ChatRoute.gemini_systemInstruction
            (ChatRoute.fileNames
               (match Gemini.files fileList with Some fs => fs | None => [] end))))
      (ChatRoute.gemini_history
         (match Gemini.files fileList with Some fs => fs | None => [] end)
         (ChatRoute.messages body))
      request v1
      = (Ok result, v2) ->
    Opens sdk body v (GeminiAdapter result) v2
| opens_simple (response : Upstream OpenAI.CompletionChunk) (v1 : V) :
    ChatRoute.effectiveApiKey body <> "" ->
    ChatRoute.the_provider body = "openai" ->
    given (ChatRoute.assistantId body) = false ->
    chat_completions_create (new_OpenAI sdk (ChatRoute.effectiveApiKey body))
      (ChatRoute.effectiveModel body) (ChatRoute.formattedMessages (ChatRoute.messages body)) v
      = (Ok response, v1) ->
    Opens sdk body v (OpenAISimpleAdapter response) v1
| opens_new_thread (assistantId thread request : string)
    (run : Upstream OpenAI.RunEvent) (v1 v2 v3 : V) :
    ChatRoute.effectiveApiKey body <> "" ->
    ChatRoute.the_provider body = "openai" ->
    ChatRoute.assistantId body = Some assistantId -> assistantId <> "" ->
    given (ChatRoute.threadId body) = false ->
    beta_threads_create (new_OpenAI sdk (ChatRoute.effectiveApiKey body)) v
      = (Ok thread, v1) ->
    ChatRoute.last_content (ChatRoute.messages body) = Ok request ->
    beta_threads_messages_create (new_OpenAI sdk (ChatRoute.effectiveApiKey body))
      thread "user" request v1 = (Ok tt, v2) ->
    beta_threads_runs_stream (new_OpenAI sdk (ChatRoute.effectiveApiKey body))
      thread assistantId v2 = (run, v3) ->
    Opens sdk body v (OpenAIRunAdapter thread run) v3
| opens_thread (assistantId thread request : string)
    (run : Upstream OpenAI.RunEvent) (v1 v2 : V) :
    ChatRoute.effectiveApiKey body <> "" ->
    ChatRoute.the_provider body = "openai" ->
    ChatRoute.assistantId body = Some assistantId -> assistantId <> "" ->
    ChatRoute.threadId body = Some thread -> thread <> "" ->
    ChatRoute.last_content (ChatRoute.messages body) = Ok request ->
    beta_threads_messages_create (new_OpenAI sdk (ChatRoute.effectiveApiKey body))
      thread "user" request v = (Ok tt, v1) ->
    beta_threads_runs_stream (new_OpenAI sdk (ChatRoute.effectiveApiKey body))
      thread assistantId v1 = (run, v2) ->
    Opens sdk body v (OpenAIRunAdapter thread run) v2.

(** *** The polls of an ingestion

    [Settles openai vs f status v n final v']: a file whose status reads
    [status] in the vendor state [v] leaves [in_progress] after [n] further
    polls, with the status [final] and the vendor in [v']. *)

Inductive Settles {V : Type} (openai : OpenAIClient V) (vectorStoreId vectorStoreFileId : string)
    : string -> V -> nat -> string -> V -> Prop :=
| settles_now (status : string) (v : V) :
    status <> "in_progress" ->
    Settles openai vectorStoreId vectorStoreFileId status v 0 status v
| settles_later (updated : OpenAI.VectorStoreFile.t) (v v1 v2 : V) (n : nat) (final : string) :
    beta_vectorStores_files_retrieve openai vectorStoreId vectorStoreFileId v
      = (Ok updated, v1) ->
    Settles openai vectorStoreId vectorStoreFileId
      (OpenAI.VectorStoreFile.status updated) v1 n final v2 ->
    Settles openai vectorStoreId vectorStoreFileId "in_progress" v (S n) final v2.

(** The messages that the calls of a log append to threads. *)
Definition appended_message (c : Call) : list (string * string * string) :=
  match c with
  | C_threads_messages_create threadId role content => [(threadId, role, content)]
  | _ => []
  end.

Definition appended_messages (log : list Call) : list (string * string * string) :=
  flat_map appended_message log.

(** The calls of a log that create a resource at the vendor. *)
Definition creates (c : Call) : bool :=
  match c with
  | C_assistants_create _ | C_vectorStores_create _ | C_files_create _ _ _ _
  | C_vectorStores_files_create _ _ | C_threads_create => true
  | _ => false
  end.

(** The calls of a log that open a model session or a stream. *)
Definition opens_stream (c : Call) : bool :=
  match c with
  | C_sendMessageStream _ _ _ | C_threads_runs_stream _ _
  | C_chat_completions_create _ _ => true
  | _ => false
  end.

(** ** A vendor to run the code against

    A small service with the behaviour the code counts on: identifiers are
    fresh, what was created can be retrieved, what was never created (or
    was deleted) cannot.  The answers that depend on documents and models
    are scripted in the state. *)

Module Sim.

Record State : Type := mkState {
  (** identifiers handed out so far *)
  next : nat;
  (** the assistants that exist *)
  assistants : list OpenAI.Assistant.t;
  (** what the coming polls of a file answer; [completed] when none is left *)
  statuses : list string;
  (** the messages appended to threads, the newest last *)
  thread_messages : list (string * string);
  (** what [listFiles] answers *)
  listing : result Gemini.ListFilesResponse;
  (** the streams the three models answer with *)
  gemini_answer : Upstream Gemini.Chunk;
  run_answer : Upstream OpenAI.RunEvent;
  completion_answer : Upstream OpenAI.CompletionChunk
}.

Definition fresh (prefix : string) (s : State) : string :=
  prefix ++ Z_to_string (Z.of_nat (next s)).

Definition bump (s : State) (assistants' : list OpenAI.Assistant.t) : State :=
  mkState (S (next s)) assistants' (statuses s) (thread_messages s) (listing s)
          (gemini_answer s) (run_answer s) (completion_answer s).

Definition find_assistant (assistantId : string) (s : State) : option OpenAI.Assistant.t :=
  find (fun a => String.eqb (OpenAI.Assistant.id a) assistantId) (assistants s).

Definition not_found : Error := JsError "404 No assistant found".

Definition retrieve (assistantId : string) (s : State) : result OpenAI.Assistant.t * State :=
  match find_assistant assistantId s with
  | Some a => (Ok a, s)
  | None => (Throw not_found, s)
  end.

Definition create (params : OpenAI.AssistantCreateParams) (s : State)
    : result OpenAI.Assistant.t * State :=
  let a := OpenAI.Assistant.mk (fresh "asst_" s)
             (Some (OpenAI.file_search_vector_store_ids params)) in
  (Ok a, bump s (assistants s ++ [a])%list).

Definition update (assistantId : string) (vector_store_ids : list string) (s : State)
    : result OpenAI.Assistant.t * State :=
  match find_assistant assistantId s with
  | Some _ =>
      let a := OpenAI.Assistant.mk assistantId (Some vector_store_ids) in
      (Ok a,
       mkState (next s)
         (map (fun b => if String.eqb (OpenAI.Assistant.id b) assistantId then a else b)
              (assistants s))
         (statuses s) (thread_messages s) (listing s)
         (gemini_answer s) (run_answer s) (completion_answer s))
  | None => (Throw not_found, s)
  end.

Definition poll_file (s : State) : result OpenAI.VectorStoreFile.t * State :=
  match statuses s with
  | status :: rest =>
      (Ok (OpenAI.VectorStoreFile.mk "" status),
       mkState (next s) (assistants s) rest (thread_messages s) (listing s)
               (gemini_answer s) (run_answer s) (completion_answer s))
  | [] => (Ok (OpenAI.VectorStoreFile.mk "" "completed"), s)
  end.

Definition append_message (threadId content : string) (s : State) : result unit * State :=
  (Ok tt,
   mkState (next s) (assistants s) (statuses s)
           (thread_messages s ++ [(threadId, content)])%list (listing s)
           (gemini_answer s) (run_answer s) (completion_answer s)).

Definition openai : OpenAIClient State :=
  mkOpenAIClient State
    retrieve
    create
    update
    (fun _ s => (Ok (fresh "vs_" s), bump s (assistants s)))
    (fun _ _ _ _ s => (Ok (fresh "file-" s), bump s (assistants s)))
    (fun _ fileId s => (Ok (OpenAI.VectorStoreFile.mk fileId "in_progress"), s))
    (fun _ _ s => poll_file s)
    (fun s => (Ok (fresh "thread_" s), bump s (assistants s)))
    (fun _ s => (Ok tt, s))
    (fun threadId _ content s => append_message threadId content s)
    (fun _ _ s => (run_answer s, s))
    (fun _ _ s => (Ok (completion_answer s), s)).

Definition sdk : Sdk State :=
  mkSdk State
    (fun _ => openai)
    (fun _ => mkGoogleGenerativeAI State (fun _ _ _ s => (Ok (gemini_answer s), s)))
    (fun _ => mkGoogleAIFileManager State (fun s => (listing s, s))).

Definition no_answer {A : Type} : Upstream A := mkUpstream [] None.

(** A vendor with nothing created yet and no document. *)
Definition empty : State :=
  mkState 0 [] [] [] (Ok (Gemini.mkListFilesResponse None)) no_answer no_answer no_answer.

Definition start (s : State) : World State := mkWorld s [].

End Sim.

(** ** The stream of the round trip *)

Definition sample_fragments : list string := ["The"; " "; "answer"; " is"; " 42."].

(** The lines of the fragments, then the line of the usage. *)
Definition sample_frames : list string :=
  (map text_frame sample_fragments ++ [usage_frame 10 5 "m" None])%list.

Definition sample_bytes : string := String.concat "" sample_frames.

Definition sample_usage : option JSON.value * option JSON.value * option JSON.value :=
  (Some (JSON.int 10), Some (JSON.int 5), Some (JSON.Str "m")).

(** An upstream of Gemini with these fragments, whose last chunks report
    the cumulative counts. *)
Definition sample_upstream : Upstream Gemini.Chunk :=
  mkUpstream
    [Gemini.mkChunk (Ok "The") None;
     Gemini.mkChunk (Ok " ") None;
     Gemini.mkChunk (Ok "answer") (Some (Gemini.mkUsageMetadata (Some 10%Z) (Some 2%Z)));
     Gemini.mkChunk (Ok " is") None;
     Gemini.mkChunk (Ok " 42.") (Some (Gemini.mkUsageMetadata (Some 10%Z) (Some 5%Z)))]
    None.

(** The bytes delivered in two reads, broken at [offset]. *)
Definition two_reads (offset : nat) : list string :=
  [substring0 offset sample_bytes; slice offset sample_bytes].

(** Whether the client, fed [reads], ends with the content and the usage
    that were sent. *)
Definition reconstructs (reads : list string) : bool :=
  let c := ChatInterface.read_body [] "assistant-1" reads Closed in
  String.eqb (ChatInterface.assistantContent c) "The answer is 42."
  && match ChatInterface.trackUsage_calls c with
     | [(Some (JSON.Number 10 0), Some (JSON.Number 5 0), Some (JSON.Str "m"))] => true
     | _ => false
     end.

(** ** The frames and what the client keeps of them *)

(** The two frames of the wire format. *)
Inductive StreamFrame : Type :=
| TextDelta (fragment : string)
| UsageSummary (inputTokens outputTokens : Z) (model : string) (threadHandle : option string).

Definition encode (frame : StreamFrame) : string :=
  match frame with
  | TextDelta fragment => text_frame fragment
  | UsageSummary i o model thread => usage_frame i o model thread
  end.

(** A frame without its line feed. *)
Definition line_of (frame : StreamFrame) : string :=
  match frame with
  | TextDelta fragment => text_line fragment
  | UsageSummary i o model thread => usage_line i o model thread
  end.

(** What the client keeps of a state: the content and the usage calls. *)
Definition decoded (c : ChatInterface.Client)
    : string * list (option JSON.value * option JSON.value * option JSON.value) :=
  (ChatInterface.assistantContent c, ChatInterface.trackUsage_calls c).

(** What a frame adds to the content and to the usage calls. *)
Definition received (frame : StreamFrame)
    (d : string * list (option JSON.value * option JSON.value * option JSON.value))
    : string * list (option JSON.value * option JSON.value * option JSON.value) :=
  match frame with
  | TextDelta fragment => (fst d ++ fragment, snd d)
  | UsageSummary i o model _ =>
      (fst d, (snd d ++ [(Some (JSON.int i), Some (JSON.int o), Some (JSON.Str model))])%list)
  end.

(** What may follow a number inside the usage object. *)
Definition closes (rest : string) : Prop :=
  exists r : string, rest = String "," r \/ rest = String "}" r.

(** The first character of a printed integer starts a number and nothing
    else. *)
Definition starts_number (c : ascii) : bool :=
  negb (JSON.is_ws c) && negb (Ascii.eqb c "{") && negb (Ascii.eqb c "[")
  && negb (Ascii.eqb c DQ) && negb (Ascii.eqb c "t") && negb (Ascii.eqb c "f")
  && negb (Ascii.eqb c "n").

(** What follows the [usage] member in the text of the usage object. *)
Definition usage_tail (threadId : option string) : string :=
  match threadId with
  | Some t => String "," (JSON.quote "threadId" ++ String ":" (JSON.quote t ++ "}"))
  | None => "}"
  end.

(** ** Runs against the vendor, for the examples *)

(** The world after one call of [getOrCreateAssistant] without handles. *)
Definition Sim_after_first : World Sim.State :=
  snd (OpenAIAssistants.getOrCreateAssistant Sim.openai None None (Sim.start Sim.empty)).

(** The world after a second such call. *)
Definition Sim_after_second : World Sim.State :=
  snd (OpenAIAssistants.getOrCreateAssistant Sim.openai None None Sim_after_first).

(** A vendor whose file fails after two polls. *)
Definition Sim_failing_ingestion : Sim.State :=
  Sim.mkState 0 [] ["in_progress"; "failed"] [] (Ok (Gemini.mkListFilesResponse None))
    Sim.no_answer Sim.no_answer Sim.no_answer.

(** A vendor with no document, whose model answers with the sample. *)
Definition Sim_answering : Sim.State :=
  Sim.mkState 0 [] [] [] (Ok (Gemini.mkListFilesResponse None))
    sample_upstream Sim.no_answer Sim.no_answer.

(** A vendor whose assistant answers a run without reporting usage. *)
Definition Sim_silent_run : Sim.State :=
  Sim.mkState 2 [OpenAI.Assistant.mk "asst_1" (Some ["vs_0"])] [] []
    (Ok (Gemini.mkListFilesResponse None)) Sim.no_answer
    (mkUpstream
       [OpenAI.other_event "thread.run.created";
        OpenAI.thread_message_delta
          (Some [OpenAI.mkBlock "text" (Some "X is "); OpenAI.mkBlock "text" (Some "42.")]);
        OpenAI.thread_run_completed None]
       None)
    Sim.no_answer.

(** A history of one question. *)
Definition question : list ChatRoute.ChatMessage :=
  [ChatRoute.mkChatMessage "user" "What is X?"].

(** The two turns before a follow-up question. *)
Definition earlier_turns : list ChatRoute.ChatMessage :=
  [ChatRoute.mkChatMessage "user" "What is X?";
   ChatRoute.mkChatMessage "assistant" "X is 42. [Source: guide.pdf]"].

(** ** What the further properties speak of *)

(** The fragments that a list of frames carries, in order. *)
Definition fragments_of (frames : list StreamFrame) : list string :=
  flat_map (fun frame => match frame with
                         | TextDelta fragment => [fragment]
                         | UsageSummary _ _ _ _ => []
                         end) frames.

(** The arguments of [trackUsage] that a list of frames carries, in order. *)
Definition usages_of (frames : list StreamFrame)
    : list (option JSON.value * option JSON.value * option JSON.value) :=
  flat_map (fun frame => match frame with
                         | TextDelta _ => []
                         | UsageSummary i o model _ =>
                             [(Some (JSON.int i), Some (JSON.int o), Some (JSON.Str model))]
                         end) frames.

(** The frames of a completed answer: its fragments, then its summary. *)
Definition frames_of_answer (modelId : string) (a : Adapter) : list StreamFrame :=
  (map TextDelta (fragments a)
   ++ [UsageSummary (fst (latest_usage a)) (snd (latest_usage a)) modelId
         (adapter_thread a)])%list.

(** A list of frames with the thread handles of its summaries removed. *)
Definition without_thread (frame : StreamFrame) : StreamFrame :=
  match frame with
  | TextDelta fragment => TextDelta fragment
  | UsageSummary i o model _ => UsageSummary i o model None
  end.

(** The first error an upstream of Gemini runs into: a chunk that throws
    when its text is read, or the failure of the stream itself. *)
Fixpoint gemini_interruption (chunks : list Gemini.Chunk) (failure : option Error)
    : option Error :=
  match chunks with
  | [] => failure
  | chunk :: rest =>
      match Gemini.text chunk with
      | Throw e => Some e
      | Ok _ => gemini_interruption rest failure
      end
  end.

(** The non-empty fragments of the chunks before the first that throws. *)
Fixpoint gemini_sent (chunks : list Gemini.Chunk) : list string :=
  match chunks with
  | [] => []
  | chunk :: rest =>
      match Gemini.text chunk with
      | Throw _ => []
      | Ok text => (nonempty text ++ gemini_sent rest)%list
      end
  end.

(** The error that ends the upstream of an adapter, if one does. *)
Definition interruption (a : Adapter) : option Error :=
  match a with
  | GeminiAdapter result => gemini_interruption (events result) (failure result)
  | OpenAIRunAdapter _ run => failure run
  | OpenAISimpleAdapter response => failure response
  end.

(** The fragments that came before that error. *)
Definition sent_fragments (a : Adapter) : list string :=
  match a with
  | GeminiAdapter result => gemini_sent (events result)
  | _ => fragments a
  end.

(** Whether a chunk of Gemini carries no usage. *)
Definition gemini_quiet (chunk : Gemini.Chunk) : bool :=
  negb (is_some (Gemini.usageMetadata chunk)).

(** The texts among what [streamAssistantResponse] yields. *)
Definition yield_texts (yields : list OpenAIAssistants.Yield) : list string :=
  flat_map (fun y => match y with
                     | OpenAIAssistants.yield_text content => [content]
                     | OpenAIAssistants.yield_usage _ _ => []
                     end) yields.

(** The calls of the Gemini SDK. *)
Definition gemini_call (c : Call) : bool :=
  match c with
  | C_listFiles | C_sendMessageStream _ _ _ => true
  | _ => false
  end.

(** The calls that reach OpenAI. *)
Definition openai_call (c : Call) : bool := negb (gemini_call c).

(** The references to files among the parts of a history. *)
Definition file_references (history : list Gemini.Content) : list (string * string) :=
  flat_map (fun part => match part with
                        | Gemini.FileDataPart mime fileUri => [(mime, fileUri)]
                        | Gemini.TextPart _ => []
                        end)
           (flat_map Gemini.parts history).

(** ** Further vendors, for the examples *)

(** A vendor whose model answers one fragment and then blocks the rest. *)
Definition Sim_blocked : Sim.State :=
  Sim.mkState 0 [] [] [] (Ok (Gemini.mkListFilesResponse None))
    (mkUpstream
       [Gemini.mkChunk (Ok "The answer") None;
        Gemini.mkChunk (Throw (JsError "Response was blocked due to SAFETY")) None;
        Gemini.mkChunk (Ok " is 42.") None]
       None)
    Sim.no_answer Sim.no_answer.

(** A vendor that retrieves and creates, and refuses every update of an
    assistant. *)
Definition Sim_no_update : OpenAIClient Sim.State :=
  mkOpenAIClient Sim.State
    Sim.retrieve Sim.create
    (fun _ _ s => (Throw (JsError "500 The server had an error"), s))
    (beta_vectorStores_create Sim.openai)
    (files_create Sim.openai)
    (beta_vectorStores_files_create Sim.openai)
    (beta_vectorStores_files_retrieve Sim.openai)
    (beta_threads_create Sim.openai)
    (beta_threads_retrieve Sim.openai)
    (beta_threads_messages_create Sim.openai)
    (beta_threads_runs_stream Sim.openai)
    (chat_completions_create Sim.openai).

(** A vendor with one assistant that has no store attached. *)
Definition Sim_bare_assistant : Sim.State :=
  Sim.mkState 1 [OpenAI.Assistant.mk "asst_0" None] [] []
    (Ok (Gemini.mkListFilesResponse None)) Sim.no_answer Sim.no_answer Sim.no_answer.

(** A vendor that knows no thread, and creates them. *)
Definition Sim_threads_expired : OpenAIClient Sim.State :=
  mkOpenAIClient Sim.State
    Sim.retrieve Sim.create Sim.update
    (beta_vectorStores_create Sim.openai)
    (files_create Sim.openai)
    (beta_vectorStores_files_create Sim.openai)
    (beta_vectorStores_files_retrieve Sim.openai)
    (beta_threads_create Sim.openai)
    (fun _ s => (Throw (JsError "404 No thread found"), s))
    (fun _ _ _ s => (Throw (JsError "404 No thread found"), s))
    (beta_threads_runs_stream Sim.openai)
    (chat_completions_create Sim.openai).

(** A vendor whose files stay in progress. *)
Definition Sim_stuck : OpenAIClient Sim.State :=
  mkOpenAIClient Sim.State
    Sim.retrieve Sim.create Sim.update
    (beta_vectorStores_create Sim.openai)
    (files_create Sim.openai)
    (beta_vectorStores_files_create Sim.openai)
    (fun _ vectorStoreFileId s =>
       (Ok (OpenAI.VectorStoreFile.mk vectorStoreFileId "in_progress"), s))
    (beta_threads_create Sim.openai)
    (beta_threads_retrieve Sim.openai)
    (beta_threads_messages_create Sim.openai)
    (beta_threads_runs_stream Sim.openai)
    (chat_completions_create Sim.openai).

(** A vendor that knows no assistant and refuses to create stores. *)
Definition Sim_no_stores : OpenAIClient Sim.State :=
  mkOpenAIClient Sim.State
    Sim.retrieve Sim.create Sim.update
    (fun _ s => (Throw (JsError "401 invalid_api_key"), s))
    (files_create Sim.openai)
    (beta_vectorStores_files_create Sim.openai)
    (beta_vectorStores_files_retrieve Sim.openai)
    (beta_threads_create Sim.openai)
    (beta_threads_retrieve Sim.openai)
    (beta_threads_messages_create Sim.openai)
    (beta_threads_runs_stream Sim.openai)
    (chat_completions_create Sim.openai).

(** ** Statements that the code does not meet, as they are written *)

(** Best-effort grounding: whenever the document listing throws,
    [handleGemini] still answers with a stream. *)
Definition grounding_is_best_effort : Prop :=
  forall (V : Type) (sdk : Sdk V) (messages : list ChatRoute.ChatMessage)
         (apiKey modelId : string) (w : World V) (e : Error) (v' : V),
    messages <> [] ->
    listFiles (new_GoogleAIFileManager sdk apiKey) (vendor w) = (Throw e, v') ->
    exists (body : ByteStream) (w' : World V),
      ChatRoute.handleGemini sdk messages apiKey modelId w
        = (Ok (ChatRoute.StreamResponse body), w').

(** A vendor whose document listing fails, and whose model would answer. *)
Definition listing_down : Sim.State :=
  Sim.mkState 0 [] [] [] (Throw (JsError "fetch failed"))
    sample_upstream Sim.no_answer Sim.no_answer.

(** The upstream stream completes without a transport error: the async
    iterable of the vendor ends without throwing. *)
Definition ends_without_transport_error (a : Adapter) : bool :=
  match a with
  | GeminiAdapter result => negb (is_some (failure result))
  | OpenAIRunAdapter _ run => negb (is_some (failure run))
  | OpenAISimpleAdapter response => negb (is_some (failure response))
  end.

(** A closed stream of [0:] frames followed by one [2:] frame. *)
Definition ordered_frames (stream : ByteStream) : Prop :=
  ending stream = Closed
  /\ exists (texts : list string) (summary : string),
       enqueued stream = (texts ++ [summary])%list
       /\ Forall (fun frame => startsWith frame "0:" = true) texts
       /\ startsWith summary "2:" = true.

(** C3 as it is written: whenever the upstream stream completes without a
    transport error, the answer is such a stream. *)
Definition summary_after_every_upstream_that_ends : Prop :=
  forall (V : Type) (sdk : Sdk V) (body : ChatRoute.ChatBody) (w : World V)
         (a : Adapter) (v' : V),
    Opens sdk body (vendor w) a v' ->
    ends_without_transport_error a = true ->
    exists (stream : ByteStream) (w' : World V),
      ChatRoute.POST sdk (Ok body) w = (Ok (ChatRoute.StreamResponse stream), w')
      /\ ordered_frames stream.

(** C10 as it is written: whenever the upstream stream completes without
    reporting usage, the answer ends with a summary. *)
Definition summary_is_never_omitted : Prop :=
  forall (V : Type) (sdk : Sdk V) (body : ChatRoute.ChatBody) (w : World V)
         (a : Adapter) (v' : V),
    Opens sdk body (vendor w) a v' ->
    ends_without_transport_error a = true ->
    reports_usage a = false ->
    exists (frames : list string) (fin : StreamEnd) (w' : World V),
      ChatRoute.POST sdk (Ok body) w
      = (Ok (ChatRoute.StreamResponse
               (mkByteStream
                  (frames ++ [usage_frame 0 0 (ChatRoute.effectiveModel body)
                                (adapter_thread a)])%list
                  fin)),
         w').

(** A vendor whose model is blocked on its first chunk. *)
Definition Sim_blocked_at_once : Sim.State :=
  Sim.mkState 0 [] [] [] (Ok (Gemini.mkListFilesResponse None))
    (mkUpstream
       [Gemini.mkChunk (Throw (JsError "Response was blocked due to SAFETY")) None]
       None)
    Sim.no_answer Sim.no_answer.

(** C5 as it is written: the second of two calls without handles returns
    the handles of the first. *)
Definition creation_is_idempotent : Prop :=
  forall (V : Type) (openai : OpenAIClient V) (w0 w1 w2 : World V)
         (first second : OpenAIAssistants.Handles),
    OpenAIAssistants.getOrCreateAssistant openai None None w0 = (Ok first, w1) ->
    OpenAIAssistants.getOrCreateAssistant openai None None w1 = (Ok second, w2) ->
    second = first.

(** * Properties of the gateway *)

(** ** The fuel of [JSON.parse] *)

Lemma skip_ws_length :
  forall s : string, String.length (JSON.skip_ws s) <= String.length s.
Proof.
  induction s as [| c s IH]; [reflexivity |].
  cbn [JSON.skip_ws]. destruct (JSON.is_ws c); cbn [String.length]; lia.
Qed.

Lemma expect_length :
  forall (c : ascii) (s r : string),
    JSON.expect c s = Some r -> String.length r < String.length s.
Proof.
  intros c s r. unfold JSON.expect. pose proof (skip_ws_length s) as Hskip.
  destruct (JSON.skip_ws s) as [| d rest]; [discriminate |].
  destruct (Ascii.eqb d c); [| discriminate].
  intros [= <-]. cbn [String.length] in Hskip. lia.
Qed.

Lemma prepend_Some :
  forall (p : string) (x : option (string * string)) (t r : string),
    JSON.prepend p x = Some (t, r) -> exists t', x = Some (t', r).
Proof.
  intros p [[t' r'] |] t r; cbn [JSON.prepend]; [| discriminate].
  intros [= _ <-]. exists t'. reflexivity.
Qed.

Lemma parse_string_body_length :
  forall (n : nat) (s t r : string),
    String.length s <= n ->
    JSON.parse_string_body s = Some (t, r) -> String.length r < String.length s.
Proof.
  induction n as [| n IH]; intros s t r Hn Hparse.
  - destruct s; [discriminate Hparse | cbn [String.length] in Hn; lia].
  - destruct s as [| c s]; [discriminate Hparse |].
    cbn [JSON.parse_string_body String.length] in *.
    destruct (Ascii.eqb c DQ).
    { injection Hparse as _ <-. lia. }
    destruct (Ascii.eqb c BSL).
    + destruct s as [| e s1]; [discriminate Hparse |].
      cbn [String.length] in *.
      destruct (JSON.simple_escape e).
      * apply prepend_Some in Hparse as [t' Hparse].
        apply IH in Hparse; lia.
      * destruct (Ascii.eqb e "u"); [| discriminate Hparse].
        destruct s1 as [| h1 [| h2 [| h3 [| h4 s2]]]]; try discriminate Hparse.
        destruct (JSON.hex4 h1 h2 h3 h4); [| discriminate Hparse].
        apply prepend_Some in Hparse as [t' Hparse].
        cbn [String.length] in *. apply IH in Hparse; lia.
    + destruct (Nat.ltb (nat_of_ascii c) 32); [discriminate Hparse |].
      apply prepend_Some in Hparse as [t' Hparse].
      apply IH in Hparse; lia.
Qed.

Lemma take_digits_length :
  forall (s : string) (acc : Z) (count : nat) (n : Z) (k : nat) (r : string),
    JSON.take_digits s acc count = (n, k, r) -> String.length r <= String.length s.
Proof.
  induction s as [| c s IH]; intros acc count n k r Htake; cbn [JSON.take_digits] in Htake.
  - injection Htake as _ _ <-. reflexivity.
  - destruct (JSON.digit_of c).
    + apply IH in Htake. cbn [String.length]. lia.
    + injection Htake as _ _ <-. reflexivity.
Qed.

Lemma parse_sign_length :
  forall (minus_only : bool) (s : string) (sign : Z) (r : string),
    JSON.parse_sign minus_only s = (sign, r) -> String.length r <= String.length s.
Proof.
  intros minus_only [| c s] sign r; cbn [JSON.parse_sign].
  - intros [= _ <-]. reflexivity.
  - destruct (Ascii.eqb c "-"); [intros [= _ <-]; cbn [String.length]; lia |].
    destruct (negb minus_only && Ascii.eqb c "+");
      intros [= _ <-]; cbn [String.length]; lia.
Qed.

Lemma parse_number_length :
  forall (s : string) (v : JSON.value) (r : string),
    JSON.parse_number s = Some (v, r) -> String.length r <= String.length s.
Proof.
  intros s v r. unfold JSON.parse_number.
  destruct (JSON.parse_sign true s) as [sign s1] eqn:Hsign.
  apply parse_sign_length in Hsign.
  destruct (JSON.parse_int_part s1) as [[i s2] |] eqn:Hint; [| discriminate].
  assert (Hs2 : String.length s2 <= String.length s1).
  { unfold JSON.parse_int_part in Hint. destruct s1 as [| c s1]; [discriminate Hint |].
    destruct (JSON.digit_of c) as [d |]; [| discriminate Hint].
    destruct (d =? 0)%Z.
    - injection Hint as _ <-. cbn [String.length]. lia.
    - destruct (JSON.take_digits s1 d 1) as [[n k] rest] eqn:Htake.
      apply take_digits_length in Htake. injection Hint as _ <-.
      cbn [String.length]. lia. }
  destruct (JSON.parse_frac_part s2) as [[[f k] s3] |] eqn:Hfrac; [| discriminate].
  assert (Hs3 : String.length s3 <= String.length s2).
  { unfold JSON.parse_frac_part in Hfrac. destruct s2 as [| c s2].
    - injection Hfrac as _ _ <-. reflexivity.
    - destruct (Ascii.eqb c ".").
      + destruct (JSON.take_digits s2 0 0) as [[n k'] rest] eqn:Htake.
        apply take_digits_length in Htake.
        destruct k'; [discriminate Hfrac |]. injection Hfrac as _ _ <-.
        cbn [String.length]. lia.
      + injection Hfrac as _ _ <-. reflexivity. }
  destruct (JSON.parse_exp_part s3) as [[x s4] |] eqn:Hexp; [| discriminate].
  assert (Hs4 : String.length s4 <= String.length s3).
  { unfold JSON.parse_exp_part in Hexp. destruct s3 as [| c s3].
    - injection Hexp as _ <-. reflexivity.
    - destruct (Ascii.eqb c "e" || Ascii.eqb c "E").
      + destruct (JSON.parse_sign false s3) as [sg r'] eqn:Hsg.
        apply parse_sign_length in Hsg.
        destruct (JSON.take_digits r' 0 0) as [[n k'] rest] eqn:Htake.
        apply take_digits_length in Htake.
        destruct k'; [discriminate Hexp |]. injection Hexp as _ <-.
        cbn [String.length]. lia.
      + injection Hexp as _ <-. reflexivity. }
  intros [= _ <-]. lia.
Qed.

Lemma slice_length :
  forall (n : nat) (s : string), String.length (slice n s) <= String.length s.
Proof.
  induction n as [| n IH]; intros [| c s]; cbn [slice String.length]; try lia.
  specialize (IH s). lia.
Qed.

Lemma parse_literal_length :
  forall (lit : string) (x v : JSON.value) (s r : string),
    JSON.parse_literal lit x s = Some (v, r) -> String.length r <= String.length s.
Proof.
  intros lit x v s r. unfold JSON.parse_literal.
  destruct (startsWith s lit); [| discriminate].
  intros [= _ <-]. apply slice_length.
Qed.

(** No parser gives back more than it was given. *)
Lemma parsers_length :
  forall fuel : nat,
    (forall s v r, JSON.parse_value fuel s = Some (v, r) ->
                   String.length r <= String.length s)
    /\ (forall s vs r, JSON.parse_elements fuel s = Some (vs, r) ->
                       String.length r <= String.length s)
    /\ (forall s fields r, JSON.parse_members fuel s = Some (fields, r) ->
                           String.length r <= String.length s).
Proof.
  induction fuel as [| fuel (IHv & IHe & IHm)].
  - repeat split; intros; discriminate.
  - repeat split.
    + intros s v r Hparse. cbn [JSON.parse_value] in Hparse.
      pose proof (skip_ws_length s) as Hskip.
      destruct (JSON.skip_ws s) as [| c rest]; [discriminate Hparse |].
      cbn [String.length] in Hskip.
      destruct (Ascii.eqb c "{").
      { destruct (JSON.expect "}" rest) as [r' |] eqn:Hclose.
        - apply expect_length in Hclose. injection Hparse as _ <-. lia.
        - destruct (JSON.parse_members fuel rest) as [[fields after] |] eqn:Hmembers;
            [| discriminate Hparse].
          apply IHm in Hmembers. injection Hparse as _ <-. lia. }
      destruct (Ascii.eqb c "[").
      { destruct (JSON.expect "]" rest) as [r' |] eqn:Hclose.
        - apply expect_length in Hclose. injection Hparse as _ <-. lia.
        - destruct (JSON.parse_elements fuel rest) as [[xs after] |] eqn:Helements;
            [| discriminate Hparse].
          apply IHe in Helements. injection Hparse as _ <-. lia. }
      destruct (Ascii.eqb c DQ).
      { destruct (JSON.parse_string_body rest) as [[str after] |] eqn:Hbody;
          [| discriminate Hparse].
        apply (parse_string_body_length _ _ _ _ (le_n _)) in Hbody.
        injection Hparse as _ <-. lia. }
      destruct (Ascii.eqb c "t").
      { apply parse_literal_length in Hparse. cbn [String.length] in Hparse. lia. }
      destruct (Ascii.eqb c "f").
      { apply parse_literal_length in Hparse. cbn [String.length] in Hparse. lia. }
      destruct (Ascii.eqb c "n").
      { apply parse_literal_length in Hparse. cbn [String.length] in Hparse. lia. }
      apply parse_number_length in Hparse. cbn [String.length] in Hparse. lia.
    + intros s vs r Hparse. cbn [JSON.parse_elements] in Hparse.
      destruct (JSON.parse_value fuel s) as [[v r1] |] eqn:Hvalue; [| discriminate Hparse].
      apply IHv in Hvalue.
      destruct (JSON.expect "," r1) as [r2 |] eqn:Hcomma.
      * apply expect_length in Hcomma.
        destruct (JSON.parse_elements fuel r2) as [[xs after] |] eqn:Helements;
          [| discriminate Hparse].
        apply IHe in Helements. injection Hparse as _ <-. lia.
      * destruct (JSON.expect "]" r1) as [r2 |] eqn:Hclose; [| discriminate Hparse].
        apply expect_length in Hclose. injection Hparse as _ <-. lia.
    + intros s fields r Hparse. cbn [JSON.parse_members] in Hparse.
      destruct (JSON.expect DQ s) as [r0 |] eqn:Hopen; [| discriminate Hparse].
      apply expect_length in Hopen.
      destruct (JSON.parse_string_body r0) as [[key r1] |] eqn:Hkey; [| discriminate Hparse].
      apply (parse_string_body_length _ _ _ _ (le_n _)) in Hkey.
      destruct (JSON.expect ":" r1) as [r2 |] eqn:Hcolon; [| discriminate Hparse].
      apply expect_length in Hcolon.
      destruct (JSON.parse_value fuel r2) as [[v r3] |] eqn:Hvalue; [| discriminate Hparse].
      apply IHv in Hvalue.
      destruct (JSON.expect "," r3) as [r4 |] eqn:Hcomma.
      * apply expect_length in Hcomma.
        destruct (JSON.parse_members fuel r4) as [[more after] |] eqn:Hmembers;
          [| discriminate Hparse].
        apply IHm in Hmembers. injection Hparse as _ <-. lia.
      * destruct (JSON.expect "}" r3) as [r4 |] eqn:Hclose; [| discriminate Hparse].
        apply expect_length in Hclose. injection Hparse as _ <-. lia.
Qed.

(** One step of each parser. *)
Lemma parse_value_unfold :
  forall (fuel : nat) (s : string),
    JSON.parse_value (S fuel) s
    = match JSON.skip_ws s with
      | EmptyString => None
      | String c r =>
          if Ascii.eqb c "{" then
            match JSON.expect "}" r with
            | Some r' => Some (JSON.Obj [], r')
            | None =>
                match JSON.parse_members fuel r with
                | Some (fields, rest) => Some (JSON.Obj fields, rest)
                | None => None
                end
            end
          else if Ascii.eqb c "[" then
            match JSON.expect "]" r with
            | Some r' => Some (JSON.Arr [], r')
            | None =>
                match JSON.parse_elements fuel r with
                | Some (xs, rest) => Some (JSON.Arr xs, rest)
                | None => None
                end
            end
          else if Ascii.eqb c DQ then
            match JSON.parse_string_body r with
            | Some (str, rest) => Some (JSON.Str str, rest)
            | None => None
            end
          else if Ascii.eqb c "t"
               then JSON.parse_literal "true" (JSON.Bool true) (String c r)
          else if Ascii.eqb c "f"
               then JSON.parse_literal "false" (JSON.Bool false) (String c r)
          else if Ascii.eqb c "n" then JSON.parse_literal "null" JSON.Null (String c r)
          else JSON.parse_number (String c r)
      end.
Proof. reflexivity. Qed.

Lemma parse_elements_unfold :
  forall (fuel : nat) (s : string),
    JSON.parse_elements (S fuel) s
    = match JSON.parse_value fuel s with
      | None => None
      | Some (v, r) =>
          match JSON.expect "," r with
          | Some r' =>
              match JSON.parse_elements fuel r' with
              | Some (vs, rest) => Some (v :: vs, rest)
              | None => None
              end
          | None =>
              match JSON.expect "]" r with
              | Some r' => Some ([v], r')
              | None => None
              end
          end
      end.
Proof. reflexivity. Qed.

Lemma parse_members_unfold :
  forall (fuel : nat) (s : string),
    JSON.parse_members (S fuel) s
    = match JSON.expect DQ s with
      | None => None
      | Some r =>
          match JSON.parse_string_body r with
          | None => None
          | Some (key, r1) =>
              match JSON.expect ":" r1 with
              | None => None
              | Some r2 =>
                  match JSON.parse_value fuel r2 with
                  | None => None
                  | Some (v, r3) =>
                      match JSON.expect "," r3 with
                      | Some r4 =>
                          match JSON.parse_members fuel r4 with
                          | Some (fields, rest) => Some ((key, v) :: fields, rest)
                          | None => None
                          end
                      | None =>
                          match JSON.expect "}" r3 with
                          | Some r4 => Some ([(key, v)], r4)
                          | None => None
                          end
                      end
                  end
              end
          end
      end.
Proof. reflexivity. Qed.

(** With fuel above twice the length of the text, one more unit of fuel
    changes nothing. *)
Lemma parsers_fuel_step :
  forall fuel : nat,
    (forall s, 2 * String.length s + 1 <= fuel ->
               JSON.parse_value (S fuel) s = JSON.parse_value fuel s)
    /\ (forall s, 2 * String.length s + 2 <= fuel ->
                  JSON.parse_elements (S fuel) s = JSON.parse_elements fuel s)
    /\ (forall s, 2 * String.length s + 1 <= fuel ->
                  JSON.parse_members (S fuel) s = JSON.parse_members fuel s).
Proof.
  induction fuel as [| fuel (IHv & IHe & IHm)].
  - repeat split; intros s Hfuel; lia.
  - repeat split.
    + intros s Hfuel.
      rewrite (parse_value_unfold (S fuel) s), (parse_value_unfold fuel s).
      pose proof (skip_ws_length s) as Hskip.
      destruct (JSON.skip_ws s) as [| c r]; [reflexivity |].
      cbn [String.length] in Hskip.
      rewrite (IHm r) by lia. rewrite (IHe r) by lia. reflexivity.
    + intros s Hfuel.
      rewrite (parse_elements_unfold (S fuel) s), (parse_elements_unfold fuel s).
      rewrite (IHv s) by lia.
      destruct (JSON.parse_value fuel s) as [[v r] |] eqn:Hvalue; [| reflexivity].
      apply (proj1 (parsers_length fuel)) in Hvalue.
      destruct (JSON.expect "," r) as [r' |] eqn:Hcomma; [| reflexivity].
      apply expect_length in Hcomma. rewrite (IHe r') by lia. reflexivity.
    + intros s Hfuel.
      rewrite (parse_members_unfold (S fuel) s), (parse_members_unfold fuel s).
      destruct (JSON.expect DQ s) as [r |] eqn:Hopen; [| reflexivity].
      apply expect_length in Hopen.
      destruct (JSON.parse_string_body r) as [[key r1] |] eqn:Hkey; [| reflexivity].
      apply (parse_string_body_length _ _ _ _ (le_n _)) in Hkey.
      destruct (JSON.expect ":" r1) as [r2 |] eqn:Hcolon; [| reflexivity].
      apply expect_length in Hcolon.
      rewrite (IHv r2) by lia.
      destruct (JSON.parse_value fuel r2) as [[v r3] |] eqn:Hvalue; [| reflexivity].
      apply (proj1 (parsers_length fuel)) in Hvalue.
      destruct (JSON.expect "," r3) as [r4 |] eqn:Hcomma; [| reflexivity].
      apply expect_length in Hcomma. rewrite (IHm r4) by lia. reflexivity.
Qed.

(** [JSON.parse] does not depend on its fuel: any fuel from twice the length
    of the text on gives the value, or the failure, that [parse] gives. *)
Lemma parse_fuel_enough :
  forall (text : string) (extra : nat),
    JSON.parse_value (extra + (2 * String.length text + 2)) text
    = JSON.parse_value (2 * String.length text + 2) text.
Proof.
  intros text extra. induction extra as [| extra IH]; [reflexivity |].
  cbn [Nat.add]. rewrite (proj1 (parsers_fuel_step _)) by lia. exact IH.
Qed.

(** ** Frames are lines *)

Lemma contains_char_app :
  forall (c : ascii) (s t : string),
    contains_char c (s ++ t) = contains_char c s || contains_char c t.
Proof.
  intros c s t. induction s as [| d s IH]; [reflexivity |].
  cbn [append contains_char]. rewrite IH. apply orb_assoc.
Qed.

Lemma quote_char_no_LF : forall c : ascii, contains_char LF (JSON.quote_char c) = false.
Proof. intros [[] [] [] [] [] [] [] []]; vm_compute; reflexivity. Qed.

Lemma quote_no_LF : forall s : string, contains_char LF (JSON.quote s) = false.
Proof.
  intros s. unfold JSON.quote. cbn [contains_char].
  rewrite contains_char_app. replace (Ascii.eqb DQ LF) with false by reflexivity.
  cbn [orb]. replace (contains_char LF (String DQ "")) with false by reflexivity.
  rewrite orb_false_r.
  induction s as [| c s IH]; [reflexivity |].
  cbn [JSON.quote_body]. rewrite contains_char_app, quote_char_no_LF, IH. reflexivity.
Qed.

Lemma string_of_uint_no_LF :
  forall d : Decimal.uint, contains_char LF (NilEmpty.string_of_uint d) = false.
Proof.
  induction d as [| d IH | d IH | d IH | d IH | d IH | d IH | d IH | d IH | d IH | d IH];
    cbn [NilEmpty.string_of_uint contains_char]; try rewrite IH; reflexivity.
Qed.

Lemma Z_to_string_no_LF : forall z : Z, contains_char LF (Z_to_string z) = false.
Proof.
  intros z. unfold Z_to_string.
  assert (Huint : forall d, contains_char LF (NilZero.string_of_uint d) = false).
  { intros d. destruct d; try reflexivity; apply (string_of_uint_no_LF (_ d)). }
  destruct (Z.to_int z) as [d | d]; cbn [NilZero.string_of_int contains_char];
    rewrite Huint; reflexivity.
Qed.

Lemma text_line_no_LF : forall text : string, contains_char LF (text_line text) = false.
Proof.
  intros text. unfold text_line. cbn [JSON.stringify].
  rewrite contains_char_app, quote_no_LF. reflexivity.
Qed.

Lemma usage_line_no_LF :
  forall (i o : Z) (model : string) (thread : option string),
    contains_char LF (usage_line i o model thread) = false.
Proof.
  intros i o model thread. unfold usage_line, usage_payload, JSON.int.
  destruct thread as [t |];
    cbn [JSON.stringify map join String.concat JSON.number_to_string Z.leb Z.compare];
    repeat (rewrite ?contains_char_app, ?quote_no_LF, ?Z_to_string_no_LF;
            cbn [contains_char orb]);
    reflexivity.
Qed.

Lemma split_nl_line :
  forall s rest : string,
    contains_char LF s = false ->
    split_nl (s ++ String LF rest) = s :: split_nl rest.
Proof.
  intros s rest. induction s as [| c s IH]; intros Hs.
  - cbn [append split_nl]. rewrite Ascii.eqb_refl. reflexivity.
  - cbn [contains_char] in Hs. apply orb_false_elim in Hs as [Hc Hs].
    cbn [append split_nl]. rewrite Hc, (IH Hs). reflexivity.
Qed.

Lemma concat_frames :
  forall (frame : string) (frames : list string),
    String.concat "" (frame :: frames) = frame ++ String.concat "" frames.
Proof.
  intros frame [| next frames]; cbn [String.concat append]; [| reflexivity].
  induction frame as [| c frame IH]; [reflexivity |].
  cbn [append]. rewrite <- IH. reflexivity.
Qed.

Lemma append_assoc :
  forall s t u : string, (s ++ t) ++ u = s ++ (t ++ u).
Proof.
  intros s t u. induction s as [| c s IH]; [reflexivity |].
  cbn [append]. rewrite IH. reflexivity.
Qed.

(** The bytes of a completed stream, read as lines: one [0:] line for each
    fragment, one [2:] line, and nothing after its line feed. *)
Lemma lines_of_frames :
  forall (texts : list string) (i o : Z) (model : string) (thread : option string),
    lines_of (map text_frame texts ++ [usage_frame i o model thread])
    = (map text_line texts ++ [usage_line i o model thread; ""])%list.
Proof.
  intros texts i o model thread. unfold lines_of.
  induction texts as [| text texts IH].
  - cbn [map app String.concat]. unfold usage_frame, nl.
    change ("2:" ++ JSON.stringify (usage_payload i o model thread) ++ String LF "")
      with (usage_line i o model thread ++ String LF "").
    rewrite split_nl_line by apply usage_line_no_LF. reflexivity.
  - cbn [map app]. rewrite concat_frames. unfold text_frame at 1, nl.
    change ("0:" ++ JSON.stringify (JSON.Str text) ++ String LF "")
      with (text_line text ++ String LF "").
    rewrite append_assoc. cbn [append].
    rewrite split_nl_line by apply text_line_no_LF.
    rewrite IH. reflexivity.
Qed.

(** ** The round trip of any text *)

Lemma parse_quote_char :
  forall (c : ascii) (rest : string),
    JSON.parse_string_body (JSON.quote_char c ++ rest)
    = JSON.prepend (String c "") (JSON.parse_string_body rest).
Proof.
  intros [[] [] [] [] [] [] [] []] rest; reflexivity.
Qed.

Lemma parse_quote_body :
  forall s rest : string,
    JSON.parse_string_body (JSON.quote_body s ++ String DQ rest) = Some (s, rest).
Proof.
  intros s rest. induction s as [| c s IH].
  - reflexivity.
  - cbn [JSON.quote_body]. rewrite append_assoc, parse_quote_char, IH. reflexivity.
Qed.

(** [JSON.parse(JSON.stringify(text))] is [text], for every string. *)
Lemma parse_stringify_text :
  forall text : string, JSON.parse (JSON.stringify (JSON.Str text)) = Some (JSON.Str text).
Proof.
  intros text. unfold JSON.parse. cbn [JSON.stringify]. unfold JSON.quote.
  rewrite Nat.add_comm. cbn [Nat.add JSON.parse_value].
  replace (JSON.skip_ws (String DQ (JSON.quote_body text ++ String DQ "")))
    with (String DQ (JSON.quote_body text ++ String DQ "")) by reflexivity.
  replace (Ascii.eqb DQ "{") with false by reflexivity.
  replace (Ascii.eqb DQ "[") with false by reflexivity.
  replace (Ascii.eqb DQ DQ) with true by reflexivity.
  rewrite parse_quote_body. reflexivity.
Qed.

(** ** The round trip of any count *)

Lemma to_uint_head :
  forall p : positive,
    match Pos.to_uint p with
    | Decimal.Nil | Decimal.D0 _ => False
    | _ => True
    end.
Proof.
  intros p.
  assert (Hnorm : Decimal.unorm (Pos.to_uint p) = Pos.to_uint p).
  { rewrite <- (DecimalPos.Unsigned.to_of (Pos.to_uint p)).
    rewrite DecimalPos.Unsigned.of_to. reflexivity. }
  pose proof (DecimalPos.Unsigned.to_uint_nonzero p) as Hnonzero.
  pose proof (DecimalFacts.nzhead_nonzero (Pos.to_uint p)) as Hhead.
  unfold Decimal.unorm in Hnorm.
  destruct (Decimal.nzhead (Pos.to_uint p)) eqn:Hnz; rewrite <- Hnorm;
    try exact I.
  - apply Hnonzero. symmetry. exact Hnorm.
  - apply (Hhead u). reflexivity.
Qed.

Ltac take_digit IH :=
  cbn [JSON.take_digits];
  lazymatch goal with
  | |- context [JSON.digit_of ?c] =>
      let v := eval vm_compute in (JSON.digit_of c) in
      change (JSON.digit_of c) with v
  end;
  cbv iota;
  lazymatch goal with
  | |- JSON.take_digits _ ?z _ = (Z.pos (Pos.of_uint_acc _ ?q), _, _) =>
      replace z with (Z.pos q) by lia
  end;
  rewrite IH by assumption; rewrite <- Nat.add_succ_comm; reflexivity.

Lemma take_digits_uint :
  forall (d : Decimal.uint) (acc : positive) (count : nat) (rest : string),
    closes rest ->
    JSON.take_digits (NilEmpty.string_of_uint d ++ rest) (Z.pos acc) count
    = (Z.pos (Pos.of_uint_acc d acc), count + Decimal.nb_digits d, rest).
Proof.
  induction d as [| d IH | d IH | d IH | d IH | d IH | d IH | d IH | d IH | d IH | d IH];
    intros acc count rest Hrest;
    cbn [NilEmpty.string_of_uint append Decimal.nb_digits Pos.of_uint_acc];
    try take_digit IH.
  rewrite Nat.add_0_r. destruct Hrest as [r [-> | ->]]; reflexivity.
Qed.

Lemma parse_int_part_pos :
  forall (p : positive) (rest : string),
    closes rest ->
    JSON.parse_int_part (NilEmpty.string_of_uint (Pos.to_uint p) ++ rest)
    = Some (Z.pos p, rest).
Proof.
  intros p rest Hrest.
  pose proof (to_uint_head p) as Hhead.
  pose proof (DecimalPos.Unsigned.of_to p) as Hvalue.
  destruct (Pos.to_uint p) as [| d | d | d | d | d | d | d | d | d | d];
    try contradiction;
    cbn [NilEmpty.string_of_uint append JSON.parse_int_part];
    lazymatch goal with
    | |- context [JSON.digit_of ?c] =>
        let v := eval vm_compute in (JSON.digit_of c) in
        change (JSON.digit_of c) with v
    end;
    cbv iota; cbn [Z.eqb];
    rewrite take_digits_uint by assumption;
    cbn [Pos.of_uint] in Hvalue; injection Hvalue as ->; reflexivity.
Qed.

Lemma parse_number_minus :
  forall s : string,
    JSON.parse_number (String "-" s)
    = match JSON.parse_int_part s with
      | None => None
      | Some (i, s2) =>
          match JSON.parse_frac_part s2 with
          | None => None
          | Some (f, k, s3) =>
              match JSON.parse_exp_part s3 with
              | None => None
              | Some (x, s4) =>
                  Some (JSON.Number (-1 * (i * 10 ^ Z.of_nat k + f)) (x - Z.of_nat k), s4)
              end
          end
      end.
Proof. reflexivity. Qed.

Lemma parse_number_plain :
  forall (c : ascii) (r : string),
    Ascii.eqb c "-" = false ->
    JSON.parse_number (String c r)
    = match JSON.parse_int_part (String c r) with
      | None => None
      | Some (i, s2) =>
          match JSON.parse_frac_part s2 with
          | None => None
          | Some (f, k, s3) =>
              match JSON.parse_exp_part s3 with
              | None => None
              | Some (x, s4) =>
                  Some (JSON.Number (1 * (i * 10 ^ Z.of_nat k + f)) (x - Z.of_nat k), s4)
              end
          end
      end.
Proof.
  intros c r Hc. unfold JSON.parse_number, JSON.parse_sign. rewrite Hc. reflexivity.
Qed.

Lemma parse_number_Z :
  forall (z : Z) (rest : string),
    closes rest ->
    exists (c : ascii) (r : string),
      Z_to_string z ++ rest = String c r
      /\ starts_number c = true
      /\ JSON.parse_number (String c r) = Some (JSON.Number z 0, rest).
Proof.
  intros z rest Hrest. unfold Z_to_string.
  destruct z as [| p | p]; cbn [Z.to_int NilZero.string_of_int].
  - exists "0"%char, rest. split; [reflexivity | split; [reflexivity |]].
    destruct Hrest as [r [-> | ->]]; reflexivity.
  - pose proof (parse_int_part_pos p rest Hrest) as Hint.
    pose proof (to_uint_head p) as Hhead.
    unfold NilZero.string_of_uint.
    destruct (Pos.to_uint p) as [| d | d | d | d | d | d | d | d | d | d];
      try contradiction;
      cbn [NilEmpty.string_of_uint append] in *;
      (eexists; eexists; split; [reflexivity | split; [reflexivity |]]);
      rewrite parse_number_plain by reflexivity; rewrite Hint;
      destruct Hrest as [r [-> | ->]]; simpl; do 3 f_equal; lia.
  - pose proof (parse_int_part_pos p rest Hrest) as Hint.
    pose proof (to_uint_head p) as Hhead.
    unfold NilZero.string_of_uint.
    destruct (Pos.to_uint p) as [| d | d | d | d | d | d | d | d | d | d];
      try contradiction;
      cbn [NilEmpty.string_of_uint append] in *;
      (eexists; eexists; split; [reflexivity | split; [reflexivity |]]);
      rewrite parse_number_minus, Hint;
      destruct Hrest as [r [-> | ->]]; simpl; do 3 f_equal; lia.
Qed.

(** ** The round trip of the usage object *)

Lemma parse_value_number :
  forall (fuel : nat) (z : Z) (rest : string),
    closes rest ->
    JSON.parse_value (S fuel) (Z_to_string z ++ rest) = Some (JSON.Number z 0, rest).
Proof.
  intros fuel z rest Hrest.
  destruct (parse_number_Z z rest Hrest) as (c & r & -> & Hstart & Hparse).
  unfold starts_number in Hstart.
  repeat (apply andb_prop in Hstart as [Hstart ?]).
  repeat match goal with H : negb _ = true |- _ => apply negb_true_iff in H end.
  cbn [JSON.parse_value JSON.skip_ws].
  repeat match goal with H : _ = false |- _ => rewrite H end.
  exact Hparse.
Qed.

Lemma parse_value_text :
  forall (fuel : nat) (text rest : string),
    JSON.parse_value (S fuel) (JSON.quote text ++ rest) = Some (JSON.Str text, rest).
Proof.
  intros fuel text rest. unfold JSON.quote. cbn [append].
  rewrite append_assoc. cbn [append JSON.parse_value].
  replace (JSON.skip_ws (String DQ (JSON.quote_body text ++ String DQ rest)))
    with (String DQ (JSON.quote_body text ++ String DQ rest)) by reflexivity.
  replace (Ascii.eqb DQ "{") with false by reflexivity.
  replace (Ascii.eqb DQ "[") with false by reflexivity.
  replace (Ascii.eqb DQ DQ) with true by reflexivity.
  rewrite parse_quote_body. reflexivity.
Qed.

(** One member of an object, once its value is parsed. *)
Lemma parse_members_step :
  forall (fuel : nat) (key text : string) (v : JSON.value) (rest : string),
    JSON.parse_value fuel text = Some (v, rest) ->
    JSON.parse_members (S fuel) (JSON.quote key ++ String ":" text)
    = match JSON.expect "," rest with
      | Some more =>
          match JSON.parse_members fuel more with
          | Some (fields, after) => Some ((key, v) :: fields, after)
          | None => None
          end
      | None =>
          match JSON.expect "}" rest with
          | Some after => Some ([(key, v)], after)
          | None => None
          end
      end.
Proof.
  intros fuel key text v rest Hvalue. unfold JSON.quote. cbn [append].
  rewrite append_assoc. cbn [append JSON.parse_members].
  replace (JSON.expect DQ (String DQ (JSON.quote_body key ++ String DQ (String ":" text))))
    with (Some (JSON.quote_body key ++ String DQ (String ":" text))) by reflexivity.
  rewrite parse_quote_body.
  replace (JSON.expect ":" (String ":" text)) with (Some text) by reflexivity.
  rewrite Hvalue. reflexivity.
Qed.

Lemma parse_members_more :
  forall (fuel : nat) (key text : string) (v : JSON.value) (more : string)
         (fields : list (string * JSON.value)) (after : string),
    JSON.parse_value fuel text = Some (v, String "," more) ->
    JSON.parse_members fuel more = Some (fields, after) ->
    JSON.parse_members (S fuel) (JSON.quote key ++ String ":" text)
    = Some ((key, v) :: fields, after).
Proof.
  intros fuel key text v more fields after Hvalue Hmore.
  rewrite (parse_members_step fuel key text v _ Hvalue).
  replace (JSON.expect "," (String "," more)) with (Some more) by reflexivity.
  rewrite Hmore. reflexivity.
Qed.

Lemma parse_members_last :
  forall (fuel : nat) (key text : string) (v : JSON.value) (after : string),
    JSON.parse_value fuel text = Some (v, String "}" after) ->
    JSON.parse_members (S fuel) (JSON.quote key ++ String ":" text)
    = Some ([(key, v)], after).
Proof.
  intros fuel key text v after Hvalue.
  rewrite (parse_members_step fuel key text v _ Hvalue). reflexivity.
Qed.

Lemma parse_value_opens :
  forall (fuel : nat) (r : string),
    JSON.parse_value (S fuel) (String "{" (String DQ r))
    = match JSON.parse_members fuel (String DQ r) with
      | Some (fields, rest) => Some (JSON.Obj fields, rest)
      | None => None
      end.
Proof. reflexivity. Qed.

(** An object, once its members are parsed. *)
Lemma parse_value_object :
  forall (fuel : nat) (key text : string) (fields : list (string * JSON.value))
         (rest : string),
    JSON.parse_members fuel (JSON.quote key ++ text) = Some (fields, rest) ->
    JSON.parse_value (S fuel) (String "{" (JSON.quote key ++ text))
    = Some (JSON.Obj fields, rest).
Proof.
  intros fuel key text fields rest Hmembers.
  unfold JSON.quote in *. cbn [append] in *.
  rewrite parse_value_opens, Hmembers. reflexivity.
Qed.

Lemma length_append :
  forall s t : string, String.length (s ++ t) = String.length s + String.length t.
Proof.
  intros s t. induction s as [| c s IH]; [reflexivity |].
  cbn [append String.length]. rewrite IH. reflexivity.
Qed.

(** The text of the three members of [usage], from [fuel] on. *)
Lemma parse_usage_members :
  forall (fuel : nat) (i o : Z) (model rest : string),
    JSON.parse_members (S (S (S (S fuel))))
      (JSON.quote "inputTokens" ++ String ":" (Z_to_string i ++ String ","
         (JSON.quote "outputTokens" ++ String ":" (Z_to_string o ++ String ","
            (JSON.quote "model" ++ String ":" (JSON.quote model ++ String "}" rest))))))
    = Some ([("inputTokens", JSON.int i); ("outputTokens", JSON.int o);
             ("model", JSON.Str model)], rest).
Proof.
  intros fuel i o model rest.
  eapply parse_members_more.
  { apply parse_value_number. eexists. left. reflexivity. }
  eapply parse_members_more.
  { apply parse_value_number. eexists. left. reflexivity. }
  apply parse_members_last. apply parse_value_text.
Qed.

(** The text of the usage object, member by member. *)
Lemma stringify_usage_payload :
  forall (i o : Z) (model : string) (threadId : option string),
    JSON.stringify (usage_payload i o model threadId)
    = String "{" (JSON.quote "usage" ++ String ":" (String "{"
        (JSON.quote "inputTokens" ++ String ":" (Z_to_string i ++ String ","
           (JSON.quote "outputTokens" ++ String ":" (Z_to_string o ++ String ","
              (JSON.quote "model" ++ String ":"
                 (JSON.quote model ++ String "}" (usage_tail threadId)))))))))%string.
Proof.
  intros i o model threadId. unfold usage_payload, JSON.int, usage_tail.
  destruct threadId as [t |];
    cbn [JSON.stringify map join String.concat JSON.number_to_string Z.leb Z.compare];
    rewrite !Z.pow_0_r, !Z.mul_1_r, !append_assoc; cbn [append];
    rewrite ?append_assoc; cbn [append]; rewrite ?append_assoc; reflexivity.
Qed.

(** [JSON.parse(JSON.stringify(payload))] is [payload], for the object of
    every usage frame. *)
Lemma parse_stringify_usage :
  forall (i o : Z) (model : string) (threadId : option string),
    JSON.parse (JSON.stringify (usage_payload i o model threadId))
    = Some (usage_payload i o model threadId).
Proof.
  intros i o model threadId. unfold JSON.parse.
  assert (Hfuel : exists fuel,
             2 * String.length (JSON.stringify (usage_payload i o model threadId)) + 2
             = S (S (S (S (S (S (S fuel))))))).
  { rewrite stringify_usage_payload. cbn [String.length].
    rewrite length_append. change (String.length (JSON.quote "usage")) with 7.
    match goal with |- context [7 + ?rest] => exists (11 + 2 * rest) end. lia. }
  destruct Hfuel as [fuel ->]. rewrite stringify_usage_payload.
  erewrite parse_value_object with (rest := "")
                                   (fields := match usage_payload i o model threadId with
                                              | JSON.Obj fields => fields
                                              | _ => []
                                              end);
    [reflexivity |].
  unfold usage_payload, usage_tail. destruct threadId as [t |].
  - eapply parse_members_more.
    { apply parse_value_object. apply parse_usage_members. }
    apply parse_members_last. apply parse_value_text.
  - apply parse_members_last.
    apply parse_value_object. apply parse_usage_members.
Qed.

Lemma append_empty : forall s : string, s ++ "" = s.
Proof.
  induction s as [| c s IH]; [reflexivity |]. cbn [append]. rewrite IH. reflexivity.
Qed.

(** ** The client on well-formed frames *)

Lemma handle_line_text :
  forall (c : ChatInterface.Client) (text : string),
    ChatInterface.handle_line c (text_line text)
    = ChatInterface.mkClient (ChatInterface.assistantContent c ++ text)
        (ChatInterface.chunkCount c) (ChatInterface.messages c)
        (ChatInterface.trackUsage_calls c) (ChatInterface.devLogs c).
Proof.
  intros c text. unfold ChatInterface.handle_line, text_line.
  replace (startsWith ("0:" ++ JSON.stringify (JSON.Str text)) "0:") with true
    by reflexivity.
  replace (slice 2 ("0:" ++ JSON.stringify (JSON.Str text)))
    with (JSON.stringify (JSON.Str text)) by reflexivity.
  rewrite parse_stringify_text. reflexivity.
Qed.

Lemma handle_line_usage :
  forall (c : ChatInterface.Client) (i o : Z) (model : string) (threadId : option string),
    ChatInterface.handle_line c (usage_line i o model threadId)
    = ChatInterface.log
        ("Usage: " ++ Z_to_string (i * 10 ^ 0) ++ " in, " ++ Z_to_string (o * 10 ^ 0) ++ " out")
        (ChatInterface.mkClient (ChatInterface.assistantContent c)
           (ChatInterface.chunkCount c) (ChatInterface.messages c)
           (ChatInterface.trackUsage_calls c
            ++ [(Some (JSON.int i), Some (JSON.int o), Some (JSON.Str model))])%list
           (ChatInterface.devLogs c)).
Proof.
  intros c i o model threadId. unfold ChatInterface.handle_line, usage_line.
  replace (startsWith ("2:" ++ JSON.stringify (usage_payload i o model threadId)) "0:")
    with false by reflexivity.
  replace (startsWith ("2:" ++ JSON.stringify (usage_payload i o model threadId)) "2:")
    with true by reflexivity.
  replace (slice 2 ("2:" ++ JSON.stringify (usage_payload i o model threadId)))
    with (JSON.stringify (usage_payload i o model threadId)) by reflexivity.
  rewrite parse_stringify_usage. destruct threadId as [t |]; reflexivity.
Qed.

Lemma handle_line_empty :
  forall c : ChatInterface.Client, ChatInterface.handle_line c "" = c.
Proof. reflexivity. Qed.

Lemma fold_text_lines :
  forall (texts : list string) (rest : list string) (c : ChatInterface.Client),
    fold_left ChatInterface.handle_line (map text_line texts ++ rest)%list c
    = fold_left ChatInterface.handle_line rest
        (ChatInterface.mkClient
           (ChatInterface.assistantContent c ++ String.concat "" texts)
           (ChatInterface.chunkCount c) (ChatInterface.messages c)
           (ChatInterface.trackUsage_calls c) (ChatInterface.devLogs c)).
Proof.
  induction texts as [| text texts IH]; intros rest c.
  - cbn [map app String.concat]. destruct c as [content n ms calls logs].
    cbn [ChatInterface.assistantContent]. rewrite append_empty. reflexivity.
  - cbn [map app fold_left]. rewrite handle_line_text, IH.
    cbn [ChatInterface.assistantContent ChatInterface.chunkCount ChatInterface.messages
         ChatInterface.trackUsage_calls ChatInterface.devLogs].
    rewrite concat_frames, append_assoc. reflexivity.
Qed.

(** ** Reads that end at a frame boundary *)

Lemma encode_line : forall frame : StreamFrame, encode frame = line_of frame ++ String LF "".
Proof.
  intros [fragment | i o model thread];
    unfold encode, line_of, text_frame, usage_frame, text_line, usage_line, nl;
    rewrite append_assoc; reflexivity.
Qed.

Lemma line_of_no_LF : forall frame : StreamFrame, contains_char LF (line_of frame) = false.
Proof.
  intros [fragment | i o model thread]; [apply text_line_no_LF | apply usage_line_no_LF].
Qed.

Lemma split_nl_frames :
  forall frames : list StreamFrame,
    split_nl (String.concat "" (map encode frames)) = (map line_of frames ++ [""])%list.
Proof.
  induction frames as [| frame frames IH]; [reflexivity |].
  cbn [map app]. rewrite concat_frames, encode_line, append_assoc. cbn [append].
  rewrite split_nl_line by apply line_of_no_LF. rewrite IH. reflexivity.
Qed.

Lemma handle_line_frame :
  forall (c : ChatInterface.Client) (frame : StreamFrame),
    decoded (ChatInterface.handle_line c (line_of frame)) = received frame (decoded c).
Proof.
  intros c [fragment | i o model thread]; cbn [line_of received].
  - rewrite handle_line_text. reflexivity.
  - rewrite handle_line_usage. reflexivity.
Qed.

Lemma fold_frame_lines :
  forall (frames : list StreamFrame) (c : ChatInterface.Client),
    decoded (fold_left ChatInterface.handle_line (map line_of frames ++ [""])%list c)
    = fold_left (fun d frame => received frame d) frames (decoded c).
Proof.
  induction frames as [| frame frames IH]; intros c.
  - reflexivity.
  - cbn [map app fold_left]. rewrite IH, handle_line_frame. reflexivity.
Qed.

(** A read made of whole frames gives the client what the frames carry. *)
Lemma handle_chunk_frames :
  forall (assistantMsgId : string) (c : ChatInterface.Client) (frames : list StreamFrame),
    decoded (ChatInterface.handle_chunk assistantMsgId c
               (String.concat "" (map encode frames)))
    = fold_left (fun d frame => received frame d) frames (decoded c).
Proof.
  intros assistantMsgId c frames. unfold ChatInterface.handle_chunk.
  rewrite split_nl_frames.
  match goal with
  | |- decoded (ChatInterface.mkClient (ChatInterface.assistantContent ?x) _ _
                  (ChatInterface.trackUsage_calls ?x) _) = _ =>
      change (decoded x = fold_left (fun d frame => received frame d) frames (decoded c))
  end.
  rewrite fold_frame_lines. reflexivity.
Qed.

(** Whatever the grouping of the frames into reads, as long as every read
    is made of whole frames, the client ends with the concatenation of the
    fragments and with one usage call for each summary. *)
Lemma aligned_reads_round_trip :
  forall (currentMessages : list ChatInterface.Message) (assistantMsgId : string)
         (reads : list (list StreamFrame)),
    decoded (ChatInterface.read_body currentMessages assistantMsgId
               (map (fun frames => String.concat "" (map encode frames)) reads) Closed)
    = fold_left (fun d frame => received frame d) (List.concat reads) ("", []).
Proof.
  intros currentMessages assistantMsgId reads. unfold ChatInterface.read_body.
  set (c0 := ChatInterface.mkClient "" 0 _ [] []).
  change ("", []) with (decoded c0) at 1.
  change (decoded (fold_left (ChatInterface.handle_chunk assistantMsgId)
                     (map (fun frames => String.concat "" (map encode frames)) reads) c0)
          = fold_left (fun d frame => received frame d) (List.concat reads) (decoded c0)).
  generalize c0. clear c0.
  induction reads as [| frames reads IH]; intros c.
  - reflexivity.
  - cbn [map fold_left List.concat]. rewrite IH, handle_chunk_frames, fold_left_app.
    reflexivity.
Qed.

(** ** The sample stream *)

(** C1. Frame round trip: the Gemini adapter encodes the fragments "The",
    " ", "answer", " is", " 42." and the usage (10, 5, "m") as five [0:]
    lines and one [2:] line; the client that reads them, one frame per read
    or all in one read, ends with the content "The answer is 42." and has
    called [trackUsage] once, with 10, 5 and "m". *)
Theorem frame_round_trip :
  forall (currentMessages : list ChatInterface.Message) (assistantMsgId : string),
    enqueued (ChatRoute.gemini_stream "m" sample_upstream) = sample_frames /\
    ending (ChatRoute.gemini_stream "m" sample_upstream) = Closed /\
    ChatInterface.assistantContent
      (ChatInterface.read_body currentMessages assistantMsgId sample_frames Closed)
      = "The answer is 42." /\
    ChatInterface.trackUsage_calls
      (ChatInterface.read_body currentMessages assistantMsgId sample_frames Closed)
      = [sample_usage] /\
    ChatInterface.assistantContent
      (ChatInterface.read_body currentMessages assistantMsgId [sample_bytes] Closed)
      = "The answer is 42." /\
    ChatInterface.trackUsage_calls
      (ChatInterface.read_body currentMessages assistantMsgId [sample_bytes] Closed)
      = [sample_usage].
Proof.
  intros currentMessages assistantMsgId.
  repeat split; vm_compute; reflexivity.
Qed.

(** C2. Split frames: of the 103 places where the 102 bytes of the round
    trip can be broken into two reads, the client reconstructs the content
    and the usage at thirteen only, those next to a line feed; broken after
    the third byte, inside the first frame, it loses the fragment "The". *)
Theorem split_frame_offsets :
  String.length sample_bytes = 102 /\
  filter (fun offset => reconstructs (two_reads offset)) (seq 0 103)
    = [0; 7; 8; 13; 14; 24; 25; 32; 33; 41; 42; 101; 102] /\
  two_reads 3 = [substring0 3 (text_frame "The");
                 (slice 3 (text_frame "The") ++ slice 8 sample_bytes)%string] /\
  ChatInterface.assistantContent
    (ChatInterface.read_body [] "assistant-1" (two_reads 3) Closed)
    = " answer is 42.".
Proof.
  repeat split; vm_compute; reflexivity.
Qed.

(** ** The dispatcher *)

(** Unfolding the monad down to the SDK calls. *)
Ltac run :=
  unfold ChatRoute.lift, bind, try_catch, sdk_call, sdk_open, ret, throw;
  cbn [vendor calls].

(** C9. Missing credential: when the [apiKey] of the request is absent or
    empty, [POST] answers with status 400 and the body [{error: message}],
    the message naming the vendor whose key is missing; it makes no SDK call
    and leaves the vendors as they were. *)
Theorem missing_credential_rejected :
  forall (V : Type) (sdk : Sdk V) (body : ChatRoute.ChatBody) (w : World V),
    ChatRoute.apiKey body = None \/ ChatRoute.apiKey body = Some "" ->
    ChatRoute.POST sdk (Ok body) w
      = (Ok (ChatRoute.JsonResponse 400
               (JSON.Obj [("error", JSON.Str
                  ("No " ++ (if String.eqb (ChatRoute.the_provider body) "openai"
                             then "OpenAI" else "Gemini")
                   ++ " API key configured. Please add one in Settings."))])),
         w).
Proof.
  intros V sdk body w Hkey.
  assert (Heff : ChatRoute.effectiveApiKey body = "").
  { unfold ChatRoute.effectiveApiKey. destruct Hkey as [-> | ->]; reflexivity. }
  unfold ChatRoute.POST. rewrite Heff. reflexivity.
Qed.

Lemma missing_credential_rejected_witness :
  ChatRoute.POST Sim.sdk
    (Ok (ChatRoute.mkChatBody [ChatRoute.mkChatMessage "user" "What is X?"]
           (Some "") None (Some "openai") (Some "asst_0") None))
    (Sim.start Sim.empty)
  = (Ok (ChatRoute.JsonResponse 400
           (JSON.Obj [("error", JSON.Str
              "No OpenAI API key configured. Please add one in Settings.")])),
     Sim.start Sim.empty).
Proof.
  apply (missing_credential_rejected Sim.State Sim.sdk
           (ChatRoute.mkChatBody [ChatRoute.mkChatMessage "user" "What is X?"]
              (Some "") None (Some "openai") (Some "asst_0") None)
           (Sim.start Sim.empty)).
  right. reflexivity.
Defined.

(** ** The Gemini adapter *)

Lemma no_active_file_names :
  forall files : list Gemini.File,
    filter ChatRoute.is_active files = [] ->
    ChatRoute.fileNames files = "" /\ ChatRoute.activeFiles files = [].
Proof.
  intros files Hnone. unfold ChatRoute.fileNames, ChatRoute.activeFiles.
  rewrite Hnone. split; reflexivity.
Qed.

(** What [handleGemini] does, call by call. *)
Lemma handleGemini_run :
  forall (V : Type) (sdk : Sdk V) (messages : list ChatRoute.ChatMessage)
         (apiKey modelId : string) (w : World V),
    ChatRoute.handleGemini sdk messages apiKey modelId w
    = match listFiles (new_GoogleAIFileManager sdk apiKey) (vendor w) with
      | (Throw e, v1) => (Throw e, mkWorld v1 (calls w ++ [C_listFiles])%list)
      | (Ok fileList, v1) =>
          let files := match Gemini.files fileList with Some fs => fs | None => [] end in
          let params := Gemini.mkModelParams modelId
                          (ChatRoute.gemini_systemInstruction (ChatRoute.fileNames files)) in
          let history := ChatRoute.gemini_history files messages in
          match ChatRoute.last_content messages with
          | Throw e => (Throw e, mkWorld v1 (calls w ++ [C_listFiles])%list)
          | Ok request =>
              match sendMessageStream (new_GoogleGenerativeAI sdk apiKey)
                      params history request v1 with
              | (Ok result, v2) =>
                  (Ok (ChatRoute.StreamResponse (ChatRoute.gemini_stream modelId result)),
                   mkWorld v2 (calls w ++ [C_listFiles;
                                           C_sendMessageStream params history request])%list)
              | (Throw e, v2) =>
                  (Throw e,
                   mkWorld v2 (calls w ++ [C_listFiles;
                                           C_sendMessageStream params history request])%list)
              end
          end
      end.
Proof.
  intros. unfold ChatRoute.handleGemini. run.
  destruct (listFiles _ (vendor w)) as [[fileList | e] v1]; [| reflexivity].
  destruct (ChatRoute.last_content messages) as [request | e]; [| reflexivity].
  cbn [vendor calls].
  destruct (sendMessageStream _ _ _ request v1) as [[result | e] v2];
    rewrite <- app_assoc; reflexivity.
Qed.

(** C4, as stated, fails: with a listing that throws, [handleGemini] gives
    no stream although the model would have answered. *)
Lemma grounding_is_not_best_effort : ~ grounding_is_best_effort.
Proof.
  intro Hclaim.
  destruct (Hclaim Sim.State Sim.sdk [ChatRoute.mkChatMessage "user" "What is X?"]
              "k" "gemini-2.5-flash" (Sim.start listing_down)
              (JsError "fetch failed") listing_down)
    as (body & w' & Hrun).
  - discriminate.
  - reflexivity.
  - vm_compute in Hrun. discriminate Hrun.
Qed.

(** With a key, [POST] is the handler of the provider, on the effective
    key and model. *)
Lemma POST_dispatch :
  forall (V : Type) (sdk : Sdk V) (body : ChatRoute.ChatBody) (w : World V),
    ChatRoute.effectiveApiKey body <> "" ->
    ChatRoute.POST sdk (Ok body) w
    = if String.eqb (ChatRoute.the_provider body) "openai"
      then ChatRoute.handleOpenAI sdk (ChatRoute.messages body)
             (ChatRoute.effectiveApiKey body) (ChatRoute.effectiveModel body)
             (ChatRoute.assistantId body) (ChatRoute.threadId body) w
      else ChatRoute.handleGemini sdk (ChatRoute.messages body)
             (ChatRoute.effectiveApiKey body) (ChatRoute.effectiveModel body) w.
Proof.
  intros V sdk body w Hkey. unfold ChatRoute.POST.
  apply String.eqb_neq in Hkey. rewrite Hkey.
  destruct (String.eqb (ChatRoute.the_provider body) "openai"); reflexivity.
Qed.

(** C4, amended. A listing that throws ends [handleGemini] with the error
    of the listing, after that one call: no model session is opened and
    nothing is streamed.  The name list "none" is what the session gets
    when the listing succeeds with no active document: then the session is
    opened with it, and with a history that refers to no file. *)
Theorem listing_failure_aborts :
  forall (V : Type) (sdk : Sdk V) (w : World V),
    (forall (messages : list ChatRoute.ChatMessage) (apiKey modelId : string)
            (e : Error) (v' : V),
        listFiles (new_GoogleAIFileManager sdk apiKey) (vendor w) = (Throw e, v') ->
        ChatRoute.handleGemini sdk messages apiKey modelId w
          = (Throw e, mkWorld v' (calls w ++ [C_listFiles])%list))
    /\
    (forall (messages : list ChatRoute.ChatMessage) (apiKey modelId : string)
            (fileList : Gemini.ListFilesResponse) (v1 : V) (request : string),
        listFiles (new_GoogleAIFileManager sdk apiKey) (vendor w) = (Ok fileList, v1) ->
        filter ChatRoute.is_active
          (match Gemini.files fileList with Some fs => fs | None => [] end) = [] ->
        ChatRoute.last_content messages = Ok request ->
        let params := Gemini.mkModelParams modelId (ChatRoute.gemini_systemInstruction "") in
        let history := ChatRoute.gemini_history [] messages in
        startsWith (Gemini.systemInstruction params)
          "You are a helpful expert editorial assistant. You have access to the following knowledge base documents: none."
          = true
        /\ ChatRoute.handleGemini sdk messages apiKey modelId w
           = match sendMessageStream (new_GoogleGenerativeAI sdk apiKey)
                     params history request v1 with
             | (Ok result, v2) =>
                 (Ok (ChatRoute.StreamResponse (ChatRoute.gemini_stream modelId result)),
                  mkWorld v2 (calls w ++ [C_listFiles;
                                          C_sendMessageStream params history request])%list)
             | (Throw e, v2) =>
                 (Throw e,
                  mkWorld v2 (calls w ++ [C_listFiles;
                                          C_sendMessageStream params history request])%list)
             end).
Proof.
  intros V sdk w. split.
  - intros messages apiKey modelId e v' Hlist.
    rewrite handleGemini_run, Hlist. reflexivity.
  - intros messages apiKey modelId fileList v1 request Hlist Hnone Hlast params history.
    split.
    + vm_compute. reflexivity.
    + destruct (no_active_file_names _ Hnone) as [Hnames Hparts].
      rewrite handleGemini_run, Hlist, Hlast. cbv zeta.
      rewrite Hnames. unfold ChatRoute.gemini_history. rewrite Hparts.
      reflexivity.
Qed.

Lemma listing_failure_aborts_witness :
  ChatRoute.handleGemini Sim.sdk [ChatRoute.mkChatMessage "user" "What is X?"]
    "k" "gemini-2.5-flash" (Sim.start listing_down)
  = (Throw (JsError "fetch failed"), mkWorld listing_down ([] ++ [C_listFiles])%list).
Proof.
  apply (proj1 (listing_failure_aborts Sim.State Sim.sdk (Sim.start listing_down))
           [ChatRoute.mkChatMessage "user" "What is X?"] "k" "gemini-2.5-flash"
           (JsError "fetch failed") listing_down).
  reflexivity.
Defined.

(** ** The resource lifecycle manager *)

Lemma given_Some :
  forall s : string, s <> "" -> given (Some s) = true /\ or_else (Some s) "" = s.
Proof.
  intros s Hs. apply String.eqb_neq in Hs. unfold given, or_else.
  rewrite Hs. split; reflexivity.
Qed.

(** What [createAssistant] does, call by call. *)
Lemma createAssistant_run :
  forall (V : Type) (openai : OpenAIClient V) (w : World V),
    OpenAIAssistants.createAssistant openai w
    = match beta_vectorStores_create openai "Editorial Knowledge Base" (vendor w) with
      | (Throw e, v1) =>
          (Throw e,
           mkWorld v1 (calls w ++ [C_vectorStores_create "Editorial Knowledge Base"])%list)
      | (Ok vectorStore, v1) =>
          match beta_assistants_create openai
                  (OpenAIAssistants.new_assistant_params vectorStore) v1 with
          | (Throw e, v2) =>
              (Throw e,
               mkWorld v2 (calls w ++ [C_vectorStores_create "Editorial Knowledge Base";
                                       C_assistants_create
                                         (OpenAIAssistants.new_assistant_params vectorStore)])%list)
          | (Ok assistant, v2) =>
              (Ok (OpenAIAssistants.mkHandles (OpenAI.Assistant.id assistant) vectorStore),
               mkWorld v2 (calls w ++ [C_vectorStores_create "Editorial Knowledge Base";
                                       C_assistants_create
                                         (OpenAIAssistants.new_assistant_params vectorStore)])%list)
          end
      end.
Proof.
  intros. unfold OpenAIAssistants.createAssistant. run.
  destruct (beta_vectorStores_create openai _ (vendor w)) as [[vectorStore | e] v1];
    [| reflexivity].
  cbn [vendor calls].
  destruct (beta_assistants_create openai _ v1) as [[assistant | e] v2];
    rewrite <- app_assoc; reflexivity.
Qed.

(** A handle that the vendor does not retrieve leads to the creation. *)
Lemma getOrCreateAssistant_stale :
  forall (V : Type) (openai : OpenAIClient V) (h : string) (vectorStoreId : option string)
         (w : World V) (e : Error) (v1 : V),
    h <> "" ->
    beta_assistants_retrieve openai h (vendor w) = (Throw e, v1) ->
    OpenAIAssistants.getOrCreateAssistant openai (Some h) vectorStoreId w
    = OpenAIAssistants.createAssistant openai
        (mkWorld v1 (calls w ++ [C_assistants_retrieve h])%list).
Proof.
  intros V openai h vectorStoreId w e v1 Hh Hretrieve.
  unfold OpenAIAssistants.getOrCreateAssistant.
  destruct (given_Some h Hh) as [-> _]. run. rewrite Hretrieve. reflexivity.
Qed.

(** No prior handle leads to the creation. *)
Lemma getOrCreateAssistant_none :
  forall (V : Type) (openai : OpenAIClient V) (vectorStoreId : option string) (w : World V),
    OpenAIAssistants.getOrCreateAssistant openai None vectorStoreId w
    = OpenAIAssistants.createAssistant openai w.
Proof. reflexivity. Qed.

(** C6. Handle self-healing: when the vendor throws on the retrieval of the
    given assistant handle, [getOrCreateAssistant] goes on exactly as the
    creation does, the error of the retrieval is dropped; with a vendor that
    creates the store and the assistant, it returns their handles, and the
    assistant was created with the [file_search] tool on the new store. *)
Theorem stale_handle_heals :
  forall (V : Type) (openai : OpenAIClient V) (h : string) (vectorStoreId : option string)
         (w : World V) (e : Error) (v1 v2 v3 : V)
         (vectorStore : string) (assistant : OpenAI.Assistant.t),
    h <> "" ->
    beta_assistants_retrieve openai h (vendor w) = (Throw e, v1) ->
    beta_vectorStores_create openai "Editorial Knowledge Base" v1 = (Ok vectorStore, v2) ->
    beta_assistants_create openai (OpenAIAssistants.new_assistant_params vectorStore) v2
      = (Ok assistant, v3) ->
    OpenAIAssistants.getOrCreateAssistant openai (Some h) vectorStoreId w
      = (Ok (OpenAIAssistants.mkHandles (OpenAI.Assistant.id assistant) vectorStore),
         mkWorld v3
           (calls w ++ [C_assistants_retrieve h;
                        C_vectorStores_create "Editorial Knowledge Base";
                        C_assistants_create
                          (OpenAIAssistants.new_assistant_params vectorStore)])%list)
    /\ OpenAI.tools (OpenAIAssistants.new_assistant_params vectorStore) = ["file_search"]
    /\ OpenAI.file_search_vector_store_ids (OpenAIAssistants.new_assistant_params vectorStore)
       = [vectorStore].
Proof.
  intros V openai h vectorStoreId w e v1 v2 v3 vectorStore assistant
         Hh Hretrieve Hstore Hassistant.
  split; [| split; reflexivity].
  rewrite (getOrCreateAssistant_stale V openai h vectorStoreId w e v1 Hh Hretrieve).
  rewrite createAssistant_run. cbn [vendor calls].
  rewrite Hstore, Hassistant, <- app_assoc. reflexivity.
Qed.

Lemma stale_handle_heals_witness :
  OpenAIAssistants.getOrCreateAssistant Sim.openai (Some "asst_deleted") (Some "vs_old")
    (Sim.start Sim.empty)
  = (Ok (OpenAIAssistants.mkHandles "asst_1" "vs_0"),
     mkWorld
       (Sim.bump (Sim.bump Sim.empty [])
          [OpenAI.Assistant.mk "asst_1" (Some ["vs_0"])])
       [C_assistants_retrieve "asst_deleted";
        C_vectorStores_create "Editorial Knowledge Base";
        C_assistants_create (OpenAIAssistants.new_assistant_params "vs_0")]).
Proof.
  apply (stale_handle_heals Sim.State Sim.openai "asst_deleted" (Some "vs_old")
           (Sim.start Sim.empty) Sim.not_found Sim.empty (Sim.bump Sim.empty [])
           (Sim.bump (Sim.bump Sim.empty []) [OpenAI.Assistant.mk "asst_1" (Some ["vs_0"])])
           "vs_0" (OpenAI.Assistant.mk "asst_1" (Some ["vs_0"]))).
  - discriminate.
  - reflexivity.
  - reflexivity.
  - reflexivity.
Defined.

(** C5, as stated, fails: the second of two calls without handles creates
    a second store and a second assistant, and returns their handles. *)
Lemma second_call_creates_again : ~ creation_is_idempotent.
Proof.
  intro Hclaim.
  pose proof (Hclaim Sim.State Sim.openai (Sim.start Sim.empty) Sim_after_first
                Sim_after_second
                (OpenAIAssistants.mkHandles "asst_1" "vs_0")
                (OpenAIAssistants.mkHandles "asst_3" "vs_2")
                eq_refl eq_refl) as Hsame.
  discriminate Hsame.
Qed.

(** C5, amended.  The creation is not idempotent, the reuse is: each call
    without handles creates a store and an assistant of its own, so that
    two such calls leave two pairs; a later call with the handles that the
    first call returned, which the vendor still retrieves, returns these
    very handles; its only SDK call is the retrieval, it creates nothing. *)
Theorem ensure_reuses_handles :
  forall (V : Type) (openai : OpenAIClient V) (w0 w1 w2 : World V)
         (first second : OpenAIAssistants.Handles) (existing : OpenAI.Assistant.t) (v3 : V),
    OpenAIAssistants.getOrCreateAssistant openai None None w0 = (Ok first, w1) ->
    OpenAIAssistants.getOrCreateAssistant openai None None w1 = (Ok second, w2) ->
    OpenAIAssistants.assistantId first <> "" ->
    OpenAIAssistants.vectorStoreId first <> "" ->
    beta_assistants_retrieve openai (OpenAIAssistants.assistantId first) (vendor w2)
      = (Ok existing, v3) ->
    OpenAI.Assistant.id existing = OpenAIAssistants.assistantId first ->
    OpenAIAssistants.getOrCreateAssistant openai
        (Some (OpenAIAssistants.assistantId first))
        (Some (OpenAIAssistants.vectorStoreId first)) w2
      = (Ok first,
         mkWorld v3 (calls w2 ++ [C_assistants_retrieve (OpenAIAssistants.assistantId first)])%list)
    /\ filter creates [C_assistants_retrieve (OpenAIAssistants.assistantId first)] = []
    /\ calls w2
       = (calls w0
          ++ [C_vectorStores_create "Editorial Knowledge Base";
              C_assistants_create
                (OpenAIAssistants.new_assistant_params (OpenAIAssistants.vectorStoreId first));
              C_vectorStores_create "Editorial Knowledge Base";
              C_assistants_create
                (OpenAIAssistants.new_assistant_params (OpenAIAssistants.vectorStoreId second))])%list.
Proof.
  intros V openai w0 w1 w2 first second existing v3
         Hfirst Hsecond Ha Hv Hretrieve Hid.
  split; [| split; [reflexivity |]].
  - unfold OpenAIAssistants.getOrCreateAssistant.
    destruct (given_Some _ Ha) as [-> _].
    destruct (given_Some _ Hv) as [-> ->].
    run. rewrite Hretrieve, Hid. destruct first; reflexivity.
  - rewrite getOrCreateAssistant_none, createAssistant_run in Hfirst, Hsecond.
    destruct (beta_vectorStores_create openai _ (vendor w0)) as [[vs1 | e] u1];
      [| discriminate Hfirst].
    destruct (beta_assistants_create openai _ u1) as [[a1 | e] u2];
      [| discriminate Hfirst].
    injection Hfirst as <- <-.
    cbn [vendor calls] in Hsecond.
    destruct (beta_vectorStores_create openai _ u2) as [[vs2 | e] u3];
      [| discriminate Hsecond].
    destruct (beta_assistants_create openai _ u3) as [[a2 | e] u4];
      [| discriminate Hsecond].
    injection Hsecond as <- <-.
    cbn [calls OpenAIAssistants.vectorStoreId]. rewrite <- app_assoc. reflexivity.
Qed.

Lemma ensure_reuses_handles_witness :
  OpenAIAssistants.getOrCreateAssistant Sim.openai (Some "asst_1") (Some "vs_0")
    Sim_after_second
  = (Ok (OpenAIAssistants.mkHandles "asst_1" "vs_0"),
     mkWorld (vendor Sim_after_second)
       (calls Sim_after_second ++ [C_assistants_retrieve "asst_1"])%list).
Proof.
  apply (proj1 (ensure_reuses_handles Sim.State Sim.openai
                  (Sim.start Sim.empty) Sim_after_first Sim_after_second
                  (OpenAIAssistants.mkHandles "asst_1" "vs_0")
                  (OpenAIAssistants.mkHandles "asst_3" "vs_2")
                  (OpenAI.Assistant.mk "asst_1" (Some ["vs_0"]))
                  (vendor Sim_after_second)
                  eq_refl eq_refl
                  ltac:(discriminate) ltac:(discriminate)
                  eq_refl eq_refl)).
Defined.

(** The poll loop of an ingestion that settles after [n] polls makes these
    [n] polls and ends with the status it settled on. *)
Lemma poll_settles :
  forall (V : Type) (openai : OpenAIClient V) (vectorStoreId vectorStoreFileId : string)
         (status : string) (v : V) (n : nat) (final : string) (v' : V),
    Settles openai vectorStoreId vectorStoreFileId status v n final v' ->
    forall (fuel : nat) (log : list Call),
      n <= fuel ->
      OpenAIAssistants.poll openai fuel vectorStoreId vectorStoreFileId status (mkWorld v log)
      = (Ok (Some final),
         mkWorld v' (log ++ repeat (C_vectorStores_files_retrieve vectorStoreId
                                      vectorStoreFileId) n)%list)
      /\ final <> "in_progress".
Proof.
  intros V openai vectorStoreId vectorStoreFileId status v n final v' Hsettles.
  induction Hsettles as [status v Hstatus | updated v v1 v2 n final Hretrieve Hrest IH];
    intros fuel log Hfuel.
  - apply String.eqb_neq in Hstatus as Heqb.
    destruct fuel; cbn [OpenAIAssistants.poll repeat]; rewrite Heqb, app_nil_r;
      (split; [reflexivity | assumption]).
  - destruct fuel as [| fuel]; [lia |].
    cbn [OpenAIAssistants.poll]. rewrite String.eqb_refl. run. rewrite Hretrieve.
    destruct (IH fuel (log ++ [C_vectorStores_files_retrieve vectorStoreId
                                 vectorStoreFileId])%list) as [Hpoll Hfinal]; [lia |].
    rewrite Hpoll. split; [| assumption].
    cbn [repeat]. rewrite <- app_assoc. reflexivity.
Qed.

(** C7. Ingestion terminal states: once the file is uploaded and attached,
    if its status leaves [in_progress] after [n] polls, then with fuel for
    these polls [uploadFileToVectorStore] ends: it returns the two file
    handles when the status it left with is [completed], and otherwise it
    throws an error whose message carries that status, returning no handle;
    so it returns if and only if the status is [completed]. *)
Theorem ingest_terminal_states :
  forall (V : Type) (openai : OpenAIClient V)
         (vectorStoreId fileBuffer fileName mimeType : string) (w : World V)
         (file : string) (vectorStoreFile : OpenAI.VectorStoreFile.t)
         (v1 v2 v3 : V) (n fuel : nat) (final : string),
    files_create openai fileBuffer fileName mimeType "assistants" (vendor w) = (Ok file, v1) ->
    beta_vectorStores_files_create openai vectorStoreId file v1 = (Ok vectorStoreFile, v2) ->
    Settles openai vectorStoreId (OpenAI.VectorStoreFile.id vectorStoreFile)
      (OpenAI.VectorStoreFile.status vectorStoreFile) v2 n final v3 ->
    n <= fuel ->
    let outcome :=
      OpenAIAssistants.uploadFileToVectorStore openai fuel
        vectorStoreId fileBuffer fileName mimeType w in
    fst outcome
      = (if String.eqb final "completed"
         then Ok (Some (OpenAIAssistants.mkUploaded file
                          (OpenAI.VectorStoreFile.id vectorStoreFile)))
         else Throw (JsError ("File processing failed: " ++ final)))
    /\ snd outcome
       = mkWorld v3
           (calls w
            ++ [C_files_create fileBuffer fileName mimeType "assistants";
                C_vectorStores_files_create vectorStoreId file]
            ++ repeat (C_vectorStores_files_retrieve vectorStoreId
                         (OpenAI.VectorStoreFile.id vectorStoreFile)) n)%list
    /\ ((exists uploaded, fst outcome = Ok (Some uploaded)) <-> final = "completed").
Proof.
  intros V openai vectorStoreId fileBuffer fileName mimeType w file vectorStoreFile
         v1 v2 v3 n fuel final Hfile Hattach Hsettles Hfuel outcome.
  assert (Houtcome :
    outcome
    = (if String.eqb final "completed"
       then Ok (Some (OpenAIAssistants.mkUploaded file
                        (OpenAI.VectorStoreFile.id vectorStoreFile)))
       else Throw (JsError ("File processing failed: " ++ final)),
       mkWorld v3
         (calls w
          ++ [C_files_create fileBuffer fileName mimeType "assistants";
              C_vectorStores_files_create vectorStoreId file]
          ++ repeat (C_vectorStores_files_retrieve vectorStoreId
                       (OpenAI.VectorStoreFile.id vectorStoreFile)) n)%list)).
  { unfold outcome, OpenAIAssistants.uploadFileToVectorStore. run.
    rewrite Hfile. cbn [vendor calls]. rewrite Hattach.
    destruct (poll_settles V openai vectorStoreId _ _ v2 n final v3 Hsettles fuel
                ((calls w ++ [C_files_create fileBuffer fileName mimeType "assistants"])
                 ++ [C_vectorStores_files_create vectorStoreId file])%list Hfuel)
      as [Hpoll _].
    rewrite Hpoll. rewrite <- !app_assoc.
    destruct (String.eqb final "completed"); reflexivity. }
  rewrite Houtcome. cbn [fst snd]. split; [reflexivity | split; [reflexivity |]].
  split.
  - intros [uploaded Hok].
    destruct (String.eqb final "completed") eqn:Hfinal; [| discriminate Hok].
    apply String.eqb_eq. exact Hfinal.
  - intros ->. eexists. reflexivity.
Qed.

Lemma ingest_terminal_states_witness :
  fst (OpenAIAssistants.uploadFileToVectorStore Sim.openai 5
         "vs_0" "%PDF-1.4" "style-guide.pdf" "application/pdf"
         (Sim.start Sim_failing_ingestion))
  = Throw (JsError "File processing failed: failed").
Proof.
  refine (proj1 (ingest_terminal_states Sim.State Sim.openai
                   "vs_0" "%PDF-1.4" "style-guide.pdf" "application/pdf"
                   (Sim.start Sim_failing_ingestion)
                   "file-0" (OpenAI.VectorStoreFile.mk "file-0" "in_progress")
                   (Sim.bump Sim_failing_ingestion [])
                   (Sim.bump Sim_failing_ingestion [])
                   (Sim.mkState 1 [] [] [] (Ok (Gemini.mkListFilesResponse None))
                      Sim.no_answer Sim.no_answer Sim.no_answer)
                   2 5 "failed" eq_refl eq_refl _ _)).
  - eapply settles_later; [reflexivity |].
    eapply settles_later; [reflexivity |].
    apply settles_now. discriminate.
  - lia.
Defined.

(** ** The OpenAI run adapter *)

Lemma appended_messages_app :
  forall l l' : list Call,
    appended_messages (l ++ l') = (appended_messages l ++ appended_messages l')%list.
Proof. intros. unfold appended_messages. apply flat_map_app. Qed.

Lemma filter_creates_app :
  forall l l' : list Call,
    filter creates (l ++ l') = (filter creates l ++ filter creates l')%list.
Proof. intros. apply filter_app. Qed.

Lemma last_content_snoc :
  forall (earlier : list ChatRoute.ChatMessage) (newest : ChatRoute.ChatMessage),
    ChatRoute.last_content (earlier ++ [newest]) = Ok (ChatRoute.content newest).
Proof.
  intros. unfold ChatRoute.last_content. rewrite rev_app_distr. reflexivity.
Qed.

(** What [handleOpenAI] does on an existing thread, call by call. *)
Lemma handleOpenAI_thread_run :
  forall (V : Type) (sdk : Sdk V) (messages : list ChatRoute.ChatMessage)
         (apiKey modelId assistant thread request : string) (w : World V),
    assistant <> "" -> thread <> "" ->
    ChatRoute.last_content messages = Ok request ->
    ChatRoute.handleOpenAI sdk messages apiKey modelId (Some assistant) (Some thread) w
    = match beta_threads_messages_create (new_OpenAI sdk apiKey)
              thread "user" request (vendor w) with
      | (Throw e, v1) =>
          (Throw e, mkWorld v1 (calls w ++ [C_threads_messages_create thread "user" request])%list)
      | (Ok _, v1) =>
          let '(run, v2) :=
            beta_threads_runs_stream (new_OpenAI sdk apiKey) thread assistant v1 in
          (Ok (ChatRoute.StreamResponse (ChatRoute.openai_stream modelId thread run)),
           mkWorld v2 (calls w ++ [C_threads_messages_create thread "user" request;
                                   C_threads_runs_stream thread assistant])%list)
      end.
Proof.
  intros V sdk messages apiKey modelId assistant thread request w Ha Ht Hlast.
  unfold ChatRoute.handleOpenAI.
  destruct (given_Some _ Ha) as [-> ->]. destruct (given_Some _ Ht) as [-> ->].
  cbn [negb]. run. rewrite Hlast.
  destruct (beta_threads_messages_create _ thread "user" request (vendor w))
    as [[[] | e] v1]; [| reflexivity].
  cbn [vendor calls].
  destruct (beta_threads_runs_stream _ thread assistant v1) as [run v2].
  rewrite <- app_assoc. reflexivity.
Qed.

(** C8. Thread reuse: on a request with an assistant handle, a thread
    handle and a history that ends with [newest], [handleOpenAI] appends
    one message to a thread, to the given one: the content of [newest], as
    a user message; it creates no thread, and nothing else of the history
    is sent.  [streamAssistantResponse] appends the one message it is
    given. *)
Theorem thread_reuse_appends_newest :
  forall (V : Type) (sdk : Sdk V) (earlier : list ChatRoute.ChatMessage)
         (newest : ChatRoute.ChatMessage) (apiKey modelId assistant thread : string)
         (w : World V),
    assistant <> "" -> thread <> "" ->
    let after :=
      snd (ChatRoute.handleOpenAI sdk (earlier ++ [newest]) apiKey modelId
             (Some assistant) (Some thread) w) in
    (exists rest : list Call,
        calls after
          = (calls w ++ C_threads_messages_create thread "user" (ChatRoute.content newest)
                        :: rest)%list
        /\ (rest = [] \/ rest = [C_threads_runs_stream thread assistant]))
    /\ appended_messages (calls after)
       = (appended_messages (calls w) ++ [(thread, "user", ChatRoute.content newest)])%list
    /\ filter creates (calls after) = filter creates (calls w)
    /\ (forall userMessage : string,
           appended_messages
             (calls (snd (OpenAIAssistants.streamAssistantResponse (new_OpenAI sdk apiKey)
                            assistant thread userMessage w)))
           = (appended_messages (calls w) ++ [(thread, "user", userMessage)])%list).
Proof.
  intros V sdk earlier newest apiKey modelId assistant thread w Ha Ht after.
  assert (Hcalls : exists rest : list Call,
             calls after
             = (calls w ++ C_threads_messages_create thread "user" (ChatRoute.content newest)
                           :: rest)%list
             /\ (rest = [] \/ rest = [C_threads_runs_stream thread assistant])).
  { unfold after.
    rewrite (handleOpenAI_thread_run V sdk _ apiKey modelId assistant thread
               (ChatRoute.content newest) w Ha Ht (last_content_snoc earlier newest)).
    destruct (beta_threads_messages_create _ thread "user" _ (vendor w)) as [[[] | e] v1].
    - destruct (beta_threads_runs_stream _ thread assistant v1) as [run v2].
      eexists. split; [reflexivity | right; reflexivity].
    - eexists. split; [reflexivity | left; reflexivity]. }
  split; [exact Hcalls |].
  destruct Hcalls as (rest & -> & Hrest).
  split; [| split].
  - rewrite appended_messages_app.
    destruct Hrest as [-> | ->]; reflexivity.
  - rewrite filter_creates_app.
    destruct Hrest as [-> | ->]; cbn; apply app_nil_r.
  - intros userMessage. unfold OpenAIAssistants.streamAssistantResponse. run.
    destruct (beta_threads_messages_create _ thread "user" userMessage (vendor w))
      as [[[] | e] v1]; cbn [vendor calls snd].
    + destruct (beta_threads_runs_stream _ thread assistant v1) as [run v2].
      cbn [snd calls]. rewrite !appended_messages_app. cbn. rewrite app_nil_r. reflexivity.
    + rewrite appended_messages_app. reflexivity.
Qed.

Lemma thread_reuse_appends_newest_witness :
  appended_messages
    (calls (snd (ChatRoute.handleOpenAI Sim.sdk
                   (earlier_turns ++ [ChatRoute.mkChatMessage "user" "And what is Y?"])
                   "sk-1" "gpt-4o-mini" (Some "asst_1") (Some "thread_7")
                   (Sim.start Sim_silent_run))))
  = [("thread_7", "user", "And what is Y?")].
Proof.
  apply (proj1 (proj2 (thread_reuse_appends_newest Sim.State Sim.sdk
                         earlier_turns (ChatRoute.mkChatMessage "user" "And what is Y?")
                         "sk-1" "gpt-4o-mini" "asst_1" "thread_7"
                         (Sim.start Sim_silent_run)
                         ltac:(discriminate) ltac:(discriminate)))).
Defined.

(** ** The three stream loops *)

Lemma gemini_start_completes :
  forall (modelId : string) (chunks : list Gemini.Chunk) (sent : list string) (i o : Z),
    forallb text_known chunks = true ->
    ChatRoute.gemini_start modelId chunks None sent i o
    = mkByteStream
        (sent ++ map text_frame (flat_map gemini_fragment chunks)
         ++ [usage_frame (fst (fold_left gemini_usage_step chunks (i, o)))
               (snd (fold_left gemini_usage_step chunks (i, o))) modelId None])%list
        Closed.
Proof.
  intros modelId chunks. induction chunks as [| chunk rest IH]; intros sent i o Hknown.
  - reflexivity.
  - cbn [forallb] in Hknown. apply andb_prop in Hknown as [Hchunk Hrest].
    cbn [ChatRoute.gemini_start flat_map fold_left].
    unfold text_known in Hchunk.
    replace (gemini_usage_step (i, o) chunk)
      with (match Gemini.usageMetadata chunk with
            | Some usage => (or_zero (Gemini.promptTokenCount usage),
                             or_zero (Gemini.candidatesTokenCount usage))
            | None => (i, o)
            end) by reflexivity.
    unfold gemini_fragment at 1.
    destruct (Gemini.text chunk) as [text | e]; [| discriminate Hchunk].
    unfold nonempty.
    destruct (Gemini.usageMetadata chunk) as [usage |];
      destruct (String.eqb text ""); rewrite IH by assumption;
      cbn [map app]; rewrite <- ?app_assoc; reflexivity.
Qed.

Lemma block_frames_fragments :
  forall blocks : list OpenAI.Block,
    flat_map ChatRoute.block_frames blocks
    = map text_frame (flat_map block_fragment blocks).
Proof.
  induction blocks as [| block rest IH]; [reflexivity |].
  cbn [flat_map]. rewrite map_app, IH. f_equal.
  unfold ChatRoute.block_frames, block_fragment, given, or_else, nonempty.
  destruct (String.eqb (OpenAI.type block) "text"); [| reflexivity].
  destruct (OpenAI.text_value block) as [text |]; [| reflexivity].
  destruct (String.eqb text ""); reflexivity.
Qed.

Lemma openai_start_completes :
  forall (modelId thread : string) (run : list OpenAI.RunEvent) (sent : list string) (i o : Z),
    ChatRoute.openai_start modelId thread run None sent i o
    = mkByteStream
        (sent ++ map text_frame (flat_map run_fragments run)
         ++ [usage_frame (fst (fold_left run_usage_step run (i, o)))
               (snd (fold_left run_usage_step run (i, o))) modelId (Some thread)])%list
        Closed.
Proof.
  intros modelId thread run. induction run as [| event rest IH]; intros sent i o.
  - reflexivity.
  - cbn [ChatRoute.openai_start flat_map fold_left].
    destruct event as [[blocks |] | [usage |] | name];
      rewrite IH; cbn [run_fragments run_usage_step app]; try reflexivity.
    rewrite block_frames_fragments, map_app, <- !app_assoc. reflexivity.
Qed.

Lemma simple_start_completes :
  forall (modelId : string) (response : list OpenAI.CompletionChunk) (sent : list string)
         (i o : Z),
    ChatRoute.simple_start modelId response None sent i o
    = mkByteStream
        (sent ++ map text_frame (flat_map completion_fragment response)
         ++ [usage_frame (fst (fold_left completion_usage_step response (i, o)))
               (snd (fold_left completion_usage_step response (i, o))) modelId None])%list
        Closed.
Proof.
  intros modelId response. induction response as [| chunk rest IH]; intros sent i o.
  - reflexivity.
  - cbn [ChatRoute.simple_start flat_map fold_left].
    replace (completion_usage_step (i, o) chunk)
      with (match OpenAI.usage chunk with
            | Some usage => counts usage
            | None => (i, o)
            end) by reflexivity.
    unfold completion_fragment at 1, ChatRoute.first_content, given, or_else, nonempty.
    destruct (OpenAI.usage chunk) as [usage |];
      (destruct (OpenAI.choices chunk) as [| choice others];
       [| destruct (OpenAI.delta_content choice) as [text |];
          [destruct (String.eqb text "") |]]);
      rewrite IH; cbn [map app counts fst snd negb]; rewrite <- ?app_assoc; reflexivity.
Qed.

(** An upstream that completes gives the text frames of its fragments,
    then the usage frame with the latest counts, and the stream is closed. *)
Lemma completed_stream :
  forall (modelId : string) (a : Adapter),
    completes a = true ->
    adapter_stream modelId a = expected_stream modelId a.
Proof.
  intros modelId [[chunks fail] | thread [run fail] | [response fail]] Hcompletes;
    cbn in Hcompletes; destruct fail as [e |]; try discriminate Hcompletes;
    unfold adapter_stream, expected_stream, ChatRoute.gemini_stream,
           ChatRoute.openai_stream, ChatRoute.simple_stream;
    cbn [events failure fragments latest_usage adapter_thread].
  - rewrite gemini_start_completes by assumption. reflexivity.
  - rewrite openai_start_completes. reflexivity.
  - rewrite simple_start_completes. reflexivity.
Qed.

(** *** Upstreams that are interrupted *)

Lemma gemini_start_interrupted :
  forall (modelId : string) (chunks : list Gemini.Chunk) (failure : option Error)
         (e : Error) (sent : list string) (i o : Z),
    gemini_interruption chunks failure = Some e ->
    ChatRoute.gemini_start modelId chunks failure sent i o
    = mkByteStream (sent ++ map text_frame (gemini_sent chunks))%list (Errored e).
Proof.
  intros modelId chunks failure e. induction chunks as [| chunk rest IH];
    intros sent i o Hstop; cbn [gemini_interruption gemini_sent ChatRoute.gemini_start] in *.
  - rewrite Hstop. cbn [map]. rewrite app_nil_r. reflexivity.
  - destruct (Gemini.text chunk) as [text | e'].
    + unfold nonempty.
      destruct (Gemini.usageMetadata chunk); destruct (String.eqb text "");
        rewrite IH by assumption; cbn [map app]; rewrite <- ?app_assoc; reflexivity.
    + injection Hstop as ->. cbn [map]. rewrite app_nil_r. reflexivity.
Qed.

Lemma openai_start_interrupted :
  forall (modelId thread : string) (run : list OpenAI.RunEvent) (e : Error)
         (sent : list string) (i o : Z),
    ChatRoute.openai_start modelId thread run (Some e) sent i o
    = mkByteStream (sent ++ map text_frame (flat_map run_fragments run))%list (Errored e).
Proof.
  intros modelId thread run e. induction run as [| event rest IH]; intros sent i o.
  - cbn [ChatRoute.openai_start flat_map map]. rewrite app_nil_r. reflexivity.
  - cbn [ChatRoute.openai_start flat_map].
    destruct event as [[blocks |] | [usage |] | name];
      rewrite IH; cbn [run_fragments app]; try reflexivity.
    rewrite block_frames_fragments, map_app, <- !app_assoc. reflexivity.
Qed.

Lemma simple_start_interrupted :
  forall (modelId : string) (response : list OpenAI.CompletionChunk) (e : Error)
         (sent : list string) (i o : Z),
    ChatRoute.simple_start modelId response (Some e) sent i o
    = mkByteStream (sent ++ map text_frame (flat_map completion_fragment response))%list
        (Errored e).
Proof.
  intros modelId response e. induction response as [| chunk rest IH]; intros sent i o.
  - cbn [ChatRoute.simple_start flat_map map]. rewrite app_nil_r. reflexivity.
  - cbn [ChatRoute.simple_start flat_map].
    unfold completion_fragment at 1, ChatRoute.first_content, given, or_else, nonempty.
    destruct (OpenAI.usage chunk) as [usage |];
      (destruct (OpenAI.choices chunk) as [| choice others];
       [| destruct (OpenAI.delta_content choice) as [text |];
          [destruct (String.eqb text "") |]]);
      rewrite IH; cbn [map app negb]; rewrite <- ?app_assoc; reflexivity.
Qed.

Lemma interrupted_stream :
  forall (modelId : string) (a : Adapter) (e : Error),
    interruption a = Some e ->
    adapter_stream modelId a
    = mkByteStream (map text_frame (sent_fragments a)) (Errored e).
Proof.
  intros modelId [[chunks fail] | thread [run fail] | [response fail]] e Hstop;
    cbn [interruption events failure] in Hstop;
    unfold adapter_stream, ChatRoute.gemini_stream, ChatRoute.openai_stream,
           ChatRoute.simple_stream;
    cbn [events failure sent_fragments fragments].
  - rewrite (gemini_start_interrupted _ _ _ e) by assumption. reflexivity.
  - rewrite Hstop, openai_start_interrupted. reflexivity.
  - rewrite Hstop, simple_start_interrupted. reflexivity.
Qed.

Lemma gemini_interruption_known :
  forall (chunks : list Gemini.Chunk) (failure : option Error),
    gemini_interruption chunks failure = None
    <-> failure = None /\ forallb text_known chunks = true.
Proof.
  intros chunks failure. induction chunks as [| chunk rest IH].
  - cbn [gemini_interruption forallb]. split; [intros ->; split; reflexivity | tauto].
  - cbn [gemini_interruption forallb]. unfold text_known at 1.
    destruct (Gemini.text chunk) as [text | e]; cbn [andb].
    + exact IH.
    + split; [discriminate | intros [_ H]; discriminate H].
Qed.

(** An upstream is read to its end exactly when nothing interrupts it. *)
Lemma completes_interruption :
  forall a : Adapter, completes a = true <-> interruption a = None.
Proof.
  intros [[chunks fail] | thread [run fail] | [response fail]];
    cbn [completes interruption events failure].
  - rewrite gemini_interruption_known. destruct fail as [e |].
    + split; [discriminate | intros [H _]; discriminate H].
    + split; [intros H; split; [reflexivity | exact H] | intros [_ H]; exact H].
  - destruct fail; split; (reflexivity || discriminate).
  - destruct fail; split; (reflexivity || discriminate).
Qed.

(** The stream of an adapter, by how the reading of its upstream ends. *)
Lemma adapter_stream_cases :
  forall (modelId : string) (a : Adapter),
    adapter_stream modelId a
    = match interruption a with
      | None => expected_stream modelId a
      | Some e => mkByteStream (map text_frame (sent_fragments a)) (Errored e)
      end.
Proof.
  intros modelId a. destruct (interruption a) as [e |] eqn:Hstop.
  - apply interrupted_stream. exact Hstop.
  - apply completed_stream. apply completes_interruption. exact Hstop.
Qed.

Lemma lines_of_text_frames :
  forall texts : list string,
    lines_of (map text_frame texts) = (map text_line texts ++ [""])%list.
Proof.
  intros texts. unfold lines_of.
  replace (map text_frame texts) with (map encode (map TextDelta texts))
    by (rewrite map_map; reflexivity).
  rewrite split_nl_frames, map_map. reflexivity.
Qed.

Lemma text_lines_marked :
  forall texts : list string,
    Forall (fun line => startsWith line "0:" = true) (map text_line texts).
Proof.
  intros texts. apply Forall_forall. intros line Hline.
  apply in_map_iff in Hline as [text [<- _]]. reflexivity.
Qed.

Lemma fold_left_unchanged :
  forall (A B : Type) (step : B -> A -> B) (quiet : A -> bool) (l : list A) (acc : B),
    (forall b x, quiet x = true -> step b x = b) ->
    forallb quiet l = true ->
    fold_left step l acc = acc.
Proof.
  intros A B step quiet l. induction l as [| x rest IH]; intros acc Hstep Hquiet.
  - reflexivity.
  - cbn [forallb] in Hquiet. apply andb_prop in Hquiet as [Hx Hrest].
    cbn [fold_left]. rewrite Hstep by assumption. apply IH; assumption.
Qed.

Lemma existsb_false_forallb :
  forall (A : Type) (p : A -> bool) (l : list A),
    existsb p l = false -> forallb (fun x => negb (p x)) l = true.
Proof.
  intros A p l. induction l as [| x rest IH]; intros Hnone; [reflexivity |].
  cbn [existsb] in Hnone. apply orb_false_elim in Hnone as [Hx Hrest].
  cbn [forallb]. rewrite Hx, IH by assumption. reflexivity.
Qed.

(** Without usage from the upstream, the counts stay at zero. *)
Lemma silent_upstream_counts :
  forall a : Adapter, reports_usage a = false -> latest_usage a = (0%Z, 0%Z).
Proof.
  intros [[chunks fail] | thread [run fail] | [response fail]] Hsilent;
    cbn [reports_usage latest_usage events] in *;
    apply existsb_false_forallb in Hsilent;
    (eapply fold_left_unchanged; [| exact Hsilent]); cbn beta.
  - intros b chunk Hquiet. unfold gemini_usage_step.
    destruct (Gemini.usageMetadata chunk); [discriminate Hquiet | reflexivity].
  - intros b event Hquiet. destruct event as [blocks | [usage |] | name];
      [reflexivity | discriminate Hquiet | reflexivity | reflexivity].
  - intros b chunk Hquiet. unfold completion_usage_step.
    destruct (OpenAI.usage chunk); [discriminate Hquiet | reflexivity].
Qed.

(** ** Requests that reach an adapter *)

Lemma handleOpenAISimple_run :
  forall (V : Type) (sdk : Sdk V) (messages : list ChatRoute.ChatMessage)
         (openai : OpenAIClient V) (modelId : string) (w : World V),
    ChatRoute.handleOpenAISimple messages openai modelId w
    = match chat_completions_create openai modelId
              (ChatRoute.formattedMessages messages) (vendor w) with
      | (Ok response, v1) =>
          (Ok (ChatRoute.StreamResponse (ChatRoute.simple_stream modelId response)),
           mkWorld v1 (calls w ++ [C_chat_completions_create modelId
                                     (ChatRoute.formattedMessages messages)])%list)
      | (Throw e, v1) =>
          (Throw e,
           mkWorld v1 (calls w ++ [C_chat_completions_create modelId
                                     (ChatRoute.formattedMessages messages)])%list)
      end.
Proof.
  intros. unfold ChatRoute.handleOpenAISimple. run.
  destruct (chat_completions_create openai modelId _ (vendor w)) as [[response | e] v1];
    reflexivity.
Qed.

(** A request that reaches an adapter is answered with the stream that the
    adapter makes of its upstream, for the effective model. *)
Lemma POST_opens :
  forall (V : Type) (sdk : Sdk V) (body : ChatRoute.ChatBody) (w : World V)
         (a : Adapter) (v' : V),
    Opens sdk body (vendor w) a v' ->
    exists log : list Call,
      ChatRoute.POST sdk (Ok body) w
      = (Ok (ChatRoute.StreamResponse (adapter_stream (ChatRoute.effectiveModel body) a)),
         mkWorld v' (calls w ++ log)%list).
Proof.
  intros V sdk body w a v' Hopens.
  destruct Hopens as
    [fileList request result v1 v2 Hkey Hprovider Hlist Hlast Hsend
    | response v1 Hkey Hprovider Hassistant Hcreate
    | assistant thread request run v1 v2 v3 Hkey Hprovider Hassistant Ha Hthread
        Hnew Hlast Hmessage Hrun
    | assistant thread request run v1 v2 Hkey Hprovider Hassistant Ha Hthread Ht
        Hlast Hmessage Hrun];
    rewrite POST_dispatch by assumption.
  - apply String.eqb_neq in Hprovider. rewrite Hprovider.
    rewrite handleGemini_run, Hlist. cbv zeta. rewrite Hlast, Hsend.
    eexists. reflexivity.
  - rewrite Hprovider, String.eqb_refl.
    unfold ChatRoute.handleOpenAI. rewrite Hassistant. cbn [negb].
    rewrite (handleOpenAISimple_run V sdk), Hcreate. eexists. reflexivity.
  - rewrite Hprovider, String.eqb_refl.
    unfold ChatRoute.handleOpenAI. rewrite Hassistant.
    destruct (given_Some _ Ha) as [-> ->]. rewrite Hthread. cbn [negb]. run.
    rewrite Hnew. cbn [vendor calls]. rewrite Hlast. cbv beta iota.
    cbn [vendor calls]. rewrite Hmessage. cbn [vendor calls]. rewrite Hrun.
    eexists. rewrite <- !app_assoc. reflexivity.
  - rewrite Hprovider, String.eqb_refl, Hassistant, Hthread.
    rewrite (handleOpenAI_thread_run V sdk _ _ _ assistant thread request w Ha Ht Hlast).
    rewrite Hmessage, Hrun. eexists. reflexivity.
Qed.

(** C3, as stated, fails: the upstream of Gemini ends without an error,
    but its second chunk throws when its text is read; the answer is one
    text frame and the error, with no usage frame. *)
Lemma blocked_chunk_ends_without_summary : ~ summary_after_every_upstream_that_ends.
Proof.
  intro Hclaim.
  destruct (Hclaim Sim.State Sim.sdk
              (ChatRoute.mkChatBody question (Some "k") None None None None)
              (Sim.start Sim_blocked) (GeminiAdapter (Sim.gemini_answer Sim_blocked))
              Sim_blocked)
    as (stream & w' & Hpost & Hclosed & _).
  - apply (opens_gemini Sim.sdk _ Sim_blocked (Gemini.mkListFilesResponse None)
             "What is X?" (Sim.gemini_answer Sim_blocked) Sim_blocked Sim_blocked);
      (discriminate || reflexivity).
  - reflexivity.
  - vm_compute in Hpost. injection Hpost as <- _. discriminate Hclosed.
Qed.

(** C3, amended.  A request that reaches one of the three adapters is
    answered by a stream of text frames, one for each non-empty fragment
    read from the upstream, in order, that ends in one of two ways.  When
    the upstream is read to its end (it does not fail, and no chunk of
    Gemini throws when its text is read) one usage frame follows and the
    stream is closed: read as lines, the bytes are as many [0:] lines, one
    [2:] line, and nothing after it.  Otherwise the stream is ended with
    the error that stopped the reading, after the text frames of the
    fragments read before it: as many [0:] lines and no [2:] line. *)
Theorem wire_frame_ordering :
  forall (V : Type) (sdk : Sdk V) (body : ChatRoute.ChatBody) (w : World V)
         (a : Adapter) (v' : V),
    Opens sdk body (vendor w) a v' ->
    let usage := usage_line (fst (latest_usage a)) (snd (latest_usage a))
                   (ChatRoute.effectiveModel body) (adapter_thread a) in
    exists (log : list Call) (frames : list string) (fin : StreamEnd),
      ChatRoute.POST sdk (Ok body) w
        = (Ok (ChatRoute.StreamResponse (mkByteStream frames fin)),
           mkWorld v' (calls w ++ log)%list)
      /\ match interruption a with
         | None =>
             fin = Closed
             /\ frames
                = (map text_frame (fragments a)
                   ++ [usage_frame (fst (latest_usage a)) (snd (latest_usage a))
                         (ChatRoute.effectiveModel body) (adapter_thread a)])%list
             /\ lines_of frames = (map text_line (fragments a) ++ [usage; ""])%list
         | Some e =>
             fin = Errored e
             /\ frames = map text_frame (sent_fragments a)
             /\ lines_of frames = (map text_line (sent_fragments a) ++ [""])%list
         end
      /\ Forall (fun line => startsWith line "0:" = true) (map text_line (fragments a))
      /\ Forall (fun line => startsWith line "0:" = true) (map text_line (sent_fragments a))
      /\ startsWith usage "2:" = true.
Proof.
  intros V sdk body w a v' Hopens usage.
  destruct (POST_opens V sdk body w a v' Hopens) as [log Hpost].
  rewrite adapter_stream_cases in Hpost.
  destruct (interruption a) as [e |].
  - exists log. eexists. eexists. split; [exact Hpost |].
    split; [| split; [apply text_lines_marked | split; [apply text_lines_marked |]]].
    + split; [reflexivity |]. split; [reflexivity | apply lines_of_text_frames].
    + reflexivity.
  - exists log. eexists. eexists. split; [exact Hpost |].
    split; [| split; [apply text_lines_marked | split; [apply text_lines_marked |]]].
    + split; [reflexivity |]. split; [reflexivity | apply lines_of_frames].
    + reflexivity.
Qed.

Lemma wire_frame_ordering_witness :
  exists (log : list Call) (frames : list string) (fin : StreamEnd),
    ChatRoute.POST Sim.sdk
      (Ok (ChatRoute.mkChatBody question (Some "k") (Some "m") None None None))
      (Sim.start Sim_answering)
    = (Ok (ChatRoute.StreamResponse (mkByteStream frames fin)),
       mkWorld Sim_answering ([] ++ log)%list)
    /\ (fin = Closed
        /\ frames = sample_frames
        /\ lines_of frames
           = (map text_line sample_fragments ++ [usage_line 10 5 "m" None; ""])%list)
    /\ Forall (fun line => startsWith line "0:" = true) (map text_line sample_fragments)
    /\ Forall (fun line => startsWith line "0:" = true) (map text_line sample_fragments)
    /\ startsWith (usage_line 10 5 "m" None) "2:" = true.
Proof.
  refine (wire_frame_ordering Sim.State Sim.sdk
            (ChatRoute.mkChatBody question (Some "k") (Some "m") None None None)
            (Sim.start Sim_answering) (GeminiAdapter sample_upstream) Sim_answering
            _).
  apply (opens_gemini Sim.sdk _ Sim_answering (Gemini.mkListFilesResponse None)
           "What is X?" sample_upstream Sim_answering Sim_answering).
  - discriminate.
  - discriminate.
  - reflexivity.
  - reflexivity.
  - reflexivity.
Defined.

(** C10, as stated, fails: the upstream of Gemini ends without an error
    and reports no usage, but its first chunk throws when its text is
    read; the answer holds no frame at all, and so no summary. *)
Lemma blocked_answer_has_no_summary : ~ summary_is_never_omitted.
Proof.
  intro Hclaim.
  destruct (Hclaim Sim.State Sim.sdk
              (ChatRoute.mkChatBody question (Some "k") None None None None)
              (Sim.start Sim_blocked_at_once)
              (GeminiAdapter (Sim.gemini_answer Sim_blocked_at_once))
              Sim_blocked_at_once)
    as (frames & fin & w' & Hpost).
  - apply (opens_gemini Sim.sdk _ Sim_blocked_at_once (Gemini.mkListFilesResponse None)
             "What is X?" (Sim.gemini_answer Sim_blocked_at_once)
             Sim_blocked_at_once Sim_blocked_at_once);
      (discriminate || reflexivity).
  - reflexivity.
  - reflexivity.
  - assert (Hframes :
      enqueued (ChatRoute.gemini_stream "gemini-2.5-flash"
                  (Sim.gemini_answer Sim_blocked_at_once)) = []) by reflexivity.
    assert (Hanswer :
      fst (ChatRoute.POST Sim.sdk
             (Ok (ChatRoute.mkChatBody question (Some "k") None None None None))
             (Sim.start Sim_blocked_at_once))
      = Ok (ChatRoute.StreamResponse
              (ChatRoute.gemini_stream "gemini-2.5-flash"
                 (Sim.gemini_answer Sim_blocked_at_once)))) by reflexivity.
    rewrite Hpost in Hanswer. cbn [fst] in Hanswer. injection Hanswer as Hstream.
    rewrite <- Hstream in Hframes. cbn [enqueued] in Hframes.
    destruct frames; discriminate Hframes.
Qed.

(** A read that consists of one usage frame makes one call of
    [trackUsage]. *)
Lemma handle_chunk_usage_frame :
  forall (assistantMsgId : string) (c : ChatInterface.Client) (i o : Z) (model : string)
         (thread : option string),
    ChatInterface.trackUsage_calls
      (ChatInterface.handle_chunk assistantMsgId c (usage_frame i o model thread))
    = (ChatInterface.trackUsage_calls c
       ++ [(Some (JSON.int i), Some (JSON.int o), Some (JSON.Str model))])%list.
Proof.
  intros assistantMsgId c i o model thread.
  pose proof (handle_chunk_frames assistantMsgId c [UsageSummary i o model thread])
    as Hdecoded.
  cbn [map String.concat encode fold_left received] in Hdecoded.
  exact (f_equal snd Hdecoded).
Qed.

(** C10, amended.  A request that reaches one of the three adapters and
    whose upstream never reports usage is answered in one of two ways.
    When the upstream is read to its end (it does not fail, and no chunk
    of Gemini throws when its text is read) the stream is closed after the
    text frames and one last frame, the summary: the line [2:] followed by
    the JSON text of an object whose [usage] has [inputTokens] 0,
    [outputTokens] 0 and, as [model], the effective model of the request
    (the model asked for, or the default of the provider), and whose
    [threadId] is that of the run adapter; a client that reads this frame
    calls [trackUsage] once, with 0, 0 and that model.  Otherwise the
    stream is ended with the error that stopped the reading, and holds
    text frames only: no summary is sent. *)
Theorem usage_summary_without_vendor_usage :
  forall (V : Type) (sdk : Sdk V) (body : ChatRoute.ChatBody) (w : World V)
         (a : Adapter) (v' : V),
    Opens sdk body (vendor w) a v' ->
    reports_usage a = false ->
    let model := or_else (ChatRoute.model body)
                   (if String.eqb (ChatRoute.the_provider body) "openai"
                    then "gpt-4o-mini" else "gemini-2.5-flash") in
    let payload :=
      JSON.Obj (("usage", JSON.Obj [("inputTokens", JSON.Number 0 0);
                                    ("outputTokens", JSON.Number 0 0);
                                    ("model", JSON.Str model)])
                :: match adapter_thread a with
                   | Some t => [("threadId", JSON.Str t)]
                   | None => []
                   end) in
    let summary := usage_frame 0 0 model (adapter_thread a) in
    exists (log : list Call) (frames : list string) (fin : StreamEnd),
      ChatRoute.POST sdk (Ok body) w
        = (Ok (ChatRoute.StreamResponse (mkByteStream frames fin)),
           mkWorld v' (calls w ++ log)%list)
      /\ match interruption a with
         | None =>
             fin = Closed
             /\ frames = (map text_frame (fragments a) ++ [summary])%list
             /\ lines_of frames
                = (map text_line (fragments a)
                   ++ [("2:" ++ JSON.stringify payload)%string; ""])%list
         | Some e =>
             fin = Errored e
             /\ frames = map text_frame (sent_fragments a)
             /\ lines_of frames = (map text_line (sent_fragments a) ++ [""])%list
         end
      /\ summary = "2:" ++ JSON.stringify payload ++ String LF ""
      /\ startsWith summary "2:" = true
      /\ JSON.parse (JSON.stringify payload) = Some payload
      /\ (forall (assistantMsgId : string) (c : ChatInterface.Client),
             ChatInterface.trackUsage_calls
               (ChatInterface.handle_chunk assistantMsgId c summary)
             = (ChatInterface.trackUsage_calls c
                ++ [(Some (JSON.Number 0 0), Some (JSON.Number 0 0),
                     Some (JSON.Str model))])%list).
Proof.
  intros V sdk body w a v' Hopens Hsilent model payload summary.
  destruct (POST_opens V sdk body w a v' Hopens) as [log Hpost].
  rewrite adapter_stream_cases in Hpost.
  change (ChatRoute.effectiveModel body) with model in Hpost.
  assert (Hpayload : payload = usage_payload 0 0 model (adapter_thread a)) by reflexivity.
  exists log.
  assert (Hrest :
    summary = "2:" ++ JSON.stringify payload ++ String LF ""
    /\ startsWith summary "2:" = true
    /\ JSON.parse (JSON.stringify payload) = Some payload
    /\ (forall (assistantMsgId : string) (c : ChatInterface.Client),
           ChatInterface.trackUsage_calls
             (ChatInterface.handle_chunk assistantMsgId c summary)
           = (ChatInterface.trackUsage_calls c
              ++ [(Some (JSON.Number 0 0), Some (JSON.Number 0 0),
                   Some (JSON.Str model))])%list)).
  { split; [reflexivity |]. split; [reflexivity |]. split.
    - rewrite Hpayload. apply parse_stringify_usage.
    - intros assistantMsgId c. apply handle_chunk_usage_frame. }
  destruct (interruption a) as [e |].
  - eexists. eexists. split; [exact Hpost |]. split; [| exact Hrest].
    split; [reflexivity |]. split; [reflexivity | apply lines_of_text_frames].
  - unfold expected_stream in Hpost. rewrite (silent_upstream_counts a Hsilent) in Hpost.
    cbn [fst snd] in Hpost.
    eexists. eexists. split; [exact Hpost |]. split; [| exact Hrest].
    split; [reflexivity |]. split; [reflexivity |].
    rewrite lines_of_frames. reflexivity.
Qed.

Lemma usage_summary_without_vendor_usage_witness :
  exists (log : list Call) (frames : list string) (fin : StreamEnd),
    ChatRoute.POST Sim.sdk
      (Ok (ChatRoute.mkChatBody question (Some "sk-1") None (Some "openai")
             (Some "asst_1") None))
      (Sim.start Sim_silent_run)
    = (Ok (ChatRoute.StreamResponse (mkByteStream frames fin)),
       mkWorld
         (Sim.mkState 3 [OpenAI.Assistant.mk "asst_1" (Some ["vs_0"])] []
            [("thread_2", "What is X?")]
            (Ok (Gemini.mkListFilesResponse None)) Sim.no_answer
            (Sim.run_answer Sim_silent_run) Sim.no_answer)
         ([] ++ log)%list)
    /\ (fin = Closed
        /\ frames = [text_frame "X is "; text_frame "42.";
                     usage_frame 0 0 "gpt-4o-mini" (Some "thread_2")]
        /\ lines_of frames
           = [text_line "X is "; text_line "42.";
              "2:" ++ JSON.stringify
                        (JSON.Obj [("usage", JSON.Obj [("inputTokens", JSON.Number 0 0);
                                                       ("outputTokens", JSON.Number 0 0);
                                                       ("model", JSON.Str "gpt-4o-mini")]);
                                   ("threadId", JSON.Str "thread_2")]);
              ""])
    /\ usage_frame 0 0 "gpt-4o-mini" (Some "thread_2")
       = "2:" ++ JSON.stringify
                   (JSON.Obj [("usage", JSON.Obj [("inputTokens", JSON.Number 0 0);
                                                  ("outputTokens", JSON.Number 0 0);
                                                  ("model", JSON.Str "gpt-4o-mini")]);
                              ("threadId", JSON.Str "thread_2")])
          ++ String LF ""
    /\ startsWith (usage_frame 0 0 "gpt-4o-mini" (Some "thread_2")) "2:" = true
    /\ JSON.parse (JSON.stringify
                     (JSON.Obj [("usage", JSON.Obj [("inputTokens", JSON.Number 0 0);
                                                    ("outputTokens", JSON.Number 0 0);
                                                    ("model", JSON.Str "gpt-4o-mini")]);
                                ("threadId", JSON.Str "thread_2")]))
       = Some (JSON.Obj [("usage", JSON.Obj [("inputTokens", JSON.Number 0 0);
                                             ("outputTokens", JSON.Number 0 0);
                                             ("model", JSON.Str "gpt-4o-mini")]);
                         ("threadId", JSON.Str "thread_2")])
    /\ (forall (assistantMsgId : string) (c : ChatInterface.Client),
           ChatInterface.trackUsage_calls
             (ChatInterface.handle_chunk assistantMsgId c
                (usage_frame 0 0 "gpt-4o-mini" (Some "thread_2")))
           = (ChatInterface.trackUsage_calls c
              ++ [(Some (JSON.Number 0 0), Some (JSON.Number 0 0),
                   Some (JSON.Str "gpt-4o-mini"))])%list).
Proof.
  refine (usage_summary_without_vendor_usage Sim.State Sim.sdk
            (ChatRoute.mkChatBody question (Some "sk-1") None (Some "openai")
               (Some "asst_1") None)
            (Sim.start Sim_silent_run)
            (OpenAIRunAdapter "thread_2" (Sim.run_answer Sim_silent_run)) _
            _ eq_refl).
  apply (opens_new_thread Sim.sdk _ Sim_silent_run "asst_1" "thread_2" "What is X?"
           (Sim.run_answer Sim_silent_run)
           (Sim.bump Sim_silent_run (Sim.assistants Sim_silent_run))
           (Sim.mkState 3 [OpenAI.Assistant.mk "asst_1" (Some ["vs_0"])] []
              [("thread_2", "What is X?")]
              (Ok (Gemini.mkListFilesResponse None)) Sim.no_answer
              (Sim.run_answer Sim_silent_run) Sim.no_answer)).
  - discriminate.
  - reflexivity.
  - reflexivity.
  - discriminate.
  - reflexivity.
  - reflexivity.
  - reflexivity.
  - reflexivity.
  - reflexivity.
Defined.

(** * Further properties *)

Lemma decoded_parts :
  forall (c : ChatInterface.Client) (content : string)
         (calls : list (option JSON.value * option JSON.value * option JSON.value)),
    decoded c = (content, calls) ->
    ChatInterface.assistantContent c = content /\ ChatInterface.trackUsage_calls c = calls.
Proof. intros c content calls [= <- <-]. split; reflexivity. Qed.


Lemma received_fold :
  forall (frames : list StreamFrame) (content : string)
         (calls : list (option JSON.value * option JSON.value * option JSON.value)),
    fold_left (fun d frame => received frame d) frames (content, calls)
    = (content ++ String.concat "" (fragments_of frames), (calls ++ usages_of frames)%list).
Proof.
  induction frames as [| frame frames IH]; intros content calls.
  - cbn [fold_left fragments_of usages_of flat_map String.concat].
    rewrite append_empty, app_nil_r. reflexivity.
  - cbn [fold_left]. destruct frame as [fragment | i o model thread];
      cbn [received fst snd]; rewrite IH; unfold fragments_of, usages_of;
      cbn [flat_map app].
    + rewrite concat_frames, append_assoc. reflexivity.
    + rewrite <- app_assoc. reflexivity.
Qed.

(** X1. Round trip of the wire format: whatever the fragments, the token
    counts, the model names and the thread handles, and however the frames
    that the adapters write are grouped into reads, as long as every read
    is made of whole frames, the client ends with the concatenation of the
    fragments as its content and with one [trackUsage] call for each usage
    frame, carrying its two counts and its model. *)
Theorem whole_frame_reads_round_trip :
  forall (currentMessages : list ChatInterface.Message) (assistantMsgId : string)
         (reads : list (list StreamFrame)),
    let c := ChatInterface.read_body currentMessages assistantMsgId
               (map (fun frames => String.concat "" (map encode frames)) reads) Closed in
    ChatInterface.assistantContent c = String.concat "" (fragments_of (List.concat reads))
    /\ ChatInterface.trackUsage_calls c = usages_of (List.concat reads).
Proof.
  intros currentMessages assistantMsgId reads c.
  pose proof (aligned_reads_round_trip currentMessages assistantMsgId reads) as Hdecoded.
  rewrite received_fold in Hdecoded. fold c in Hdecoded.
  apply decoded_parts in Hdecoded. exact Hdecoded.
Qed.

(** ** The client on any bytes *)

Lemma handle_line_messages :
  forall (c : ChatInterface.Client) (line : string),
    ChatInterface.messages (ChatInterface.handle_line c line) = ChatInterface.messages c.
Proof.
  intros c line. unfold ChatInterface.handle_line.
  destruct (startsWith line "0:").
  - destruct (JSON.parse (slice 2 line)); reflexivity.
  - destruct (startsWith line "2:"); [| reflexivity].
    destruct (JSON.parse (slice 2 line)) as [meta |]; [| reflexivity].
    destruct (JSON.get meta "usage") as [[usage |] |]; try reflexivity.
    destruct (JSON.truthy usage); reflexivity.
Qed.

Lemma fold_lines_messages :
  forall (lines : list string) (c : ChatInterface.Client),
    ChatInterface.messages (fold_left ChatInterface.handle_line lines c)
    = ChatInterface.messages c.
Proof.
  induction lines as [| line lines IH]; intros c; [reflexivity |].
  cbn [fold_left]. rewrite IH. apply handle_line_messages.
Qed.

Lemma update_last_snoc :
  forall (assistantMsgId text role old : string) (prev : list ChatInterface.Message),
    ChatInterface.update_last assistantMsgId text
      (prev ++ [ChatInterface.mkMessage assistantMsgId role old])
    = (prev ++ [ChatInterface.mkMessage assistantMsgId role text])%list.
Proof.
  intros assistantMsgId text role old prev. induction prev as [| m prev IH].
  - cbn [app ChatInterface.update_last ChatInterface.id ChatInterface.role].
    rewrite String.eqb_refl. reflexivity.
  - cbn [app]. destruct prev as [| m' prev].
    + cbn [app] in *. cbn [ChatInterface.update_last] in *. rewrite IH. reflexivity.
    + cbn [app] in *. change (ChatInterface.update_last assistantMsgId text
                                (m :: m' :: (prev ++ [ChatInterface.mkMessage assistantMsgId role old])%list))
        with (m :: ChatInterface.update_last assistantMsgId text
                     (m' :: (prev ++ [ChatInterface.mkMessage assistantMsgId role old])%list)).
      rewrite IH. reflexivity.
Qed.

(** After any reads, the messages are the history followed by the
    in-flight message, whose content is the content so far. *)
Lemma reads_messages :
  forall (assistantMsgId : string) (currentMessages : list ChatInterface.Message)
         (reads : list string) (c : ChatInterface.Client),
    ChatInterface.messages c
      = (currentMessages
         ++ [ChatInterface.mkMessage assistantMsgId "assistant"
               (ChatInterface.assistantContent c)])%list ->
    ChatInterface.messages (fold_left (ChatInterface.handle_chunk assistantMsgId) reads c)
    = (currentMessages
       ++ [ChatInterface.mkMessage assistantMsgId "assistant"
             (ChatInterface.assistantContent
                (fold_left (ChatInterface.handle_chunk assistantMsgId) reads c))])%list.
Proof.
  intros assistantMsgId currentMessages reads.
  induction reads as [| chunk reads IH]; intros c Hc; [exact Hc |].
  cbn [fold_left]. apply IH.
  unfold ChatInterface.handle_chunk.
  cbn [ChatInterface.messages ChatInterface.assistantContent].
  rewrite fold_lines_messages. cbn [ChatInterface.log ChatInterface.messages].
  rewrite Hc. apply update_last_snoc.
Qed.

(** X2. The message list of the client: whatever bytes the reads deliver,
    the messages of the conversation so far are left as they were, and the
    in-flight assistant message that follows them holds the content
    accumulated so far; a body that ends in an error adds, after it, one
    assistant message with the error text, and the partial content stays. *)
Theorem history_kept_and_last_replaced :
  forall (currentMessages : list ChatInterface.Message) (assistantMsgId : string)
         (reads : list string) (fin : StreamEnd),
    let c := ChatInterface.read_body currentMessages assistantMsgId reads fin in
    ChatInterface.messages c
    = (currentMessages
       ++ ChatInterface.mkMessage assistantMsgId "assistant" (ChatInterface.assistantContent c)
          :: match fin with
             | Closed => []
             | Errored e =>
                 [ChatInterface.mkMessage "error" "assistant" ("Error: " ++ message e)]
             end)%list.
Proof.
  intros currentMessages assistantMsgId reads fin c. unfold c, ChatInterface.read_body.
  set (c0 := ChatInterface.mkClient "" 0 _ [] []).
  pose proof (reads_messages assistantMsgId currentMessages reads c0 eq_refl) as Hreads.
  destruct fin as [| e];
    cbn [ChatInterface.log ChatInterface.messages ChatInterface.assistantContent];
    rewrite Hreads.
  - reflexivity.
  - rewrite <- app_assoc. reflexivity.
Qed.

Lemma handle_line_grows :
  forall (c : ChatInterface.Client) (line : string),
    exists (suffix : string)
           (more : list (option JSON.value * option JSON.value * option JSON.value)),
      decoded (ChatInterface.handle_line c line)
      = (ChatInterface.assistantContent c ++ suffix,
         (ChatInterface.trackUsage_calls c ++ more)%list).
Proof.
  intros c line. unfold ChatInterface.handle_line, decoded.
  assert (Hsame : exists suffix more,
             (ChatInterface.assistantContent c, ChatInterface.trackUsage_calls c)
             = (ChatInterface.assistantContent c ++ suffix,
                (ChatInterface.trackUsage_calls c ++ more)%list)).
  { exists "", []. rewrite append_empty, app_nil_r. reflexivity. }
  destruct (startsWith line "0:").
  - destruct (JSON.parse (slice 2 line)) as [text |]; [| exact Hsame].
    exists (JSON.to_string text), []. rewrite app_nil_r. reflexivity.
  - destruct (startsWith line "2:"); [| exact Hsame].
    destruct (JSON.parse (slice 2 line)) as [meta |]; [| exact Hsame].
    destruct (JSON.get meta "usage") as [[usage |] |]; try exact Hsame.
    destruct (JSON.truthy usage); [| exact Hsame].
    eexists "", _. rewrite append_empty. reflexivity.
Qed.

Lemma fold_lines_grows :
  forall (lines : list string) (c : ChatInterface.Client),
    exists (suffix : string)
           (more : list (option JSON.value * option JSON.value * option JSON.value)),
      decoded (fold_left ChatInterface.handle_line lines c)
      = (ChatInterface.assistantContent c ++ suffix,
         (ChatInterface.trackUsage_calls c ++ more)%list).
Proof.
  induction lines as [| line lines IH]; intros c.
  - exists "", []. unfold decoded. cbn [fold_left]. rewrite append_empty, app_nil_r.
    reflexivity.
  - cbn [fold_left].
    destruct (IH (ChatInterface.handle_line c line)) as (suffix & more & Hrest).
    destruct (handle_line_grows c line) as (suffix0 & more0 & Hline).
    apply decoded_parts in Hline as [Hcontent Hcalls].
    rewrite Hcontent, Hcalls in Hrest.
    exists (suffix0 ++ suffix), (more0 ++ more)%list.
    rewrite Hrest, append_assoc, <- app_assoc. reflexivity.
Qed.

Lemma reads_grow :
  forall (assistantMsgId : string) (reads : list string) (c : ChatInterface.Client),
    exists (suffix : string)
           (more : list (option JSON.value * option JSON.value * option JSON.value)),
      decoded (fold_left (ChatInterface.handle_chunk assistantMsgId) reads c)
      = (ChatInterface.assistantContent c ++ suffix,
         (ChatInterface.trackUsage_calls c ++ more)%list).
Proof.
  intros assistantMsgId reads. induction reads as [| chunk reads IH]; intros c.
  - exists "", []. unfold decoded. cbn [fold_left]. rewrite append_empty, app_nil_r.
    reflexivity.
  - cbn [fold_left].
    destruct (IH (ChatInterface.handle_chunk assistantMsgId c chunk))
      as (suffix & more & Hrest).
    assert (Hchunk : exists suffix0 more0,
               decoded (ChatInterface.handle_chunk assistantMsgId c chunk)
               = (ChatInterface.assistantContent c ++ suffix0,
                  (ChatInterface.trackUsage_calls c ++ more0)%list)).
    { unfold ChatInterface.handle_chunk.
      match goal with
      | |- context [fold_left ChatInterface.handle_line ?lines ?c2] =>
          destruct (fold_lines_grows lines c2) as (suffix0 & more0 & Hlines)
      end.
      exists suffix0, more0. exact Hlines. }
    destruct Hchunk as (suffix0 & more0 & Hchunk).
    apply decoded_parts in Hchunk as [Hcontent Hcalls].
    rewrite Hcontent, Hcalls in Hrest.
    exists (suffix0 ++ suffix), (more0 ++ more)%list.
    rewrite Hrest, append_assoc, <- app_assoc. reflexivity.
Qed.

(** X3. The client never retracts: whatever bytes further reads deliver,
    well formed or not, the content after them starts with the content
    before them, and the calls of [trackUsage] before them stay, in order,
    at the head of the calls after them. *)
Theorem content_only_grows :
  forall (currentMessages : list ChatInterface.Message) (assistantMsgId : string)
         (reads further : list string),
    exists (suffix : string)
           (more : list (option JSON.value * option JSON.value * option JSON.value)),
      ChatInterface.assistantContent
        (ChatInterface.read_body currentMessages assistantMsgId (reads ++ further) Closed)
      = ChatInterface.assistantContent
          (ChatInterface.read_body currentMessages assistantMsgId reads Closed) ++ suffix
      /\ ChatInterface.trackUsage_calls
           (ChatInterface.read_body currentMessages assistantMsgId (reads ++ further) Closed)
         = (ChatInterface.trackUsage_calls
              (ChatInterface.read_body currentMessages assistantMsgId reads Closed)
            ++ more)%list.
Proof.
  intros currentMessages assistantMsgId reads further.
  unfold ChatInterface.read_body.
  cbn [ChatInterface.log ChatInterface.assistantContent ChatInterface.trackUsage_calls].
  rewrite fold_left_app.
  destruct (reads_grow assistantMsgId further
              (fold_left (ChatInterface.handle_chunk assistantMsgId) reads
                 (ChatInterface.mkClient "" 0
                    (currentMessages
                     ++ [ChatInterface.mkMessage assistantMsgId "assistant" ""])%list [] [])))
    as (suffix & more & Hgrow).
  apply decoded_parts in Hgrow as [Hcontent Hcalls].
  exists suffix, more. split; assumption.
Qed.

(** ** Upstreams that fail *)

(** X4. An upstream that fails: when the upstream of any of the three
    adapters ends in an error (or, for Gemini, a chunk throws when its text
    is read), the request is still answered with a stream; the stream holds
    the text frames of the fragments that came before the error, it holds
    no usage frame, and it is ended with that error, not closed. *)
Theorem failed_upstream_keeps_sent_frames :
  forall (V : Type) (sdk : Sdk V) (body : ChatRoute.ChatBody) (w : World V)
         (a : Adapter) (v' : V) (e : Error),
    Opens sdk body (vendor w) a v' ->
    interruption a = Some e ->
    exists log : list Call,
      ChatRoute.POST sdk (Ok body) w
      = (Ok (ChatRoute.StreamResponse
               (mkByteStream (map text_frame (sent_fragments a)) (Errored e))),
         mkWorld v' (calls w ++ log)%list)
      /\ Forall (fun frame => startsWith frame "0:" = true)
                (map text_frame (sent_fragments a)).
Proof.
  intros V sdk body w a v' e Hopens Hstop.
  destruct (POST_opens V sdk body w a v' Hopens) as [log Hpost].
  rewrite (interrupted_stream _ a e Hstop) in Hpost.
  exists log. split; [exact Hpost |].
  apply Forall_forall. intros frame Hframe.
  apply in_map_iff in Hframe as [text [<- _]]. reflexivity.
Qed.

Lemma failed_upstream_keeps_sent_frames_witness :
  exists log : list Call,
    ChatRoute.POST Sim.sdk
      (Ok (ChatRoute.mkChatBody question (Some "k") None None None None))
      (Sim.start Sim_blocked)
    = (Ok (ChatRoute.StreamResponse
             (mkByteStream [text_frame "The answer"]
                (Errored (JsError "Response was blocked due to SAFETY")))),
       mkWorld Sim_blocked ([] ++ log)%list)
    /\ Forall (fun frame => startsWith frame "0:" = true) [text_frame "The answer"].
Proof.
  refine (failed_upstream_keeps_sent_frames Sim.State Sim.sdk
            (ChatRoute.mkChatBody question (Some "k") None None None None)
            (Sim.start Sim_blocked) (GeminiAdapter (Sim.gemini_answer Sim_blocked))
            Sim_blocked (JsError "Response was blocked due to SAFETY") _ eq_refl).
  apply (opens_gemini Sim.sdk _ Sim_blocked (Gemini.mkListFilesResponse None)
           "What is X?" (Sim.gemini_answer Sim_blocked) Sim_blocked Sim_blocked).
  - discriminate.
  - discriminate.
  - reflexivity.
  - reflexivity.
  - reflexivity.
Defined.

(** ** The counts of the summary *)

Lemma fold_gemini_quiet :
  forall (chunks : list Gemini.Chunk) (acc : Z * Z),
    forallb gemini_quiet chunks = true ->
    fold_left gemini_usage_step chunks acc = acc.
Proof.
  intros chunks acc Hquiet.
  apply (fold_left_unchanged _ _ gemini_usage_step gemini_quiet); [| exact Hquiet].
  intros b chunk Hchunk. unfold gemini_usage_step, gemini_quiet in *.
  destruct (Gemini.usageMetadata chunk); [discriminate Hchunk | reflexivity].
Qed.

(** X5. The latest counts, not their sum: when the upstream of Gemini
    completes, the usage frame carries the two counts of the last chunk
    that reported usage, a count that this chunk leaves out being 0,
    whatever the chunks before it reported. *)
Theorem summary_has_latest_counts :
  forall (modelId : string) (before after : list Gemini.Chunk) (chunk : Gemini.Chunk)
         (usage : Gemini.UsageMetadata),
    Gemini.usageMetadata chunk = Some usage ->
    forallb gemini_quiet after = true ->
    forallb text_known (before ++ chunk :: after) = true ->
    ChatRoute.gemini_stream modelId (mkUpstream (before ++ chunk :: after) None)
    = mkByteStream
        (map text_frame (flat_map gemini_fragment (before ++ chunk :: after))
         ++ [usage_frame (or_zero (Gemini.promptTokenCount usage))
               (or_zero (Gemini.candidatesTokenCount usage)) modelId None])%list
        Closed.
Proof.
  intros modelId before after chunk usage Husage Hquiet Hknown.
  unfold ChatRoute.gemini_stream. cbn [events failure].
  rewrite gemini_start_completes by assumption. cbn [app].
  rewrite fold_left_app. cbn [fold_left].
  rewrite fold_gemini_quiet by assumption.
  unfold gemini_usage_step at 1 3. rewrite Husage. reflexivity.
Qed.

Lemma summary_has_latest_counts_witness :
  ChatRoute.gemini_stream "m" sample_upstream = mkByteStream sample_frames Closed.
Proof.
  apply (summary_has_latest_counts "m"
           [Gemini.mkChunk (Ok "The") None;
            Gemini.mkChunk (Ok " ") None;
            Gemini.mkChunk (Ok "answer")
              (Some (Gemini.mkUsageMetadata (Some 10%Z) (Some 2%Z)));
            Gemini.mkChunk (Ok " is") None]
           []
           (Gemini.mkChunk (Ok " 42.") (Some (Gemini.mkUsageMetadata (Some 10%Z) (Some 5%Z))))
           (Gemini.mkUsageMetadata (Some 10%Z) (Some 5%Z))
           eq_refl eq_refl eq_refl).
Defined.

(** ** The generator of the library and the loop of the route *)

Lemma block_yields_fragments :
  forall blocks : list OpenAI.Block,
    yield_texts (flat_map OpenAIAssistants.yields_of_block blocks)
    = flat_map block_fragment blocks.
Proof.
  induction blocks as [| block rest IH]; [reflexivity |].
  cbn [flat_map]. unfold yield_texts in *. rewrite flat_map_app, IH. f_equal.
  unfold OpenAIAssistants.yields_of_block, block_fragment, given, or_else, nonempty.
  destruct (String.eqb (OpenAI.type block) "text"); [| reflexivity].
  destruct (OpenAI.text_value block) as [text |]; [| reflexivity].
  destruct (String.eqb text ""); reflexivity.
Qed.

Lemma event_yields_fragments :
  forall run : list OpenAI.RunEvent,
    yield_texts (flat_map OpenAIAssistants.yields_of_event run)
    = flat_map run_fragments run.
Proof.
  induction run as [| event rest IH]; [reflexivity |].
  cbn [flat_map]. unfold yield_texts in *. rewrite flat_map_app, IH. f_equal.
  destruct event as [[blocks |] | [usage |] | name]; try reflexivity.
  apply block_yields_fragments.
Qed.

Lemma text_frames_marked :
  forall texts : list string,
    filter (fun frame => startsWith frame "0:") (map text_frame texts)
    = map text_frame texts.
Proof.
  induction texts as [| text texts IH]; [reflexivity |].
  cbn [map filter]. replace (startsWith (text_frame text) "0:") with true by reflexivity.
  rewrite IH. reflexivity.
Qed.

(** X6. The generator and the route agree: once the message is appended,
    [streamAssistantResponse] yields, in order, the texts of the fragments
    of the run, and it ends with the failure of the run, if any; the text
    frames that the loop of [handleOpenAI] forwards for the same run are
    the frames of exactly these texts, in the same order, followed by the
    one usage frame when the run does not fail, and by nothing when it
    does. *)
Theorem generator_yields_the_forwarded_fragments :
  forall (V : Type) (openai : OpenAIClient V) (assistantId threadId userMessage : string)
         (w : World V) (v1 v2 : V) (run : Upstream OpenAI.RunEvent) (modelId : string),
    beta_threads_messages_create openai threadId "user" userMessage (vendor w) = (Ok tt, v1) ->
    beta_threads_runs_stream openai threadId assistantId v1 = (run, v2) ->
    exists yields : list OpenAIAssistants.Yield,
      fst (OpenAIAssistants.streamAssistantResponse openai assistantId threadId userMessage w)
      = Ok (yields, failure run)
      /\ yield_texts yields = fragments (OpenAIRunAdapter threadId run)
      /\ enqueued (ChatRoute.openai_stream modelId threadId run)
         = (map text_frame (yield_texts yields)
            ++ match failure run with
               | None =>
                   [usage_frame (fst (latest_usage (OpenAIRunAdapter threadId run)))
                      (snd (latest_usage (OpenAIRunAdapter threadId run)))
                      modelId (Some threadId)]
               | Some _ => []
               end)%list
      /\ filter (fun frame => startsWith frame "0:")
           (enqueued (ChatRoute.openai_stream modelId threadId run))
         = map text_frame (yield_texts yields)
      /\ startsWith
           (usage_frame (fst (latest_usage (OpenAIRunAdapter threadId run)))
              (snd (latest_usage (OpenAIRunAdapter threadId run)))
              modelId (Some threadId)) "2:" = true.
Proof.
  intros V openai assistantId threadId userMessage w v1 v2 run modelId Hmessage Hrun.
  exists (flat_map OpenAIAssistants.yields_of_event (events run)).
  assert (Hframes :
    enqueued (ChatRoute.openai_stream modelId threadId run)
    = (map text_frame (flat_map run_fragments (events run))
       ++ match failure run with
          | None =>
              [usage_frame (fst (latest_usage (OpenAIRunAdapter threadId run)))
                 (snd (latest_usage (OpenAIRunAdapter threadId run)))
                 modelId (Some threadId)]
          | Some _ => []
          end)%list).
  { unfold ChatRoute.openai_stream. destruct (failure run) as [e |].
    - rewrite openai_start_interrupted. cbn [enqueued app].
      rewrite app_nil_r. reflexivity.
    - rewrite openai_start_completes. reflexivity. }
  split; [| split; [| split; [| split; [| reflexivity]]]].
  - unfold OpenAIAssistants.streamAssistantResponse. run.
    rewrite Hmessage. cbn [vendor calls]. rewrite Hrun. reflexivity.
  - apply event_yields_fragments.
  - rewrite event_yields_fragments. exact Hframes.
  - rewrite event_yields_fragments, Hframes, filter_app, text_frames_marked.
    destruct (failure run) as [e |]; cbn [filter].
    + apply app_nil_r.
    + replace (startsWith (usage_frame _ _ modelId (Some threadId)) "0:") with false
        by reflexivity.
      apply app_nil_r.
Qed.

Lemma generator_yields_the_forwarded_fragments_witness :
  exists yields : list OpenAIAssistants.Yield,
    fst (OpenAIAssistants.streamAssistantResponse Sim.openai "asst_1" "thread_7"
           "What is X?" (Sim.start Sim_silent_run))
    = Ok (yields, None)
    /\ yield_texts yields = ["X is "; "42."]
    /\ enqueued (ChatRoute.openai_stream "gpt-4o-mini" "thread_7"
                   (Sim.run_answer Sim_silent_run))
       = (map text_frame (yield_texts yields)
          ++ [usage_frame 0 0 "gpt-4o-mini" (Some "thread_7")])%list
    /\ filter (fun frame => startsWith frame "0:")
         (enqueued (ChatRoute.openai_stream "gpt-4o-mini" "thread_7"
                      (Sim.run_answer Sim_silent_run)))
       = map text_frame (yield_texts yields)
    /\ startsWith (usage_frame 0 0 "gpt-4o-mini" (Some "thread_7")) "2:" = true.
Proof.
  apply (generator_yields_the_forwarded_fragments Sim.State Sim.openai
           "asst_1" "thread_7" "What is X?" (Sim.start Sim_silent_run)
           (Sim.mkState 2 [OpenAI.Assistant.mk "asst_1" (Some ["vs_0"])] []
              [("thread_7", "What is X?")]
              (Ok (Gemini.mkListFilesResponse None)) Sim.no_answer
              (Sim.run_answer Sim_silent_run) Sim.no_answer)
           (Sim.mkState 2 [OpenAI.Assistant.mk "asst_1" (Some ["vs_0"])] []
              [("thread_7", "What is X?")]
              (Ok (Gemini.mkListFilesResponse None)) Sim.no_answer
              (Sim.run_answer Sim_silent_run) Sim.no_answer)
           (Sim.run_answer Sim_silent_run) "gpt-4o-mini" eq_refl eq_refl).
Defined.

(** ** The calls of a request *)

(** What [handleOpenAI] does without a thread handle, call by call. *)
Lemma handleOpenAI_new_thread_run :
  forall (V : Type) (sdk : Sdk V) (messages : list ChatRoute.ChatMessage)
         (apiKey modelId assistant : string) (threadId : option string) (w : World V),
    assistant <> "" -> given threadId = false ->
    ChatRoute.handleOpenAI sdk messages apiKey modelId (Some assistant) threadId w
    = match beta_threads_create (new_OpenAI sdk apiKey) (vendor w) with
      | (Throw e, v1) => (Throw e, mkWorld v1 (calls w ++ [C_threads_create])%list)
      | (Ok thread, v1) =>
          match ChatRoute.last_content messages with
          | Throw e => (Throw e, mkWorld v1 (calls w ++ [C_threads_create])%list)
          | Ok request =>
              match beta_threads_messages_create (new_OpenAI sdk apiKey)
                      thread "user" request v1 with
              | (Throw e, v2) =>
                  (Throw e,
                   mkWorld v2 (calls w ++ [C_threads_create;
                                           C_threads_messages_create thread "user" request])%list)
              | (Ok _, v2) =>
                  let '(run, v3) :=
                    beta_threads_runs_stream (new_OpenAI sdk apiKey) thread assistant v2 in
                  (Ok (ChatRoute.StreamResponse (ChatRoute.openai_stream modelId thread run)),
                   mkWorld v3 (calls w ++ [C_threads_create;
                                           C_threads_messages_create thread "user" request;
                                           C_threads_runs_stream thread assistant])%list)
              end
          end
      end.
Proof.
  intros V sdk messages apiKey modelId assistant threadId w Ha Hthread.
  unfold ChatRoute.handleOpenAI.
  destruct (given_Some _ Ha) as [-> ->]. rewrite Hthread. cbn [negb]. run.
  destruct (beta_threads_create _ (vendor w)) as [[thread | e] v1]; [| reflexivity].
  cbn [vendor calls].
  destruct (ChatRoute.last_content messages) as [request | e]; [| reflexivity].
  cbn [vendor calls].
  destruct (beta_threads_messages_create _ thread "user" request v1)
    as [[[] | e] v2]; cbn [vendor calls]; [| rewrite <- app_assoc; reflexivity].
  destruct (beta_threads_runs_stream _ thread assistant v2) as [run v3].
  rewrite <- !app_assoc. reflexivity.
Qed.

(** What [handleOpenAI] does on a thread when the history is empty. *)
Lemma handleOpenAI_thread_empty :
  forall (V : Type) (sdk : Sdk V) (apiKey modelId assistant thread : string) (w : World V),
    assistant <> "" -> thread <> "" ->
    ChatRoute.handleOpenAI sdk [] apiKey modelId (Some assistant) (Some thread) w
    = (Throw (JsError "Cannot read properties of undefined (reading 'content')"), w).
Proof.
  intros V sdk apiKey modelId assistant thread w Ha Ht.
  unfold ChatRoute.handleOpenAI.
  destruct (given_Some _ Ha) as [-> ->]. destruct (given_Some _ Ht) as [-> ->].
  reflexivity.
Qed.

Lemma given_cases :
  forall x : option string,
    (given x = true /\ exists s : string, x = Some s /\ s <> "")
    \/ given x = false.
Proof.
  intros [s |]; [| right; reflexivity].
  unfold given. destruct (String.eqb_spec s "") as [-> | Hs].
  - right. reflexivity.
  - left. split; [reflexivity |]. exists s. split; [reflexivity | exact Hs].
Qed.

(** The calls of [handleOpenAI]: what it adds to the log, in its cases. *)
Lemma handleOpenAI_log :
  forall (V : Type) (sdk : Sdk V) (messages : list ChatRoute.ChatMessage)
         (apiKey modelId : string) (assistantId threadId : option string) (w : World V),
    exists log : list Call,
      calls (snd (ChatRoute.handleOpenAI sdk messages apiKey modelId assistantId threadId w))
      = (calls w ++ log)%list
      /\ forallb openai_call log = true
      /\ filter creates log
         = (if given assistantId && negb (given threadId) then [C_threads_create] else [])
      /\ (messages = [] -> given assistantId = true ->
          existsb opens_stream log = false /\ appended_messages log = []
          /\ exists e : Error,
               fst (ChatRoute.handleOpenAI sdk messages apiKey modelId assistantId threadId w)
               = Throw e).
Proof.
  intros V sdk messages apiKey modelId assistantId threadId w.
  destruct (given_cases assistantId) as [[Hgiven (assistant & -> & Ha)] | Hnone].
  - rewrite Hgiven.
    destruct (given_cases threadId) as [[Hthread (thread & -> & Ht)] | Hthread];
      rewrite Hthread; cbn [andb negb].
    + destruct (ChatRoute.last_content messages) as [request | e] eqn:Hlast.
      * rewrite (handleOpenAI_thread_run V sdk messages apiKey modelId assistant thread
                   request w Ha Ht Hlast).
        destruct (beta_threads_messages_create _ thread "user" request (vendor w))
          as [[[] | e] v1].
        -- destruct (beta_threads_runs_stream _ thread assistant v1) as [run v2].
           eexists. split; [reflexivity |]. split; [reflexivity |]. split; [reflexivity |].
           intros ->. discriminate Hlast.
        -- eexists. split; [reflexivity |]. split; [reflexivity |]. split; [reflexivity |].
           intros ->. discriminate Hlast.
      * destruct messages as [| m rest].
        -- rewrite handleOpenAI_thread_empty by assumption.
           exists []. cbn [snd fst]. rewrite app_nil_r.
           repeat split. eexists. reflexivity.
        -- exfalso. unfold ChatRoute.last_content in Hlast.
           destruct (rev (m :: rest)) eqn:Hrev; [| discriminate Hlast].
           apply (f_equal (@length _)) in Hrev. rewrite length_rev in Hrev.
           discriminate Hrev.
    + rewrite (handleOpenAI_new_thread_run V sdk messages apiKey modelId assistant threadId
                 w Ha Hthread).
      destruct (beta_threads_create _ (vendor w)) as [[thread | e] v1].
      * destruct (ChatRoute.last_content messages) as [request | e] eqn:Hlast.
        -- destruct (beta_threads_messages_create _ thread "user" request v1)
             as [[[] | e] v2].
           ++ destruct (beta_threads_runs_stream _ thread assistant v2) as [run v3].
              eexists. split; [reflexivity |]. split; [reflexivity |].
              split; [reflexivity |]. intros ->. discriminate Hlast.
           ++ eexists. split; [reflexivity |]. split; [reflexivity |].
              split; [reflexivity |]. intros ->. discriminate Hlast.
        -- eexists. split; [reflexivity |]. split; [reflexivity |]. split; [reflexivity |].
           intros _ _. repeat split. eexists. reflexivity.
      * eexists. split; [reflexivity |]. split; [reflexivity |]. split; [reflexivity |].
        intros _ _. repeat split. eexists. reflexivity.
  - rewrite Hnone. cbn [andb].
    unfold ChatRoute.handleOpenAI. rewrite Hnone. cbn [negb].
    rewrite (handleOpenAISimple_run V sdk).
    destruct (chat_completions_create _ modelId _ (vendor w)) as [[response | e] v1];
      (eexists; split; [reflexivity |]; split; [reflexivity |]; split; [reflexivity |];
       intros _ Hgiven; discriminate Hgiven).
Qed.

(** The calls of [handleGemini]: what it adds to the log, in its cases. *)
Lemma handleGemini_log :
  forall (V : Type) (sdk : Sdk V) (messages : list ChatRoute.ChatMessage)
         (apiKey modelId : string) (w : World V),
    exists log : list Call,
      calls (snd (ChatRoute.handleGemini sdk messages apiKey modelId w))
      = (calls w ++ log)%list
      /\ forallb gemini_call log = true
      /\ filter creates log = []
      /\ (messages = [] ->
          existsb opens_stream log = false /\ appended_messages log = []
          /\ exists e : Error,
               fst (ChatRoute.handleGemini sdk messages apiKey modelId w) = Throw e).
Proof.
  intros V sdk messages apiKey modelId w. rewrite handleGemini_run.
  destruct (listFiles _ (vendor w)) as [[fileList | e] v1].
  - cbv zeta. destruct (ChatRoute.last_content messages) as [request | e] eqn:Hlast.
    + destruct (sendMessageStream _ _ _ request v1) as [[result | e] v2];
        (eexists; split; [reflexivity |]; split; [reflexivity |]; split; [reflexivity |];
         intros ->; discriminate Hlast).
    + eexists. split; [reflexivity |]. split; [reflexivity |]. split; [reflexivity |].
      intros _. repeat split. eexists. reflexivity.
  - eexists. split; [reflexivity |]. split; [reflexivity |]. split; [reflexivity |].
    intros _. repeat split. eexists. reflexivity.
Qed.

(** X7. One vendor for a request: every SDK call that [POST] makes for a
    request goes to OpenAI when its provider is [openai], and to Gemini
    otherwise; whatever the vendors answer, the two are never mixed. *)
Theorem vendors_are_not_mixed :
  forall (V : Type) (sdk : Sdk V) (body : ChatRoute.ChatBody) (w : World V),
    exists log : list Call,
      calls (snd (ChatRoute.POST sdk (Ok body) w)) = (calls w ++ log)%list
      /\ forallb (if String.eqb (ChatRoute.the_provider body) "openai"
                  then openai_call else gemini_call) log = true.
Proof.
  intros V sdk body w. unfold ChatRoute.POST.
  destruct (String.eqb (ChatRoute.effectiveApiKey body) "").
  - exists []. cbn [snd ret]. rewrite app_nil_r. split; reflexivity.
  - destruct (String.eqb (ChatRoute.the_provider body) "openai").
    + destruct (handleOpenAI_log V sdk (ChatRoute.messages body)
                  (ChatRoute.effectiveApiKey body) (ChatRoute.effectiveModel body)
                  (ChatRoute.assistantId body) (ChatRoute.threadId body) w)
        as (log & Hlog & Hcalls & _).
      exists log. split; assumption.
    + destruct (handleGemini_log V sdk (ChatRoute.messages body)
                  (ChatRoute.effectiveApiKey body) (ChatRoute.effectiveModel body) w)
        as (log & Hlog & Hcalls & _).
      exists log. split; assumption.
Qed.

(** X8. What a chat request creates: among the SDK calls of [POST], the
    only one that creates a resource is [beta.threads.create], made once,
    when the provider is [openai], an assistant handle is given and no
    thread handle is; every other request creates nothing, whatever the
    vendors answer. *)
Theorem thread_created_only_when_missing :
  forall (V : Type) (sdk : Sdk V) (body : ChatRoute.ChatBody) (w : World V),
    exists log : list Call,
      calls (snd (ChatRoute.POST sdk (Ok body) w)) = (calls w ++ log)%list
      /\ filter creates log
         = if negb (String.eqb (ChatRoute.effectiveApiKey body) "")
              && String.eqb (ChatRoute.the_provider body) "openai"
              && given (ChatRoute.assistantId body)
              && negb (given (ChatRoute.threadId body))
           then [C_threads_create] else [].
Proof.
  intros V sdk body w. unfold ChatRoute.POST.
  destruct (String.eqb (ChatRoute.effectiveApiKey body) ""); cbn [negb andb].
  - exists []. cbn [snd ret]. rewrite app_nil_r. split; reflexivity.
  - destruct (String.eqb (ChatRoute.the_provider body) "openai"); cbn [andb].
    + destruct (handleOpenAI_log V sdk (ChatRoute.messages body)
                  (ChatRoute.effectiveApiKey body) (ChatRoute.effectiveModel body)
                  (ChatRoute.assistantId body) (ChatRoute.threadId body) w)
        as (log & Hlog & _ & Hcreates & _).
      exists log. split; assumption.
    + destruct (handleGemini_log V sdk (ChatRoute.messages body)
                  (ChatRoute.effectiveApiKey body) (ChatRoute.effectiveModel body) w)
        as (log & Hlog & _ & Hcreates & _).
      exists log. split; assumption.
Qed.

(** X9. An empty history: a request with a key and no message, for Gemini
    or for an OpenAI assistant, is never answered: [POST] rejects, reading
    the content of a last message that is not there at the latest; no model
    session or run is opened and no message is appended to a thread. *)
Theorem empty_history_is_rejected :
  forall (V : Type) (sdk : Sdk V) (body : ChatRoute.ChatBody) (w : World V),
    ChatRoute.messages body = [] ->
    ChatRoute.effectiveApiKey body <> "" ->
    ChatRoute.the_provider body <> "openai" \/ given (ChatRoute.assistantId body) = true ->
    exists (e : Error) (log : list Call),
      fst (ChatRoute.POST sdk (Ok body) w) = Throw e
      /\ calls (snd (ChatRoute.POST sdk (Ok body) w)) = (calls w ++ log)%list
      /\ existsb opens_stream log = false
      /\ appended_messages log = [].
Proof.
  intros V sdk body w Hempty Hkey Hcase.
  rewrite POST_dispatch by assumption.
  destruct (String.eqb_spec (ChatRoute.the_provider body) "openai") as [Hopenai | Hgemini].
  - destruct Hcase as [Hcase | Hassistant]; [contradiction |].
    destruct (handleOpenAI_log V sdk (ChatRoute.messages body)
                (ChatRoute.effectiveApiKey body) (ChatRoute.effectiveModel body)
                (ChatRoute.assistantId body) (ChatRoute.threadId body) w)
      as (log & Hlog & _ & _ & Hrejects).
    destruct (Hrejects Hempty Hassistant) as (Hopens & Happended & e & He).
    exists e, log. repeat split; assumption.
  - destruct (handleGemini_log V sdk (ChatRoute.messages body)
                (ChatRoute.effectiveApiKey body) (ChatRoute.effectiveModel body) w)
      as (log & Hlog & _ & _ & Hrejects).
    destruct (Hrejects Hempty) as (Hopens & Happended & e & He).
    exists e, log. repeat split; assumption.
Qed.

Lemma empty_history_is_rejected_witness :
  exists (e : Error) (log : list Call),
    fst (ChatRoute.POST Sim.sdk
           (Ok (ChatRoute.mkChatBody [] (Some "k") None (Some "openai") (Some "asst_1") None))
           (Sim.start Sim_silent_run)) = Throw e
    /\ calls (snd (ChatRoute.POST Sim.sdk
           (Ok (ChatRoute.mkChatBody [] (Some "k") None (Some "openai") (Some "asst_1") None))
           (Sim.start Sim_silent_run))) = ([] ++ log)%list
    /\ existsb opens_stream log = false
    /\ appended_messages log = [].
Proof.
  apply (empty_history_is_rejected Sim.State Sim.sdk
           (ChatRoute.mkChatBody [] (Some "k") None (Some "openai") (Some "asst_1") None)
           (Sim.start Sim_silent_run) eq_refl).
  - discriminate.
  - right. reflexivity.
Defined.

(** ** The session of Gemini *)

Lemma file_references_active :
  forall files : list Gemini.File,
    flat_map (fun part => match part with
                          | Gemini.FileDataPart mime fileUri => [(mime, fileUri)]
                          | Gemini.TextPart _ => []
                          end)
             (ChatRoute.activeFiles files)
    = map (fun f => (Gemini.mimeType f, Gemini.uri f)) (filter ChatRoute.is_active files).
Proof.
  intros files. unfold ChatRoute.activeFiles.
  induction (filter ChatRoute.is_active files) as [| f rest IH]; [reflexivity |].
  cbn [map flat_map app]. rewrite IH. reflexivity.
Qed.

Lemma formattedHistory_no_file :
  forall turns : list ChatRoute.ChatMessage,
    flat_map (fun part => match part with
                          | Gemini.FileDataPart mime fileUri => [(mime, fileUri)]
                          | Gemini.TextPart _ => []
                          end)
      (flat_map Gemini.parts
         (map (fun m => Gemini.mkContent
                          (if String.eqb (ChatRoute.role m) "user" then "user" else "model")
                          [Gemini.TextPart (ChatRoute.content m)])
              turns))
    = [].
Proof.
  induction turns as [| m rest IH]; [reflexivity |].
  cbn [map flat_map Gemini.parts app]. exact IH.
Qed.

(** X10. Grounding on active documents only: the history that opens the
    session of Gemini refers to the documents of the listing whose state is
    [ACTIVE], each by its MIME type and URI, in the order of the listing,
    and to no other document; the turns of the conversation add none. *)
Theorem grounding_refers_to_active_files :
  forall (files : list Gemini.File) (messages : list ChatRoute.ChatMessage),
    file_references (ChatRoute.gemini_history files messages)
    = map (fun f => (Gemini.mimeType f, Gemini.uri f))
          (filter (fun f => String.eqb (Gemini.state f) "ACTIVE") files).
Proof.
  intros files messages. unfold file_references, ChatRoute.gemini_history.
  cbn [flat_map Gemini.parts app].
  rewrite !flat_map_app. cbn [flat_map app].
  rewrite file_references_active.
  unfold ChatRoute.formattedHistory. rewrite formattedHistory_no_file.
  rewrite !app_nil_r. reflexivity.
Qed.

Lemma removelast_snoc :
  forall (A : Type) (l : list A) (a : A), removelast (l ++ [a]) = l.
Proof.
  intros A l a. rewrite removelast_app by discriminate. cbn [removelast].
  apply app_nil_r.
Qed.

(** X11. The turns of the session: for a history that ends with [newest],
    the session of Gemini opens on the two priming turns followed by one
    turn for each earlier message, in order, with the content of the
    message as its only part and the role [user] for a user message and
    [model] for any other; the newest message is not among them. *)
Theorem session_turns_are_the_earlier_messages :
  forall (files : list Gemini.File) (earlier : list ChatRoute.ChatMessage)
         (newest : ChatRoute.ChatMessage),
    skipn 2 (ChatRoute.gemini_history files (earlier ++ [newest]))
    = map (fun m => Gemini.mkContent
                      (if String.eqb (ChatRoute.role m) "user" then "user" else "model")
                      [Gemini.TextPart (ChatRoute.content m)])
          earlier
    /\ map Gemini.role (firstn 2 (ChatRoute.gemini_history files (earlier ++ [newest])))
       = ["user"; "model"]
    /\ Forall (fun turn => Gemini.role turn = "user" \/ Gemini.role turn = "model")
         (ChatRoute.gemini_history files (earlier ++ [newest])).
Proof.
  intros files earlier newest. unfold ChatRoute.gemini_history, ChatRoute.formattedHistory.
  rewrite removelast_snoc. cbn [skipn firstn map Gemini.role].
  split; [reflexivity |]. split; [reflexivity |].
  constructor; [left; reflexivity |]. constructor; [right; reflexivity |].
  apply Forall_forall. intros turn Hturn. apply in_map_iff in Hturn.
  destruct Hturn as (m & <- & _). cbn [Gemini.role].
  destruct (String.eqb (ChatRoute.role m) "user"); [left | right]; reflexivity.
Qed.

(** ** Requests without an assistant *)

(** X12. Without an assistant the whole history is sent: an [openai]
    request with a key and no assistant handle makes one SDK call, the
    completion request for the effective model, with the system message
    first and then every message of the history with its role and content;
    a thread handle in the request changes nothing, and a failure of the
    call rejects [POST] with the error of the vendor. *)
Theorem no_assistant_sends_whole_history :
  forall (V : Type) (sdk : Sdk V) (body : ChatRoute.ChatBody) (w : World V),
    ChatRoute.effectiveApiKey body <> "" ->
    ChatRoute.the_provider body = "openai" ->
    given (ChatRoute.assistantId body) = false ->
    let request :=
      (ChatRoute.simple_systemMessage
       :: map (fun m => OpenAI.mkChatMessageParam (ChatRoute.role m) (ChatRoute.content m))
              (ChatRoute.messages body))%list in
    calls (snd (ChatRoute.POST sdk (Ok body) w))
    = (calls w ++ [C_chat_completions_create (ChatRoute.effectiveModel body) request])%list
    /\ fst (ChatRoute.POST sdk (Ok body) w)
       = match fst (chat_completions_create (new_OpenAI sdk (ChatRoute.effectiveApiKey body))
                      (ChatRoute.effectiveModel body) request (vendor w)) with
         | Ok response =>
             Ok (ChatRoute.StreamResponse
                   (ChatRoute.simple_stream (ChatRoute.effectiveModel body) response))
         | Throw e => Throw e
         end.
Proof.
  intros V sdk body w Hkey Hprovider Hassistant request.
  rewrite POST_dispatch by assumption. rewrite Hprovider, String.eqb_refl.
  unfold ChatRoute.handleOpenAI. rewrite Hassistant. cbn [negb].
  rewrite (handleOpenAISimple_run V sdk).
  change (ChatRoute.formattedMessages (ChatRoute.messages body)) with request.
  destruct (chat_completions_create _ _ request (vendor w)) as [[response | e] v1];
    split; reflexivity.
Qed.

Lemma no_assistant_sends_whole_history_witness :
  let body := ChatRoute.mkChatBody earlier_turns (Some "k") None (Some "openai") None
                (Some "thread_7") in
  calls (snd (ChatRoute.POST Sim.sdk (Ok body) (Sim.start Sim.empty)))
  = [C_chat_completions_create "gpt-4o-mini"
       [ChatRoute.simple_systemMessage;
        OpenAI.mkChatMessageParam "user" "What is X?";
        OpenAI.mkChatMessageParam "assistant" "X is 42. [Source: guide.pdf]"]]
  /\ fst (ChatRoute.POST Sim.sdk (Ok body) (Sim.start Sim.empty))
     = Ok (ChatRoute.StreamResponse
             (ChatRoute.simple_stream "gpt-4o-mini" Sim.no_answer)).
Proof.
  apply (no_assistant_sends_whole_history Sim.State Sim.sdk
           (ChatRoute.mkChatBody earlier_turns (Some "k") None (Some "openai") None
              (Some "thread_7"))
           (Sim.start Sim.empty)).
  - discriminate.
  - reflexivity.
  - reflexivity.
Defined.

(** ** Errors of the vendors *)

Lemma handleOpenAI_no_json :
  forall (V : Type) (sdk : Sdk V) (messages : list ChatRoute.ChatMessage)
         (apiKey modelId : string) (assistantId threadId : option string) (w : World V)
         (status : nat) (payload : JSON.value),
    fst (ChatRoute.handleOpenAI sdk messages apiKey modelId assistantId threadId w)
    <> Ok (ChatRoute.JsonResponse status payload).
Proof.
  intros V sdk messages apiKey modelId assistantId threadId w status payload.
  destruct (given_cases assistantId) as [[Hgiven (assistant & -> & Ha)] | Hnone].
  - destruct (given_cases threadId) as [[Hthread (thread & -> & Ht)] | Hthread].
    + destruct (ChatRoute.last_content messages) as [request | e] eqn:Hlast.
      * rewrite (handleOpenAI_thread_run V sdk messages apiKey modelId assistant thread
                   request w Ha Ht Hlast).
        destruct (beta_threads_messages_create _ thread "user" request (vendor w))
          as [[[] | e] v1]; [| discriminate].
        destruct (beta_threads_runs_stream _ thread assistant v1) as [run v2].
        discriminate.
      * unfold ChatRoute.handleOpenAI.
        destruct (given_Some _ Ha) as [-> ->]. destruct (given_Some _ Ht) as [-> ->].
        cbn [negb]. run. rewrite Hlast. discriminate.
    + rewrite (handleOpenAI_new_thread_run V sdk messages apiKey modelId assistant threadId
                 w Ha Hthread).
      destruct (beta_threads_create _ (vendor w)) as [[thread | e] v1]; [| discriminate].
      destruct (ChatRoute.last_content messages) as [request | e]; [| discriminate].
      destruct (beta_threads_messages_create _ thread "user" request v1)
        as [[[] | e] v2]; [| discriminate].
      destruct (beta_threads_runs_stream _ thread assistant v2) as [run v3].
      discriminate.
  - unfold ChatRoute.handleOpenAI. rewrite Hnone. cbn [negb].
    rewrite (handleOpenAISimple_run V sdk).
    destruct (chat_completions_create _ modelId _ (vendor w)) as [[response | e] v1];
      discriminate.
Qed.

Lemma handleGemini_no_json :
  forall (V : Type) (sdk : Sdk V) (messages : list ChatRoute.ChatMessage)
         (apiKey modelId : string) (w : World V) (status : nat) (payload : JSON.value),
    fst (ChatRoute.handleGemini sdk messages apiKey modelId w)
    <> Ok (ChatRoute.JsonResponse status payload).
Proof.
  intros V sdk messages apiKey modelId w status payload. rewrite handleGemini_run.
  destruct (listFiles _ (vendor w)) as [[fileList | e] v1]; [| discriminate].
  cbv zeta. destruct (ChatRoute.last_content messages) as [request | e]; [| discriminate].
  destruct (sendMessageStream _ _ _ request v1) as [[result | e] v2]; discriminate.
Qed.

(** X13. The answers in JSON: [POST] answers with a JSON body in two cases
    only, with status 500 when the body of the request cannot be read and
    with status 400 when the key is missing; an error of a vendor is never
    turned into such an answer, and so never into the message about an
    invalid key: it rejects [POST]. *)
Theorem json_answers_are_400_or_unreadable_body :
  forall (V : Type) (sdk : Sdk V) (req_json : result ChatRoute.ChatBody) (w : World V)
         (status : nat) (payload : JSON.value),
    fst (ChatRoute.POST sdk req_json w) = Ok (ChatRoute.JsonResponse status payload) ->
    snd (ChatRoute.POST sdk req_json w) = w
    /\ match req_json with
       | Throw error =>
           status = 500
           /\ (payload = JSON.Obj [("error", JSON.Str "Failed to generate response")]
               \/ payload = JSON.Obj [("error", JSON.Str
                              "Invalid API key. Please check your key in Settings.")])
       | Ok body => status = 400 /\ ChatRoute.effectiveApiKey body = ""
       end.
Proof.
  intros V sdk req_json w status payload Hjson.
  destruct req_json as [body | error].
  - destruct (String.eqb_spec (ChatRoute.effectiveApiKey body) "") as [Hkey | Hkey].
    + unfold ChatRoute.POST in *. rewrite Hkey in *. cbn [String.eqb ret fst snd] in *.
      injection Hjson as <- _. split; [reflexivity |]. split; reflexivity.
    + exfalso. rewrite POST_dispatch in Hjson by assumption.
      destruct (String.eqb (ChatRoute.the_provider body) "openai").
      * exact (handleOpenAI_no_json _ _ _ _ _ _ _ _ _ _ Hjson).
      * exact (handleGemini_no_json _ _ _ _ _ _ _ _ Hjson).
  - cbn [ChatRoute.POST ret fst snd] in *. split; [reflexivity |].
    unfold ChatRoute.error_response in Hjson.
    destruct (includes (message error) "API_KEY_INVALID"
              || includes (message error) "invalid_api_key");
      injection Hjson as <- <-; split; auto.
Qed.

Lemma json_answers_are_400_or_unreadable_body_witness :
  snd (ChatRoute.POST Sim.sdk (Throw (JsError "Unexpected end of JSON input"))
         (Sim.start Sim.empty)) = Sim.start Sim.empty
  /\ 500 = 500
     /\ (JSON.Obj [("error", JSON.Str "Failed to generate response")]
         = JSON.Obj [("error", JSON.Str "Failed to generate response")]
         \/ JSON.Obj [("error", JSON.Str "Failed to generate response")]
            = JSON.Obj [("error", JSON.Str
                           "Invalid API key. Please check your key in Settings.")]).
Proof.
  apply (json_answers_are_400_or_unreadable_body Sim.State Sim.sdk
           (Throw (JsError "Unexpected end of JSON input")) (Sim.start Sim.empty)
           500 (JSON.Obj [("error", JSON.Str "Failed to generate response")]) eq_refl).
Defined.

(** ** The store of an assistant *)

(** What [ensureVectorStore] does, call by call. *)
Lemma ensureVectorStore_run :
  forall (V : Type) (openai : OpenAIClient V) (assistantId : string) (w : World V),
    OpenAIAssistants.ensureVectorStore openai assistantId w
    = match beta_assistants_retrieve openai assistantId (vendor w) with
      | (Throw e, v1) =>
          (Throw e, mkWorld v1 (calls w ++ [C_assistants_retrieve assistantId])%list)
      | (Ok assistant, v1) =>
          match OpenAI.Assistant.vector_store_ids assistant with
          | Some (first :: _) =>
              (Ok first, mkWorld v1 (calls w ++ [C_assistants_retrieve assistantId])%list)
          | _ =>
              match beta_vectorStores_create openai "Editorial Knowledge Base" v1 with
              | (Throw e, v2) =>
                  (Throw e,
                   mkWorld v2 (calls w ++ [C_assistants_retrieve assistantId;
                                           C_vectorStores_create "Editorial Knowledge Base"])%list)
              | (Ok vectorStore, v2) =>
                  match beta_assistants_update openai assistantId [vectorStore] v2 with
                  | (Throw e, v3) =>
                      (Throw e,
                       mkWorld v3 (calls w ++ [C_assistants_retrieve assistantId;
                                               C_vectorStores_create "Editorial Knowledge Base";
                                               C_assistants_update assistantId [vectorStore]])%list)
                  | (Ok _, v3) =>
                      (Ok vectorStore,
                       mkWorld v3 (calls w ++ [C_assistants_retrieve assistantId;
                                               C_vectorStores_create "Editorial Knowledge Base";
                                               C_assistants_update assistantId [vectorStore]])%list)
                  end
              end
          end
      end.
Proof.
  intros. unfold OpenAIAssistants.ensureVectorStore. run.
  destruct (beta_assistants_retrieve openai assistantId (vendor w))
    as [[assistant | e] v1]; [| reflexivity].
  cbn [vendor calls].
  destruct (OpenAI.Assistant.vector_store_ids assistant) as [[| first rest] |];
    try reflexivity; cbn [vendor calls];
    (destruct (beta_vectorStores_create openai _ v1) as [[vectorStore | e] v2];
     cbn [vendor calls]; [| rewrite <- app_assoc; reflexivity];
     destruct (beta_assistants_update openai assistantId [vectorStore] v2)
       as [[updated | e] v3];
     cbn [vendor calls]; rewrite <- !app_assoc; reflexivity).
Qed.

(** X14. The store that [ensureVectorStore] returns is attached: it is
    either the first store that the retrieved assistant already had, and
    then nothing was created or updated, or a store that was just created,
    and then the assistant was updated to hold exactly this store; a store
    whose attachment failed is never returned. *)
Theorem ensured_store_is_attached :
  forall (V : Type) (openai : OpenAIClient V) (assistantId : string) (w : World V)
         (store : string) (w' : World V),
    OpenAIAssistants.ensureVectorStore openai assistantId w = (Ok store, w') ->
    exists (assistant : OpenAI.Assistant.t) (v1 : V),
      beta_assistants_retrieve openai assistantId (vendor w) = (Ok assistant, v1)
      /\ ((hd_error (match OpenAI.Assistant.vector_store_ids assistant with
                     | Some stores => stores
                     | None => []
                     end) = Some store
           /\ w' = mkWorld v1 (calls w ++ [C_assistants_retrieve assistantId])%list)
          \/
          (hd_error (match OpenAI.Assistant.vector_store_ids assistant with
                     | Some stores => stores
                     | None => []
                     end) = None
           /\ exists (v2 : V) (updated : OpenAI.Assistant.t),
                beta_vectorStores_create openai "Editorial Knowledge Base" v1 = (Ok store, v2)
                /\ beta_assistants_update openai assistantId [store] v2
                   = (Ok updated, vendor w')
                /\ calls w'
                   = (calls w ++ [C_assistants_retrieve assistantId;
                                  C_vectorStores_create "Editorial Knowledge Base";
                                  C_assistants_update assistantId [store]])%list)).
Proof.
  intros V openai assistantId w store w' Hrun.
  rewrite ensureVectorStore_run in Hrun.
  destruct (beta_assistants_retrieve openai assistantId (vendor w))
    as [[assistant | e] v1]; [| discriminate Hrun].
  exists assistant, v1. split; [reflexivity |].
  destruct (OpenAI.Assistant.vector_store_ids assistant) as [[| first rest] |].
  - right. split; [reflexivity |].
    destruct (beta_vectorStores_create openai _ v1) as [[vectorStore | e] v2];
      [| discriminate Hrun].
    destruct (beta_assistants_update openai assistantId [vectorStore] v2)
      as [[updated | e] v3] eqn:Hupdate; [| discriminate Hrun].
    injection Hrun as <- <-. exists v2, updated. repeat split. exact Hupdate.
  - left. injection Hrun as <- <-. split; reflexivity.
  - right. split; [reflexivity |].
    destruct (beta_vectorStores_create openai _ v1) as [[vectorStore | e] v2];
      [| discriminate Hrun].
    destruct (beta_assistants_update openai assistantId [vectorStore] v2)
      as [[updated | e] v3] eqn:Hupdate; [| discriminate Hrun].
    injection Hrun as <- <-. exists v2, updated. repeat split. exact Hupdate.
Qed.

Lemma ensured_store_is_attached_witness :
  exists (assistant : OpenAI.Assistant.t) (v1 : Sim.State),
    beta_assistants_retrieve Sim.openai "asst_0" (vendor (Sim.start Sim_bare_assistant))
    = (Ok assistant, v1)
    /\ ((hd_error (match OpenAI.Assistant.vector_store_ids assistant with
                   | Some stores => stores
                   | None => []
                   end) = Some "vs_1"
         /\ snd (OpenAIAssistants.ensureVectorStore Sim.openai "asst_0"
                   (Sim.start Sim_bare_assistant))
            = mkWorld v1 (calls (Sim.start Sim_bare_assistant)
                          ++ [C_assistants_retrieve "asst_0"])%list)
        \/
        (hd_error (match OpenAI.Assistant.vector_store_ids assistant with
                   | Some stores => stores
                   | None => []
                   end) = None
         /\ exists (v2 : Sim.State) (updated : OpenAI.Assistant.t),
              beta_vectorStores_create Sim.openai "Editorial Knowledge Base" v1
              = (Ok "vs_1", v2)
              /\ beta_assistants_update Sim.openai "asst_0" ["vs_1"] v2
                 = (Ok updated,
                    vendor (snd (OpenAIAssistants.ensureVectorStore Sim.openai "asst_0"
                                   (Sim.start Sim_bare_assistant))))
              /\ calls (snd (OpenAIAssistants.ensureVectorStore Sim.openai "asst_0"
                               (Sim.start Sim_bare_assistant)))
                 = (calls (Sim.start Sim_bare_assistant)
                    ++ [C_assistants_retrieve "asst_0";
                        C_vectorStores_create "Editorial Knowledge Base";
                        C_assistants_update "asst_0" ["vs_1"]])%list)).
Proof.
  apply (ensured_store_is_attached Sim.State Sim.openai "asst_0"
           (Sim.start Sim_bare_assistant) "vs_1"
           (snd (OpenAIAssistants.ensureVectorStore Sim.openai "asst_0"
                   (Sim.start Sim_bare_assistant)))).
  reflexivity.
Defined.

(** ** A live assistant without a store handle *)

(** With an assistant that the vendor retrieves and no store handle,
    [getOrCreateAssistant] is [ensureVectorStore], and the creation when
    that throws. *)
Lemma getOrCreateAssistant_live :
  forall (V : Type) (openai : OpenAIClient V) (h : string) (vectorStoreId : option string)
         (w : World V) (existing : OpenAI.Assistant.t) (v1 : V),
    h <> "" -> given vectorStoreId = false ->
    beta_assistants_retrieve openai h (vendor w) = (Ok existing, v1) ->
    OpenAIAssistants.getOrCreateAssistant openai (Some h) vectorStoreId w
    = match OpenAIAssistants.ensureVectorStore openai (OpenAI.Assistant.id existing)
              (mkWorld v1 (calls w ++ [C_assistants_retrieve h])%list) with
      | (Ok store, w2) =>
          (Ok (OpenAIAssistants.mkHandles (OpenAI.Assistant.id existing) store), w2)
      | (Throw _, w2) => OpenAIAssistants.createAssistant openai w2
      end.
Proof.
  intros V openai h vectorStoreId w existing v1 Hh Hstore Hretrieve.
  unfold OpenAIAssistants.getOrCreateAssistant.
  destruct (given_Some h Hh) as [-> _]. rewrite Hstore.
  unfold bind at 1. unfold try_catch. unfold bind at 1.
  unfold sdk_call at 1. rewrite Hretrieve. unfold bind at 1.
  destruct (OpenAIAssistants.ensureVectorStore openai (OpenAI.Assistant.id existing) _)
    as [[store | e] w2]; reflexivity.
Qed.

(** X15. Any failure on the way to the store is taken for a missing
    assistant: when the assistant is retrieved and has no store, and the
    update that would attach the new store throws, [getOrCreateAssistant]
    does not throw: it creates a second store and a new assistant, and
    returns their handles; the assistant that was found is left without a
    store, and the first store without an assistant. *)
Theorem failed_attachment_creates_a_second_pair :
  forall (V : Type) (openai : OpenAIClient V) (h : string) (vectorStoreId : option string)
         (w : World V) (existing again assistant : OpenAI.Assistant.t)
         (first second : string) (e : Error) (v1 v2 v3 v4 v5 v6 : V),
    h <> "" -> given vectorStoreId = false ->
    beta_assistants_retrieve openai h (vendor w) = (Ok existing, v1) ->
    beta_assistants_retrieve openai (OpenAI.Assistant.id existing) v1 = (Ok again, v2) ->
    hd_error (match OpenAI.Assistant.vector_store_ids again with
              | Some stores => stores
              | None => []
              end) = None ->
    beta_vectorStores_create openai "Editorial Knowledge Base" v2 = (Ok first, v3) ->
    beta_assistants_update openai (OpenAI.Assistant.id existing) [first] v3 = (Throw e, v4) ->
    beta_vectorStores_create openai "Editorial Knowledge Base" v4 = (Ok second, v5) ->
    beta_assistants_create openai (OpenAIAssistants.new_assistant_params second) v5
      = (Ok assistant, v6) ->
    OpenAIAssistants.getOrCreateAssistant openai (Some h) vectorStoreId w
    = (Ok (OpenAIAssistants.mkHandles (OpenAI.Assistant.id assistant) second),
       mkWorld v6
         (calls w ++ [C_assistants_retrieve h;
                      C_assistants_retrieve (OpenAI.Assistant.id existing);
                      C_vectorStores_create "Editorial Knowledge Base";
                      C_assistants_update (OpenAI.Assistant.id existing) [first];
                      C_vectorStores_create "Editorial Knowledge Base";
                      C_assistants_create
                        (OpenAIAssistants.new_assistant_params second)])%list).
Proof.
  intros V openai h vectorStoreId w existing again assistant first second e
         v1 v2 v3 v4 v5 v6 Hh Hnone Hretrieve Hagain Hstores Hfirst Hupdate Hsecond Hcreate.
  rewrite (getOrCreateAssistant_live V openai h vectorStoreId w existing v1 Hh Hnone Hretrieve).
  rewrite ensureVectorStore_run. cbn [vendor calls]. rewrite Hagain.
  assert (Hrest :
    match beta_vectorStores_create openai "Editorial Knowledge Base" v2 with
    | (Throw e0, v7) =>
        (Throw e0,
         mkWorld v7 ((calls w ++ [C_assistants_retrieve h])
                     ++ [C_assistants_retrieve (OpenAI.Assistant.id existing);
                         C_vectorStores_create "Editorial Knowledge Base"])%list)
    | (Ok vectorStore, v7) =>
        match beta_assistants_update openai (OpenAI.Assistant.id existing) [vectorStore] v7 with
        | (Throw e0, v8) =>
            (Throw e0,
             mkWorld v8 ((calls w ++ [C_assistants_retrieve h])
                         ++ [C_assistants_retrieve (OpenAI.Assistant.id existing);
                             C_vectorStores_create "Editorial Knowledge Base";
                             C_assistants_update (OpenAI.Assistant.id existing)
                               [vectorStore]])%list)
        | (Ok _, v8) =>
            (Ok vectorStore,
             mkWorld v8 ((calls w ++ [C_assistants_retrieve h])
                         ++ [C_assistants_retrieve (OpenAI.Assistant.id existing);
                             C_vectorStores_create "Editorial Knowledge Base";
                             C_assistants_update (OpenAI.Assistant.id existing)
                               [vectorStore]])%list)
        end
    end
    = (Throw e,
       mkWorld v4 ((calls w ++ [C_assistants_retrieve h])
                   ++ [C_assistants_retrieve (OpenAI.Assistant.id existing);
                       C_vectorStores_create "Editorial Knowledge Base";
                       C_assistants_update (OpenAI.Assistant.id existing) [first]])%list)).
  { rewrite Hfirst, Hupdate. reflexivity. }
  destruct (OpenAI.Assistant.vector_store_ids again) as [[| store rest] |];
    [| discriminate Hstores |];
    rewrite Hrest, createAssistant_run; cbn [vendor calls];
    rewrite Hsecond, Hcreate, <- !app_assoc; reflexivity.
Qed.

Lemma failed_attachment_creates_a_second_pair_witness :
  OpenAIAssistants.getOrCreateAssistant Sim_no_update (Some "asst_0") None
    (Sim.start Sim_bare_assistant)
  = (Ok (OpenAIAssistants.mkHandles "asst_3" "vs_2"),
     mkWorld
       (Sim.bump (Sim.bump (Sim.bump Sim_bare_assistant [OpenAI.Assistant.mk "asst_0" None])
                    [OpenAI.Assistant.mk "asst_0" None])
          [OpenAI.Assistant.mk "asst_0" None; OpenAI.Assistant.mk "asst_3" (Some ["vs_2"])])
       ([] ++ [C_assistants_retrieve "asst_0";
               C_assistants_retrieve "asst_0";
               C_vectorStores_create "Editorial Knowledge Base";
               C_assistants_update "asst_0" ["vs_1"];
               C_vectorStores_create "Editorial Knowledge Base";
               C_assistants_create (OpenAIAssistants.new_assistant_params "vs_2")])%list).
Proof.
  apply (failed_attachment_creates_a_second_pair Sim.State Sim_no_update "asst_0" None
           (Sim.start Sim_bare_assistant)
           (OpenAI.Assistant.mk "asst_0" None) (OpenAI.Assistant.mk "asst_0" None)
           (OpenAI.Assistant.mk "asst_3" (Some ["vs_2"]))
           "vs_1" "vs_2" (JsError "500 The server had an error")
           Sim_bare_assistant Sim_bare_assistant
           (Sim.bump Sim_bare_assistant [OpenAI.Assistant.mk "asst_0" None])
           (Sim.bump Sim_bare_assistant [OpenAI.Assistant.mk "asst_0" None])
           (Sim.bump (Sim.bump Sim_bare_assistant [OpenAI.Assistant.mk "asst_0" None])
              [OpenAI.Assistant.mk "asst_0" None])
           (Sim.bump (Sim.bump (Sim.bump Sim_bare_assistant [OpenAI.Assistant.mk "asst_0" None])
                        [OpenAI.Assistant.mk "asst_0" None])
              [OpenAI.Assistant.mk "asst_0" None; OpenAI.Assistant.mk "asst_3" (Some ["vs_2"])])).
  - discriminate.
  - reflexivity.
  - reflexivity.
  - reflexivity.
  - reflexivity.
  - reflexivity.
  - reflexivity.
  - reflexivity.
  - reflexivity.
Defined.

(** ** Threads *)

(** X16. A thread handle that the vendor no longer retrieves is replaced:
    [getOrCreateThread] drops the error of the retrieval and returns the
    handle of a thread it creates; a handle that is retrieved is returned
    as it is, after that one call, and nothing is created. *)
Theorem stale_thread_is_replaced :
  forall (V : Type) (openai : OpenAIClient V) (threadId : string) (w : World V),
    threadId <> "" ->
    (forall v1 : V,
        beta_threads_retrieve openai threadId (vendor w) = (Ok tt, v1) ->
        OpenAIAssistants.getOrCreateThread openai (Some threadId) w
        = (Ok threadId, mkWorld v1 (calls w ++ [C_threads_retrieve threadId])%list))
    /\
    (forall (e : Error) (v1 v2 : V) (created : result string),
        beta_threads_retrieve openai threadId (vendor w) = (Throw e, v1) ->
        beta_threads_create openai v1 = (created, v2) ->
        OpenAIAssistants.getOrCreateThread openai (Some threadId) w
        = (created,
           mkWorld v2 (calls w ++ [C_threads_retrieve threadId; C_threads_create])%list)).
Proof.
  intros V openai threadId w Ht.
  unfold OpenAIAssistants.getOrCreateThread.
  destruct (given_Some threadId Ht) as [-> _]. split.
  - intros v1 Hretrieve. run. rewrite Hretrieve. reflexivity.
  - intros e v1 v2 created Hretrieve Hcreate. run. rewrite Hretrieve.
    cbn [vendor calls]. rewrite Hcreate, <- app_assoc. reflexivity.
Qed.

Lemma stale_thread_is_replaced_witness :
  OpenAIAssistants.getOrCreateThread Sim_threads_expired (Some "thread_7")
    (Sim.start Sim.empty)
  = (Ok "thread_0",
     mkWorld (Sim.bump Sim.empty []) ([] ++ [C_threads_retrieve "thread_7"; C_threads_create])%list).
Proof.
  apply (proj2 (stale_thread_is_replaced Sim.State Sim_threads_expired "thread_7"
                  (Sim.start Sim.empty) ltac:(discriminate))
           (JsError "404 No thread found") Sim.empty (Sim.bump Sim.empty [])
           (Ok "thread_0") eq_refl eq_refl).
Defined.

(** X17. The chat route does not replace a thread: when the vendor throws
    on appending the message to the given thread, [POST] rejects with that
    error after this one call; it retrieves no thread, creates none and
    opens no run. *)
Theorem chat_keeps_a_stale_thread :
  forall (V : Type) (sdk : Sdk V) (body : ChatRoute.ChatBody) (w : World V)
         (assistant thread request : string) (e : Error) (v1 : V),
    ChatRoute.effectiveApiKey body <> "" ->
    ChatRoute.the_provider body = "openai" ->
    ChatRoute.assistantId body = Some assistant -> assistant <> "" ->
    ChatRoute.threadId body = Some thread -> thread <> "" ->
    ChatRoute.last_content (ChatRoute.messages body) = Ok request ->
    beta_threads_messages_create (new_OpenAI sdk (ChatRoute.effectiveApiKey body))
      thread "user" request (vendor w) = (Throw e, v1) ->
    ChatRoute.POST sdk (Ok body) w
    = (Throw e, mkWorld v1 (calls w ++ [C_threads_messages_create thread "user" request])%list).
Proof.
  intros V sdk body w assistant thread request e v1
         Hkey Hprovider Hassistant Ha Hthread Ht Hlast Hmessage.
  rewrite POST_dispatch by assumption.
  rewrite Hprovider, String.eqb_refl, Hassistant, Hthread.
  rewrite (handleOpenAI_thread_run V sdk _ _ _ assistant thread request w Ha Ht Hlast).
  rewrite Hmessage. reflexivity.
Qed.

Lemma chat_keeps_a_stale_thread_witness :
  ChatRoute.POST (mkSdk Sim.State (fun _ => Sim_threads_expired)
                    (new_GoogleGenerativeAI Sim.sdk) (new_GoogleAIFileManager Sim.sdk))
    (Ok (ChatRoute.mkChatBody question (Some "k") None (Some "openai")
           (Some "asst_1") (Some "thread_7")))
    (Sim.start Sim_silent_run)
  = (Throw (JsError "404 No thread found"),
     mkWorld Sim_silent_run ([] ++ [C_threads_messages_create "thread_7" "user" "What is X?"])%list).
Proof.
  apply (chat_keeps_a_stale_thread Sim.State
           (mkSdk Sim.State (fun _ => Sim_threads_expired)
              (new_GoogleGenerativeAI Sim.sdk) (new_GoogleAIFileManager Sim.sdk))
           (ChatRoute.mkChatBody question (Some "k") None (Some "openai")
              (Some "asst_1") (Some "thread_7"))
           (Sim.start Sim_silent_run) "asst_1" "thread_7" "What is X?"
           (JsError "404 No thread found") Sim_silent_run).
  - discriminate.
  - reflexivity.
  - reflexivity.
  - discriminate.
  - reflexivity.
  - discriminate.
  - reflexivity.
  - reflexivity.
Defined.

(** ** The polls of an ingestion *)

Lemma poll_in_progress :
  forall (V : Type) (openai : OpenAIClient V) (vectorStoreId vectorStoreFileId : string),
    (forall v : V,
        exists (updated : OpenAI.VectorStoreFile.t) (v' : V),
          beta_vectorStores_files_retrieve openai vectorStoreId vectorStoreFileId v
          = (Ok updated, v')
          /\ OpenAI.VectorStoreFile.status updated = "in_progress") ->
    forall (fuel : nat) (v : V) (log : list Call),
      exists v' : V,
        OpenAIAssistants.poll openai fuel vectorStoreId vectorStoreFileId "in_progress"
          (mkWorld v log)
        = (Ok None,
           mkWorld v' (log ++ repeat (C_vectorStores_files_retrieve vectorStoreId
                                        vectorStoreFileId) fuel)%list).
Proof.
  intros V openai vectorStoreId vectorStoreFileId Hstuck.
  induction fuel as [| fuel IH]; intros v log.
  - exists v. cbn [OpenAIAssistants.poll repeat]. rewrite String.eqb_refl, app_nil_r.
    reflexivity.
  - destruct (Hstuck v) as (updated & v1 & Hretrieve & Hstatus).
    destruct (IH v1 (log ++ [C_vectorStores_files_retrieve vectorStoreId
                               vectorStoreFileId])%list) as (v' & Hpoll).
    exists v'. cbn [OpenAIAssistants.poll]. rewrite String.eqb_refl. run.
    rewrite Hretrieve, Hstatus, Hpoll. cbn [repeat]. rewrite <- app_assoc. reflexivity.
Qed.

(** X18. The poll loop has no bound of its own: while the vendor goes on
    answering [in_progress] for the attached file, [uploadFileToVectorStore]
    neither returns nor throws: however many turns the loop is given, it
    has made that many polls and is still turning. *)
Theorem ingestion_waits_while_in_progress :
  forall (V : Type) (openai : OpenAIClient V)
         (vectorStoreId fileBuffer fileName mimeType : string) (w : World V)
         (file : string) (vectorStoreFile : OpenAI.VectorStoreFile.t) (v1 v2 : V),
    files_create openai fileBuffer fileName mimeType "assistants" (vendor w) = (Ok file, v1) ->
    beta_vectorStores_files_create openai vectorStoreId file v1 = (Ok vectorStoreFile, v2) ->
    OpenAI.VectorStoreFile.status vectorStoreFile = "in_progress" ->
    (forall v : V,
        exists (updated : OpenAI.VectorStoreFile.t) (v' : V),
          beta_vectorStores_files_retrieve openai vectorStoreId
            (OpenAI.VectorStoreFile.id vectorStoreFile) v
          = (Ok updated, v')
          /\ OpenAI.VectorStoreFile.status updated = "in_progress") ->
    forall fuel : nat,
      exists v' : V,
        OpenAIAssistants.uploadFileToVectorStore openai fuel
          vectorStoreId fileBuffer fileName mimeType w
        = (Ok None,
           mkWorld v'
             (calls w
              ++ [C_files_create fileBuffer fileName mimeType "assistants";
                  C_vectorStores_files_create vectorStoreId file]
              ++ repeat (C_vectorStores_files_retrieve vectorStoreId
                           (OpenAI.VectorStoreFile.id vectorStoreFile)) fuel)%list).
Proof.
  intros V openai vectorStoreId fileBuffer fileName mimeType w file vectorStoreFile v1 v2
         Hfile Hattach Hstatus Hstuck fuel.
  destruct (poll_in_progress V openai vectorStoreId _ Hstuck fuel v2
              ((calls w ++ [C_files_create fileBuffer fileName mimeType "assistants"])
               ++ [C_vectorStores_files_create vectorStoreId file])%list) as (v' & Hpoll).
  exists v'. unfold OpenAIAssistants.uploadFileToVectorStore. run.
  rewrite Hfile. cbn [vendor calls]. rewrite Hattach, Hstatus, Hpoll.
  rewrite <- !app_assoc. reflexivity.
Qed.

Lemma ingestion_waits_while_in_progress_witness :
  exists v' : Sim.State,
    OpenAIAssistants.uploadFileToVectorStore Sim_stuck 100
      "vs_0" "%PDF-1.4" "style-guide.pdf" "application/pdf" (Sim.start Sim.empty)
    = (Ok None,
       mkWorld v'
         ([] ++ [C_files_create "%PDF-1.4" "style-guide.pdf" "application/pdf" "assistants";
                 C_vectorStores_files_create "vs_0" "file-0"]
          ++ repeat (C_vectorStores_files_retrieve "vs_0" "file-0") 100)%list).
Proof.
  refine (ingestion_waits_while_in_progress Sim.State Sim_stuck
            "vs_0" "%PDF-1.4" "style-guide.pdf" "application/pdf" (Sim.start Sim.empty)
            "file-0" (OpenAI.VectorStoreFile.mk "file-0" "in_progress")
            (Sim.bump Sim.empty []) (Sim.bump Sim.empty [])
            eq_refl eq_refl eq_refl _ 100).
  intros v. exists (OpenAI.VectorStoreFile.mk "file-0" "in_progress"), v.
  split; reflexivity.
Defined.

Lemma poll_settled :
  forall (V : Type) (openai : OpenAIClient V) (vectorStoreId vectorStoreFileId : string)
         (fuel : nat) (status : string) (v : V) (log : list Call)
         (final : string) (w' : World V),
    OpenAIAssistants.poll openai fuel vectorStoreId vectorStoreFileId status (mkWorld v log)
    = (Ok (Some final), w') ->
    exists n : nat,
      n <= fuel
      /\ Settles openai vectorStoreId vectorStoreFileId status v n final (vendor w')
      /\ calls w'
         = (log ++ repeat (C_vectorStores_files_retrieve vectorStoreId
                             vectorStoreFileId) n)%list.
Proof.
  intros V openai vectorStoreId vectorStoreFileId.
  induction fuel as [| fuel IH]; intros status v log final w' Hpoll.
  - cbn [OpenAIAssistants.poll] in Hpoll.
    destruct (String.eqb_spec status "in_progress") as [-> | Hstatus];
      [discriminate Hpoll |].
    injection Hpoll as <- <-. exists 0. cbn [vendor calls repeat].
    split; [lia |]. split; [apply settles_now; assumption | rewrite app_nil_r; reflexivity].
  - cbn [OpenAIAssistants.poll] in Hpoll.
    destruct (String.eqb_spec status "in_progress") as [-> | Hstatus].
    + revert Hpoll. run.
      destruct (beta_vectorStores_files_retrieve openai vectorStoreId vectorStoreFileId v)
        as [[updated | e] v1] eqn:Hretrieve; [| discriminate].
      intros Hpoll. apply IH in Hpoll. destruct Hpoll as (n & Hn & Hsettles & Hcalls).
      exists (S n). split; [lia |]. split.
      * eapply settles_later; eassumption.
      * rewrite Hcalls. cbn [repeat]. rewrite <- app_assoc. reflexivity.
    + injection Hpoll as <- <-. exists 0. cbn [vendor calls repeat].
      split; [lia |]. split; [apply settles_now; assumption | rewrite app_nil_r; reflexivity].
Qed.

(** X19. Handles are returned for a completed file only: whenever
    [uploadFileToVectorStore] returns the two handles, the file was
    uploaded and attached, its status was polled until it left
    [in_progress], and the status it left with was [completed]; the
    handles are those of the uploaded file and of its attachment. *)
Theorem returned_handles_are_of_a_completed_file :
  forall (V : Type) (openai : OpenAIClient V) (fuel : nat)
         (vectorStoreId fileBuffer fileName mimeType : string) (w w' : World V)
         (uploaded : OpenAIAssistants.Uploaded),
    OpenAIAssistants.uploadFileToVectorStore openai fuel
      vectorStoreId fileBuffer fileName mimeType w = (Ok (Some uploaded), w') ->
    exists (file : string) (vectorStoreFile : OpenAI.VectorStoreFile.t) (v1 v2 : V) (n : nat),
      files_create openai fileBuffer fileName mimeType "assistants" (vendor w) = (Ok file, v1)
      /\ beta_vectorStores_files_create openai vectorStoreId file v1 = (Ok vectorStoreFile, v2)
      /\ Settles openai vectorStoreId (OpenAI.VectorStoreFile.id vectorStoreFile)
           (OpenAI.VectorStoreFile.status vectorStoreFile) v2 n "completed" (vendor w')
      /\ n <= fuel
      /\ uploaded = OpenAIAssistants.mkUploaded file (OpenAI.VectorStoreFile.id vectorStoreFile)
      /\ calls w'
         = (calls w
            ++ [C_files_create fileBuffer fileName mimeType "assistants";
                C_vectorStores_files_create vectorStoreId file]
            ++ repeat (C_vectorStores_files_retrieve vectorStoreId
                         (OpenAI.VectorStoreFile.id vectorStoreFile)) n)%list.
Proof.
  intros V openai fuel vectorStoreId fileBuffer fileName mimeType w w' uploaded.
  unfold OpenAIAssistants.uploadFileToVectorStore. run.
  destruct (files_create openai fileBuffer fileName mimeType "assistants" (vendor w))
    as [[file | e] v1] eqn:Hfile; [| discriminate].
  cbn [vendor calls].
  destruct (beta_vectorStores_files_create openai vectorStoreId file v1)
    as [[vectorStoreFile | e] v2] eqn:Hattach; [| discriminate].
  destruct (OpenAIAssistants.poll openai fuel vectorStoreId
              (OpenAI.VectorStoreFile.id vectorStoreFile)
              (OpenAI.VectorStoreFile.status vectorStoreFile) _)
    as [[[final |] | e] w2] eqn:Hpoll; [| discriminate | discriminate].
  destruct (String.eqb_spec final "completed") as [-> | Hfinal]; cbn [negb];
    [| discriminate].
  intros Hrun. injection Hrun as <- <-.
  apply poll_settled in Hpoll. destruct Hpoll as (n & Hn & Hsettles & Hcalls).
  exists file, vectorStoreFile, v1, v2, n.
  split; [reflexivity |]. split; [exact Hattach |]. split; [exact Hsettles |].
  split; [exact Hn |]. split; [reflexivity |].
  rewrite Hcalls, <- !app_assoc. reflexivity.
Qed.

Lemma returned_handles_are_of_a_completed_file_witness :
  exists (file : string) (vectorStoreFile : OpenAI.VectorStoreFile.t)
         (v1 v2 : Sim.State) (n : nat),
    files_create Sim.openai "%PDF-1.4" "style-guide.pdf" "application/pdf" "assistants"
      (vendor (Sim.start Sim.empty)) = (Ok file, v1)
    /\ beta_vectorStores_files_create Sim.openai "vs_0" file v1 = (Ok vectorStoreFile, v2)
    /\ Settles Sim.openai "vs_0" (OpenAI.VectorStoreFile.id vectorStoreFile)
         (OpenAI.VectorStoreFile.status vectorStoreFile) v2 n "completed"
         (vendor (mkWorld (Sim.bump Sim.empty [])
                    [C_files_create "%PDF-1.4" "style-guide.pdf" "application/pdf" "assistants";
                     C_vectorStores_files_create "vs_0" "file-0";
                     C_vectorStores_files_retrieve "vs_0" "file-0"]))
    /\ n <= 5
    /\ OpenAIAssistants.mkUploaded "file-0" "file-0"
       = OpenAIAssistants.mkUploaded file (OpenAI.VectorStoreFile.id vectorStoreFile)
    /\ calls (mkWorld (Sim.bump Sim.empty [])
                [C_files_create "%PDF-1.4" "style-guide.pdf" "application/pdf" "assistants";
                 C_vectorStores_files_create "vs_0" "file-0";
                 C_vectorStores_files_retrieve "vs_0" "file-0"])
       = (calls (Sim.start Sim.empty)
          ++ [C_files_create "%PDF-1.4" "style-guide.pdf" "application/pdf" "assistants";
              C_vectorStores_files_create "vs_0" file]
          ++ repeat (C_vectorStores_files_retrieve "vs_0"
                       (OpenAI.VectorStoreFile.id vectorStoreFile)) n)%list.
Proof.
  apply (returned_handles_are_of_a_completed_file Sim.State Sim.openai 5
           "vs_0" "%PDF-1.4" "style-guide.pdf" "application/pdf" (Sim.start Sim.empty)
           (mkWorld (Sim.bump Sim.empty [])
              [C_files_create "%PDF-1.4" "style-guide.pdf" "application/pdf" "assistants";
               C_vectorStores_files_create "vs_0" "file-0";
               C_vectorStores_files_retrieve "vs_0" "file-0"])
           (OpenAIAssistants.mkUploaded "file-0" "file-0")).
  reflexivity.
Defined.

(** ** From the vendor to the client *)

Lemma fragments_of_answer :
  forall (modelId : string) (a : Adapter),
    fragments_of (frames_of_answer modelId a) = fragments a
    /\ usages_of (frames_of_answer modelId a)
       = [(Some (JSON.int (fst (latest_usage a))), Some (JSON.int (snd (latest_usage a))),
           Some (JSON.Str modelId))].
Proof.
  intros modelId a. unfold frames_of_answer, fragments_of, usages_of.
  rewrite !flat_map_app. cbn [flat_map app].
  induction (fragments a) as [| fragment rest [IHf IHu]]; [split; reflexivity |].
  cbn [map flat_map app]. split.
  - f_equal. exact IHf.
  - exact IHu.
Qed.

Lemma encode_answer :
  forall (modelId : string) (a : Adapter),
    map encode (frames_of_answer modelId a) = enqueued (expected_stream modelId a).
Proof.
  intros modelId a. unfold frames_of_answer, expected_stream. cbn [enqueued].
  rewrite map_app, map_map. reflexivity.
Qed.

(** X20. From the vendor to the screen: for a request that reaches an
    adapter whose upstream is read to its end (it does not fail, and no
    chunk of Gemini throws when its text is read), the frames that [POST]
    streams are those of the fragments of the upstream followed by one
    summary; and a client that receives these frames, in reads that each
    end at the end of a frame, however they are grouped, ends with the
    concatenation of the fragments as the content of the in-flight
    message, after the untouched history, and has called [trackUsage]
    once, with the latest counts of the upstream and the effective model
    of the request. *)
Theorem answer_reaches_the_client :
  forall (V : Type) (sdk : Sdk V) (body : ChatRoute.ChatBody) (w : World V)
         (a : Adapter) (v' : V) (currentMessages : list ChatInterface.Message)
         (assistantMsgId : string) (reads : list (list StreamFrame)),
    Opens sdk body (vendor w) a v' ->
    completes a = true ->
    List.concat reads = frames_of_answer (ChatRoute.effectiveModel body) a ->
    exists stream : ByteStream,
      fst (ChatRoute.POST sdk (Ok body) w) = Ok (ChatRoute.StreamResponse stream)
      /\ enqueued stream = map encode (List.concat reads)
      /\ ending stream = Closed
      /\ let c := ChatInterface.read_body currentMessages assistantMsgId
                    (map (fun frames => String.concat "" (map encode frames)) reads)
                    (ending stream) in
         ChatInterface.assistantContent c = String.concat "" (fragments a)
         /\ ChatInterface.trackUsage_calls c
            = [(Some (JSON.int (fst (latest_usage a))),
                Some (JSON.int (snd (latest_usage a))),
                Some (JSON.Str (ChatRoute.effectiveModel body)))]
         /\ ChatInterface.messages c
            = (currentMessages
               ++ [ChatInterface.mkMessage assistantMsgId "assistant"
                     (String.concat "" (fragments a))])%list.
Proof.
  intros V sdk body w a v' currentMessages assistantMsgId reads Hopens Hcompletes Hreads.
  destruct (POST_opens V sdk body w a v' Hopens) as [log Hpost].
  rewrite (completed_stream _ a Hcompletes) in Hpost.
  exists (expected_stream (ChatRoute.effectiveModel body) a).
  split; [rewrite Hpost; reflexivity |].
  split; [rewrite Hreads; symmetry; apply encode_answer |].
  split; [reflexivity |].
  cbn [ending expected_stream]. cbv zeta.
  set (c := ChatInterface.read_body _ _ _ _).
  pose proof (aligned_reads_round_trip currentMessages assistantMsgId reads) as Hdecoded.
  rewrite received_fold, Hreads in Hdecoded. fold c in Hdecoded.
  destruct (fragments_of_answer (ChatRoute.effectiveModel body) a) as [Hf Hu].
  rewrite Hf, Hu in Hdecoded.
  apply decoded_parts in Hdecoded. destruct Hdecoded as [Hcontent Hcalls].
  cbn [append app] in Hcontent, Hcalls.
  split; [exact Hcontent |]. split; [exact Hcalls |].
  rewrite <- Hcontent. unfold c, ChatInterface.read_body.
  set (c0 := ChatInterface.mkClient "" 0 _ [] []).
  cbn [ChatInterface.log ChatInterface.messages ChatInterface.assistantContent].
  exact (reads_messages assistantMsgId currentMessages _ c0 eq_refl).
Qed.

Lemma answer_reaches_the_client_witness :
  exists stream : ByteStream,
    fst (ChatRoute.POST Sim.sdk
           (Ok (ChatRoute.mkChatBody question (Some "k") None None None None))
           (Sim.start Sim_answering))
    = Ok (ChatRoute.StreamResponse stream)
    /\ enqueued stream
       = map encode
           (List.concat
              [[TextDelta "The"; TextDelta " "];
               [TextDelta "answer"];
               [TextDelta " is"; TextDelta " 42."; UsageSummary 10 5 "gemini-2.5-flash" None]])
    /\ ending stream = Closed
    /\ let c := ChatInterface.read_body
                  [ChatInterface.mkMessage "1" "user" "What is X?"] "2"
                  (map (fun frames => String.concat "" (map encode frames))
                     [[TextDelta "The"; TextDelta " "];
                      [TextDelta "answer"];
                      [TextDelta " is"; TextDelta " 42.";
                       UsageSummary 10 5 "gemini-2.5-flash" None]])
                  (ending stream) in
       ChatInterface.assistantContent c = "The answer is 42."
       /\ ChatInterface.trackUsage_calls c
          = [(Some (JSON.int 10), Some (JSON.int 5), Some (JSON.Str "gemini-2.5-flash"))]
       /\ ChatInterface.messages c
          = [ChatInterface.mkMessage "1" "user" "What is X?";
             ChatInterface.mkMessage "2" "assistant" "The answer is 42."].
Proof.
  refine (answer_reaches_the_client Sim.State Sim.sdk
            (ChatRoute.mkChatBody question (Some "k") None None None None)
            (Sim.start Sim_answering) (GeminiAdapter sample_upstream) Sim_answering
            [ChatInterface.mkMessage "1" "user" "What is X?"] "2"
            [[TextDelta "The"; TextDelta " "];
             [TextDelta "answer"];
             [TextDelta " is"; TextDelta " 42."; UsageSummary 10 5 "gemini-2.5-flash" None]]
            _ eq_refl eq_refl).
  apply (opens_gemini Sim.sdk _ Sim_answering (Gemini.mkListFilesResponse None)
           "What is X?" sample_upstream Sim_answering Sim_answering).
  - discriminate.
  - discriminate.
  - reflexivity.
  - reflexivity.
  - reflexivity.
Defined.

(** ** The files of a vector store *)

(** The details of one entry, read in the vendor state [v]. *)
Lemma file_details_run :
  forall (V : Type) (openai : VectorStoreFiles.FilesClient V)
         (vsFile : VectorStoreFiles.Entry.t) (v : V) (log : list VectorStoreFiles.FileCall)
         (chat : list Call),
    VectorStoreFiles.file_details openai vsFile
      (mkWorld (VectorStoreFiles.mkLogged v log) chat)
    = (Ok (match VectorStoreFiles.files_retrieve openai
                   (VectorStoreFiles.Entry.file_id vsFile) v with
           | Ok file =>
               VectorStoreFiles.mkDetails (VectorStoreFiles.Entry.id vsFile)
                 (VectorStoreFiles.Entry.file_id vsFile) (VectorStoreFiles.filename file)
                 (VectorStoreFiles.Entry.status vsFile) (VectorStoreFiles.created_at file)
           | Throw _ =>
               VectorStoreFiles.mkDetails (VectorStoreFiles.Entry.id vsFile)
                 (VectorStoreFiles.Entry.file_id vsFile) "Unknown"
                 (VectorStoreFiles.Entry.status vsFile) 0
           end),
       mkWorld
         (VectorStoreFiles.mkLogged v
            (log ++ [VectorStoreFiles.C_files_retrieve (VectorStoreFiles.Entry.file_id vsFile)])%list)
         chat).
Proof.
  intros. unfold VectorStoreFiles.file_details, VectorStoreFiles.file_call. run.
  cbn [VectorStoreFiles.service VectorStoreFiles.file_calls].
  destruct (VectorStoreFiles.files_retrieve openai _ v); reflexivity.
Qed.

Lemma all_file_details_run :
  forall (V : Type) (openai : VectorStoreFiles.FilesClient V)
         (files : list VectorStoreFiles.Entry.t) (v : V)
         (log : list VectorStoreFiles.FileCall) (chat : list Call),
    VectorStoreFiles.all_file_details openai files
      (mkWorld (VectorStoreFiles.mkLogged v log) chat)
    = (Ok (map (fun vsFile =>
                  match VectorStoreFiles.files_retrieve openai
                          (VectorStoreFiles.Entry.file_id vsFile) v with
                  | Ok file =>
                      VectorStoreFiles.mkDetails (VectorStoreFiles.Entry.id vsFile)
                        (VectorStoreFiles.Entry.file_id vsFile) (VectorStoreFiles.filename file)
                        (VectorStoreFiles.Entry.status vsFile) (VectorStoreFiles.created_at file)
                  | Throw _ =>
                      VectorStoreFiles.mkDetails (VectorStoreFiles.Entry.id vsFile)
                        (VectorStoreFiles.Entry.file_id vsFile) "Unknown"
                        (VectorStoreFiles.Entry.status vsFile) 0
                  end) files),
       mkWorld
         (VectorStoreFiles.mkLogged v
            (log ++ map (fun vsFile => VectorStoreFiles.C_files_retrieve
                                         (VectorStoreFiles.Entry.file_id vsFile)) files)%list)
         chat).
Proof.
  intros V openai files. induction files as [| vsFile rest IH]; intros v log chat.
  - cbn [VectorStoreFiles.all_file_details map]. rewrite app_nil_r. reflexivity.
  - cbn [VectorStoreFiles.all_file_details map]. unfold bind at 1.
    rewrite file_details_run. unfold bind at 1. rewrite IH.
    unfold ret. rewrite <- app_assoc. reflexivity.
Qed.

(** X21. A listing survives the files it cannot read: when the vendor
    lists the entries of the store, [listVectorStoreFiles] resolves, with
    one element for each entry, in order, that carries the identifiers and
    the status of the entry; an entry whose file the vendor does not
    retrieve is listed under the name [Unknown] with the creation time 0,
    the others under the name and creation time of their file. *)
Theorem listing_survives_unreadable_files :
  forall (V : Type) (openai : VectorStoreFiles.FilesClient V) (vectorStoreId : string)
         (w : World (VectorStoreFiles.Logged V)) (files : list VectorStoreFiles.Entry.t)
         (v1 : V),
    VectorStoreFiles.beta_vectorStores_files_list openai vectorStoreId
      (VectorStoreFiles.service (vendor w)) = (Ok files, v1) ->
    exists details : list VectorStoreFiles.Details,
      VectorStoreFiles.listVectorStoreFiles openai vectorStoreId w
      = (Ok details,
         mkWorld
           (VectorStoreFiles.mkLogged v1
              (VectorStoreFiles.file_calls (vendor w)
               ++ VectorStoreFiles.C_vectorStores_files_list vectorStoreId
                  :: map (fun vsFile => VectorStoreFiles.C_files_retrieve
                                          (VectorStoreFiles.Entry.file_id vsFile)) files)%list)
           (calls w))
      /\ map (fun d => (VectorStoreFiles.id d, VectorStoreFiles.fileId d,
                        VectorStoreFiles.status d)) details
         = map (fun f => (VectorStoreFiles.Entry.id f, VectorStoreFiles.Entry.file_id f,
                          VectorStoreFiles.Entry.status f)) files
      /\ map (fun d => (VectorStoreFiles.name d, VectorStoreFiles.createdAt d)) details
         = map (fun f => match VectorStoreFiles.files_retrieve openai
                                 (VectorStoreFiles.Entry.file_id f) v1 with
                         | Ok file => (VectorStoreFiles.filename file,
                                       VectorStoreFiles.created_at file)
                         | Throw _ => ("Unknown", 0%Z)
                         end) files.
Proof.
  intros V openai vectorStoreId w files v1 Hlist.
  eexists. split; [| split].
  - unfold VectorStoreFiles.listVectorStoreFiles. unfold bind at 1.
    unfold VectorStoreFiles.file_call at 1. rewrite Hlist.
    rewrite all_file_details_run, <- app_assoc. reflexivity.
  - rewrite map_map. apply map_ext. intros f.
    destruct (VectorStoreFiles.files_retrieve openai _ v1); reflexivity.
  - rewrite map_map. apply map_ext. intros f.
    destruct (VectorStoreFiles.files_retrieve openai _ v1); reflexivity.
Qed.

Lemma listing_survives_unreadable_files_witness :
  exists details : list VectorStoreFiles.Details,
    VectorStoreFiles.listVectorStoreFiles VectorStoreFiles.Sim_files "vs_0"
      (VectorStoreFiles.start VectorStoreFiles.two_files)
    = (Ok details,
       mkWorld
         (VectorStoreFiles.mkLogged VectorStoreFiles.two_files
            ([] ++ VectorStoreFiles.C_vectorStores_files_list "vs_0"
                   :: map (fun vsFile => VectorStoreFiles.C_files_retrieve
                                           (VectorStoreFiles.Entry.file_id vsFile))
                          (VectorStoreFiles.entries VectorStoreFiles.two_files))%list)
         [])
    /\ map (fun d => (VectorStoreFiles.id d, VectorStoreFiles.fileId d,
                      VectorStoreFiles.status d)) details
       = map (fun f => (VectorStoreFiles.Entry.id f, VectorStoreFiles.Entry.file_id f,
                        VectorStoreFiles.Entry.status f))
             (VectorStoreFiles.entries VectorStoreFiles.two_files)
    /\ map (fun d => (VectorStoreFiles.name d, VectorStoreFiles.createdAt d)) details
       = map (fun f => match VectorStoreFiles.files_retrieve VectorStoreFiles.Sim_files
                               (VectorStoreFiles.Entry.file_id f) VectorStoreFiles.two_files with
                       | Ok file => (VectorStoreFiles.filename file,
                                     VectorStoreFiles.created_at file)
                       | Throw _ => ("Unknown", 0%Z)
                       end)
             (VectorStoreFiles.entries VectorStoreFiles.two_files).
Proof.
  apply (listing_survives_unreadable_files VectorStoreFiles.Store VectorStoreFiles.Sim_files
           "vs_0" (VectorStoreFiles.start VectorStoreFiles.two_files)
           (VectorStoreFiles.entries VectorStoreFiles.two_files)
           VectorStoreFiles.two_files eq_refl).
Defined.

(** What [deleteVectorStoreFile] does, call by call. *)
Lemma deleteVectorStoreFile_run :
  forall (V : Type) (openai : VectorStoreFiles.FilesClient V) (vectorStoreId fileId : string)
         (w : World (VectorStoreFiles.Logged V)),
    let log := VectorStoreFiles.file_calls (vendor w) in
    let listed := VectorStoreFiles.C_vectorStores_files_list vectorStoreId in
    let deleted := VectorStoreFiles.C_files_delete fileId in
    VectorStoreFiles.deleteVectorStoreFile openai vectorStoreId fileId w
    = match VectorStoreFiles.beta_vectorStores_files_list openai vectorStoreId
              (VectorStoreFiles.service (vendor w)) with
      | (Throw e, v1) =>
          (Throw e, mkWorld (VectorStoreFiles.mkLogged v1 (log ++ [listed])%list) (calls w))
      | (Ok files, v1) =>
          match find (fun f => String.eqb (VectorStoreFiles.Entry.file_id f) fileId) files with
          | Some vsFile =>
              let detached := VectorStoreFiles.C_vectorStores_files_del vectorStoreId
                                (VectorStoreFiles.Entry.id vsFile) in
              match VectorStoreFiles.beta_vectorStores_files_del openai vectorStoreId
                      (VectorStoreFiles.Entry.id vsFile) v1 with
              | (Throw e, v2) =>
                  (Throw e,
                   mkWorld (VectorStoreFiles.mkLogged v2 (log ++ [listed; detached])%list)
                     (calls w))
              | (Ok _, v2) =>
                  let '(r, v3) := VectorStoreFiles.files_delete openai fileId v2 in
                  (r, mkWorld (VectorStoreFiles.mkLogged v3
                                 (log ++ [listed; detached; deleted])%list) (calls w))
              end
          | None =>
              let '(r, v2) := VectorStoreFiles.files_delete openai fileId v1 in
              (r, mkWorld (VectorStoreFiles.mkLogged v2 (log ++ [listed; deleted])%list)
                    (calls w))
          end
      end.
Proof.
  intros. unfold VectorStoreFiles.deleteVectorStoreFile, VectorStoreFiles.file_call. run.
  subst log listed deleted.
  destruct (VectorStoreFiles.beta_vectorStores_files_list openai vectorStoreId _)
    as [[files | e] v1]; [| reflexivity].
  cbn [vendor calls VectorStoreFiles.service VectorStoreFiles.file_calls].
  destruct (find _ files) as [vsFile |].
  - cbn [vendor calls VectorStoreFiles.service VectorStoreFiles.file_calls].
    destruct (VectorStoreFiles.beta_vectorStores_files_del openai vectorStoreId _ v1)
      as [[[] | e] v2];
      cbn [vendor calls VectorStoreFiles.service VectorStoreFiles.file_calls];
      [| rewrite <- app_assoc; reflexivity].
    destruct (VectorStoreFiles.files_delete openai fileId v2) as [r v3].
    rewrite <- !app_assoc. reflexivity.
  - cbn [vendor calls VectorStoreFiles.service VectorStoreFiles.file_calls].
    destruct (VectorStoreFiles.files_delete openai fileId v1) as [r v2].
    rewrite <- !app_assoc. reflexivity.
Qed.

(** X22. Detach, then delete: [deleteVectorStoreFile] asks the vendor to
    delete the file exactly when the listing of the store succeeded and
    either no entry of it is of this file, or the first such entry was
    detached from the store; it then asks once, as its last call, and it
    never asks for the deletion of another file. *)
Theorem file_deleted_after_detaching :
  forall (V : Type) (openai : VectorStoreFiles.FilesClient V) (vectorStoreId fileId : string)
         (w : World (VectorStoreFiles.Logged V)),
    exists log : list VectorStoreFiles.FileCall,
      VectorStoreFiles.file_calls
        (vendor (snd (VectorStoreFiles.deleteVectorStoreFile openai vectorStoreId fileId w)))
      = (VectorStoreFiles.file_calls (vendor w) ++ log)%list
      /\ (forall f : string, In (VectorStoreFiles.C_files_delete f) log -> f = fileId)
      /\ (In (VectorStoreFiles.C_files_delete fileId) log
          <-> exists (files : list VectorStoreFiles.Entry.t) (v1 : V),
                VectorStoreFiles.beta_vectorStores_files_list openai vectorStoreId
                  (VectorStoreFiles.service (vendor w)) = (Ok files, v1)
                /\ match find (fun f => String.eqb (VectorStoreFiles.Entry.file_id f) fileId)
                           files with
                   | Some vsFile =>
                       exists v2 : V,
                         VectorStoreFiles.beta_vectorStores_files_del openai vectorStoreId
                           (VectorStoreFiles.Entry.id vsFile) v1 = (Ok tt, v2)
                         /\ log = [VectorStoreFiles.C_vectorStores_files_list vectorStoreId;
                                   VectorStoreFiles.C_vectorStores_files_del vectorStoreId
                                     (VectorStoreFiles.Entry.id vsFile);
                                   VectorStoreFiles.C_files_delete fileId]
                   | None =>
                       log = [VectorStoreFiles.C_vectorStores_files_list vectorStoreId;
                              VectorStoreFiles.C_files_delete fileId]
                   end).
Proof.
  intros V openai vectorStoreId fileId w.
  rewrite deleteVectorStoreFile_run. cbv zeta.
  destruct (VectorStoreFiles.beta_vectorStores_files_list openai vectorStoreId _)
    as [[files | e] v1].
  - destruct (find _ files) as [vsFile |] eqn:Hfind.
    + destruct (VectorStoreFiles.beta_vectorStores_files_del openai vectorStoreId _ v1)
        as [[[] | e] v2] eqn:Hdetach.
      * destruct (VectorStoreFiles.files_delete openai fileId v2) as [r v3].
        eexists. split; [reflexivity |]. split.
        -- intros f [Hf | [Hf | [Hf | []]]]; try discriminate Hf.
           injection Hf as <-. reflexivity.
        -- split.
           ++ intros _. exists files, v1. split; [reflexivity |]. rewrite Hfind.
              exists v2. split; [exact Hdetach | reflexivity].
           ++ intros _. right. right. left. reflexivity.
      * eexists. split; [reflexivity |]. split.
        -- intros f [Hf | [Hf | []]]; discriminate Hf.
        -- split.
           ++ intros [Hf | [Hf | []]]; discriminate Hf.
           ++ intros (files' & v1' & Hlist & Hrest). injection Hlist as <- <-.
              rewrite Hfind in Hrest. destruct Hrest as (v2' & Hdel & _).
              rewrite Hdetach in Hdel. discriminate Hdel.
    + destruct (VectorStoreFiles.files_delete openai fileId v1) as [r v2].
      eexists. split; [reflexivity |]. split.
      * intros f [Hf | [Hf | []]]; try discriminate Hf.
        injection Hf as <-. reflexivity.
      * split.
        -- intros _. exists files, v1. split; [reflexivity |]. rewrite Hfind. reflexivity.
        -- intros _. right. left. reflexivity.
  - eexists. split; [reflexivity |]. split.
    + intros f [Hf | []]. discriminate Hf.
    + split.
      * intros [Hf | []]. discriminate Hf.
      * intros (files' & v1' & Hlist & _). discriminate Hlist.
Qed.

(** ** The settings *)

Lemma getItem_setItem :
  forall (key key' value : string) (storage : Settings.Storage),
    Settings.getItem key' (Settings.setItem key value storage)
    = if String.eqb key key' then Some value else Settings.getItem key' storage.
Proof.
  intros key key' value storage. unfold Settings.setItem. cbn [Settings.getItem].
  destruct (String.eqb_spec key key') as [-> | Hkey]; [reflexivity |].
  induction storage as [| [k v] rest IH]; [reflexivity |].
  cbn [Settings.removeItem filter fst Settings.getItem].
  destruct (String.eqb_spec k key) as [-> | Hk]; cbn [negb].
  - apply String.eqb_neq in Hkey. rewrite Hkey. exact IH.
  - cbn [Settings.getItem]. destruct (String.eqb k key'); [reflexivity | exact IH].
Qed.

Lemma getItem_removeItem :
  forall (key key' : string) (storage : Settings.Storage),
    Settings.getItem key' (Settings.removeItem key storage)
    = if String.eqb key key' then None else Settings.getItem key' storage.
Proof.
  intros key key' storage.
  destruct (String.eqb_spec key key') as [-> | Hkey].
  - induction storage as [| [k v] rest IH]; [reflexivity |].
    cbn [Settings.removeItem filter fst].
    destruct (String.eqb_spec k key') as [-> | Hk]; cbn [negb]; [exact IH |].
    cbn [Settings.getItem]. apply String.eqb_neq in Hk. rewrite Hk. exact IH.
  - induction storage as [| [k v] rest IH]; [reflexivity |].
    cbn [Settings.removeItem filter fst Settings.getItem].
    destruct (String.eqb_spec k key) as [-> | Hk]; cbn [negb].
    + apply String.eqb_neq in Hkey. rewrite Hkey. exact IH.
    + cbn [Settings.getItem]. destruct (String.eqb k key'); [reflexivity | exact IH].
Qed.

(** X23. The stored provider: the provider read after [setProvider] is the
    one that was set; and whatever the storage holds, the provider read is
    [openai] only when the stored item is exactly that string: a missing
    or unknown item, and the server side, read as [gemini]. *)
Theorem stored_provider_round_trip :
  (forall (provider : Settings.Provider) (localStorage : Settings.Storage),
      Settings.getProvider (Settings.setProvider provider (Some localStorage)) = provider)
  /\
  (forall window : Settings.Window,
      Settings.getProvider window = Settings.openai
      <-> exists localStorage : Settings.Storage,
            window = Some localStorage
            /\ Settings.getItem "rag-provider" localStorage = Some "openai").
Proof.
  split.
  - intros provider localStorage. unfold Settings.getProvider, Settings.setProvider.
    rewrite getItem_setItem, String.eqb_refl. destruct provider; reflexivity.
  - intros [localStorage |]; unfold Settings.getProvider; split.
    + intros Hopenai. exists localStorage. split; [reflexivity |].
      revert Hopenai. change Settings.STORAGE_KEYS.PROVIDER with "rag-provider".
      destruct (Settings.getItem "rag-provider" localStorage) as [stored |];
        [| discriminate].
      destruct (String.eqb_spec stored "openai") as [Hstored | _];
        [intros _; rewrite Hstored; reflexivity | discriminate].
    + intros (storage & [= <-] & Hstored).
      change Settings.STORAGE_KEYS.PROVIDER with "rag-provider".
      rewrite Hstored. reflexivity.
    + discriminate.
    + intros (storage & Hwindow & _). discriminate Hwindow.
Qed.

(** X24. One key for each provider: the key read for a provider after
    [setApiKey] for that provider is the key that was set, and after
    [clearApiKey] there is none; the key of the other provider, the stored
    provider and the stored model are left as they were; and choosing
    another provider or model changes no key. *)
Theorem api_keys_are_kept_per_provider :
  forall (localStorage : Settings.Storage) (p q : Settings.Provider) (apiKey modelId : string),
    let window := Some localStorage in
    Settings.getApiKey (Some q) (Settings.setApiKey apiKey (Some p) window)
    = (if String.eqb (Settings.provider_string p) (Settings.provider_string q)
       then Some apiKey else Settings.getApiKey (Some q) window)
    /\ Settings.getApiKey (Some q) (Settings.clearApiKey (Some p) window)
       = (if String.eqb (Settings.provider_string p) (Settings.provider_string q)
          then None else Settings.getApiKey (Some q) window)
    /\ Settings.getProvider (Settings.setApiKey apiKey (Some p) window)
       = Settings.getProvider window
    /\ Settings.getSelectedModel (Some q) (Settings.setApiKey apiKey (Some p) window)
       = Settings.getSelectedModel (Some q) window
    /\ Settings.getApiKey (Some q) (Settings.setProvider p window)
       = Settings.getApiKey (Some q) window
    /\ Settings.getApiKey (Some q) (Settings.setSelectedModel modelId window)
       = Settings.getApiKey (Some q) window.
Proof.
  intros localStorage p q apiKey modelId window. unfold window.
  unfold Settings.getApiKey, Settings.setApiKey, Settings.clearApiKey,
         Settings.getProvider, Settings.getSelectedModel, Settings.setProvider,
         Settings.setSelectedModel, Settings.provider_or_stored.
  rewrite !getItem_setItem, !getItem_removeItem.
  destruct p, q; repeat split; reflexivity.
Qed.

Lemma selected_model_cases :
  forall (p : Settings.Provider) (stored : option string),
    In (if given stored
           && existsb (fun m => String.eqb (Settings.id m) (or_else stored ""))
                (match p with
                 | Settings.openai => Settings.OPENAI_MODELS
                 | Settings.gemini => Settings.GEMINI_MODELS
                 end)
        then or_else stored ""
        else match p with
             | Settings.openai => "gpt-4o-mini"
             | Settings.gemini => "gemini-2.5-flash"
             end)
       (map Settings.id (match p with
                         | Settings.openai => Settings.OPENAI_MODELS
                         | Settings.gemini => Settings.GEMINI_MODELS
                         end)).
Proof.
  intros p stored.
  destruct (given stored
            && existsb (fun m => String.eqb (Settings.id m) (or_else stored ""))
                 (match p with
                  | Settings.openai => Settings.OPENAI_MODELS
                  | Settings.gemini => Settings.GEMINI_MODELS
                  end)) eqn:Hvalid.
  - apply andb_prop in Hvalid as [_ Hexists].
    apply existsb_exists in Hexists as (m & Hm & Hid).
    apply String.eqb_eq in Hid. rewrite <- Hid. apply in_map. exact Hm.
  - destruct p; cbn; auto.
Qed.

(** X25. The selected model fits the provider: in the browser, whatever
    the storage holds, the model that [getSelectedModel] answers is one of
    the models of the provider it is asked for (or, asked for none, of the
    stored provider); a stored model of the other provider, or an unknown
    one, gives the default of the provider.  On the server the answer is
    the Gemini default, also when the models of OpenAI are asked for. *)
Theorem selected_model_fits_provider :
  (forall (provider : option Settings.Provider) (localStorage : Settings.Storage),
      In (Settings.getSelectedModel provider (Some localStorage))
         (map Settings.id (Settings.getModelsForProvider provider (Some localStorage))))
  /\
  (forall (provider : option Settings.Provider) (localStorage : Settings.Storage)
          (stored : string),
      Settings.getItem "rag-model" localStorage = Some stored ->
      ~ In stored (map Settings.id
                     (Settings.getModelsForProvider provider (Some localStorage))) ->
      Settings.getSelectedModel provider (Some localStorage)
      = match Settings.provider_or_stored provider (Some localStorage) with
        | Settings.openai => "gpt-4o-mini"
        | Settings.gemini => "gemini-2.5-flash"
        end)
  /\ ~ In (Settings.getSelectedModel (Some Settings.openai) None)
          (map Settings.id (Settings.getModelsForProvider (Some Settings.openai) None)).
Proof.
  split; [| split].
  - intros provider localStorage.
    unfold Settings.getSelectedModel, Settings.getModelsForProvider. cbv zeta.
    apply selected_model_cases.
  - intros provider localStorage stored Hstored Hunknown.
    unfold Settings.getSelectedModel, Settings.getModelsForProvider in *. cbv zeta.
    change Settings.STORAGE_KEYS.MODEL with "rag-model". rewrite Hstored.
    destruct (given (Some stored)
              && existsb (fun m => String.eqb (Settings.id m) (or_else (Some stored) "")) _)
      eqn:Hvalid; [| reflexivity].
    exfalso. apply Hunknown.
    apply andb_prop in Hvalid as [Hgiven Hexists].
    apply existsb_exists in Hexists as (m & Hm & Hid).
    apply String.eqb_eq in Hid.
    assert (Hor : or_else (Some stored) "" = stored).
    { unfold given in Hgiven. unfold or_else.
      destruct (String.eqb stored ""); [discriminate Hgiven | reflexivity]. }
    rewrite Hor in Hid. rewrite <- Hid. apply in_map. exact Hm.
  - cbn. intros [H | [H | [H | []]]]; discriminate H.
Qed.

Lemma selected_model_fits_provider_witness :
  Settings.getSelectedModel None
    (Some [("rag-model", "gemini-1.5-pro"); ("rag-provider", "openai")])
  = "gpt-4o-mini".
Proof.
  apply (proj1 (proj2 selected_model_fits_provider) None
           [("rag-model", "gemini-1.5-pro"); ("rag-provider", "openai")]
           "gemini-1.5-pro" eq_refl).
  cbn. intros [H | [H | [H | []]]]; discriminate H.
Defined.

(** ** The request of the chat component *)

Lemma getSelectedModel_nonempty :
  forall (provider : option Settings.Provider) (localStorage : Settings.Storage),
    Settings.getSelectedModel provider (Some localStorage) <> "".
Proof.
  intros provider localStorage Hempty.
  pose proof (selected_model_cases (Settings.provider_or_stored provider (Some localStorage))
                (Settings.getItem Settings.STORAGE_KEYS.MODEL localStorage)) as Hin.
  unfold Settings.getSelectedModel in Hempty. cbv zeta in Hempty.
  rewrite Hempty in Hin.
  destruct (Settings.provider_or_stored provider (Some localStorage));
    cbn in Hin; destruct Hin as [H | [H | [H | []]]]; discriminate H.
Qed.

(** X26. The request of the chat component and the route: whatever the
    browser stores, the request that [handleSubmit] builds names the
    stored provider and carries a model of that provider, so that the
    route works with the model selected in the browser and its own default
    never applies; the messages go with their roles and contents, in
    order; and the handles of an assistant and of a thread are sent to
    OpenAI only. *)
Theorem request_carries_the_settings :
  forall (localStorage : Settings.Storage) (currentMessages : list ChatInterface.Message),
    let body := requestBody localStorage currentMessages in
    let provider := Settings.getProvider (Some localStorage) in
    ChatRoute.the_provider body = Settings.provider_string provider
    /\ ChatRoute.effectiveModel body = Settings.getSelectedModel None (Some localStorage)
    /\ In (ChatRoute.effectiveModel body)
          (map Settings.id (match provider with
                            | Settings.openai => Settings.OPENAI_MODELS
                            | Settings.gemini => Settings.GEMINI_MODELS
                            end))
    /\ map (fun m => (ChatRoute.role m, ChatRoute.content m)) (ChatRoute.messages body)
       = map (fun m => (ChatInterface.role m, ChatInterface.content m)) currentMessages
    /\ (provider = Settings.gemini ->
        ChatRoute.assistantId body = None /\ ChatRoute.threadId body = None).
Proof.
  intros localStorage currentMessages body provider.
  assert (Hmodel : ChatRoute.effectiveModel body
                   = Settings.getSelectedModel None (Some localStorage)).
  { unfold ChatRoute.effectiveModel, body, requestBody. cbn [ChatRoute.model].
    unfold or_else.
    destruct (String.eqb_spec (Settings.getSelectedModel None (Some localStorage)) "")
      as [Hempty | _]; [| reflexivity].
    exfalso. exact (getSelectedModel_nonempty None localStorage Hempty). }
  split; [reflexivity |]. split; [exact Hmodel |]. split; [| split].
  - rewrite Hmodel. unfold Settings.getSelectedModel. cbv zeta.
    apply (selected_model_cases provider).
  - unfold body, requestBody. cbn [ChatRoute.messages]. rewrite map_map. reflexivity.
  - unfold body, requestBody. fold provider. intros ->. split; reflexivity.
Qed.

(** X27. Without a stored key nothing is asked of a vendor: when the
    browser stores no key, or an empty one, for the stored provider, the
    request of [handleSubmit] is answered by the route with status 400 and
    a message that names that provider; no SDK call is made, whatever key
    is stored for the other provider. *)
Theorem request_without_stored_key_is_rejected :
  forall (V : Type) (sdk : Sdk V) (w : World V) (localStorage : Settings.Storage)
         (currentMessages : list ChatInterface.Message),
    or_else (Settings.getApiKey None (Some localStorage)) "" = "" ->
    ChatRoute.POST sdk (Ok (requestBody localStorage currentMessages)) w
    = (Ok (ChatRoute.JsonResponse 400
             (JSON.Obj [("error", JSON.Str
                ("No " ++ match Settings.getProvider (Some localStorage) with
                          | Settings.openai => "OpenAI"
                          | Settings.gemini => "Gemini"
                          end
                 ++ " API key configured. Please add one in Settings."))])),
       w).
Proof.
  intros V sdk w localStorage currentMessages Hkey.
  unfold ChatRoute.POST.
  replace (ChatRoute.effectiveApiKey (requestBody localStorage currentMessages)) with ""
    by (symmetry; exact Hkey).
  cbn [String.eqb]. unfold ChatRoute.missing_key_response, ret.
  replace (ChatRoute.the_provider (requestBody localStorage currentMessages))
    with (Settings.provider_string (Settings.getProvider (Some localStorage)))
    by reflexivity.
  destruct (Settings.getProvider (Some localStorage)); reflexivity.
Qed.

Lemma request_without_stored_key_is_rejected_witness :
  ChatRoute.POST Sim.sdk
    (Ok (requestBody [("rag-provider", "openai"); ("rag-gemini-api-key", "AIza-k")]
           [ChatInterface.mkMessage "1" "user" "What is X?"]))
    (Sim.start Sim.empty)
  = (Ok (ChatRoute.JsonResponse 400
           (JSON.Obj [("error", JSON.Str
              ("No " ++ match Settings.getProvider
                                (Some [("rag-provider", "openai");
                                       ("rag-gemini-api-key", "AIza-k")]) with
                        | Settings.openai => "OpenAI"
                        | Settings.gemini => "Gemini"
                        end
               ++ " API key configured. Please add one in Settings."))])),
     Sim.start Sim.empty).
Proof.
  apply (request_without_stored_key_is_rejected Sim.State Sim.sdk (Sim.start Sim.empty)
           [("rag-provider", "openai"); ("rag-gemini-api-key", "AIza-k")]
           [ChatInterface.mkMessage "1" "user" "What is X?"] eq_refl).
Defined.

(** ** The thread handle of the summary *)

Lemma received_without_thread :
  forall (frames : list StreamFrame)
         (d : string * list (option JSON.value * option JSON.value * option JSON.value)),
    fold_left (fun d frame => received frame d) (map without_thread frames) d
    = fold_left (fun d frame => received frame d) frames d.
Proof.
  induction frames as [| frame frames IH]; intros d; [reflexivity |].
  cbn [map fold_left]. rewrite IH. destruct frame; reflexivity.
Qed.

Lemma closed_body_messages :
  forall (currentMessages : list ChatInterface.Message) (assistantMsgId : string)
         (reads : list string),
    ChatInterface.messages
      (ChatInterface.read_body currentMessages assistantMsgId reads Closed)
    = (currentMessages
       ++ [ChatInterface.mkMessage assistantMsgId "assistant"
             (ChatInterface.assistantContent
                (ChatInterface.read_body currentMessages assistantMsgId reads Closed))])%list.
Proof.
  intros currentMessages assistantMsgId reads. unfold ChatInterface.read_body.
  set (c0 := ChatInterface.mkClient "" 0 _ [] []).
  cbn [ChatInterface.log ChatInterface.messages ChatInterface.assistantContent].
  exact (reads_messages assistantMsgId currentMessages reads c0 eq_refl).
Qed.

(** X28. The thread handle of the summary is dropped by the client: a
    usage line leaves the client in the same state whatever thread handle
    it carries; and over a whole body, received in reads of whole frames,
    the content, the calls of [trackUsage] and the messages are those of
    the same frames without their thread handles.  Nothing of the handle
    that the run adapter reports is kept for the next request. *)
Theorem summary_thread_is_not_kept :
  (forall (c : ChatInterface.Client) (i o : Z) (model : string)
          (thread thread' : option string),
      ChatInterface.handle_line c (usage_line i o model thread)
      = ChatInterface.handle_line c (usage_line i o model thread'))
  /\
  (forall (currentMessages : list ChatInterface.Message) (assistantMsgId : string)
          (reads : list (list StreamFrame)),
      let bytes := fun frames => String.concat "" (map encode frames) in
      let c := ChatInterface.read_body currentMessages assistantMsgId
                 (map bytes reads) Closed in
      let c' := ChatInterface.read_body currentMessages assistantMsgId
                  (map bytes (map (map without_thread) reads)) Closed in
      ChatInterface.assistantContent c = ChatInterface.assistantContent c'
      /\ ChatInterface.trackUsage_calls c = ChatInterface.trackUsage_calls c'
      /\ ChatInterface.messages c = ChatInterface.messages c').
Proof.
  split.
  - intros c i o model thread thread'. rewrite !handle_line_usage. reflexivity.
  - intros currentMessages assistantMsgId reads bytes c c'.
    assert (Hdecoded : decoded c = decoded c').
    { unfold c, c', bytes. rewrite map_map.
      rewrite (aligned_reads_round_trip currentMessages assistantMsgId reads).
      change (map (fun x => String.concat "" (map encode (map without_thread x))) reads)
        with (map (fun x => (fun frames => String.concat "" (map encode frames))
                              (map without_thread x)) reads).
      rewrite <- (map_map (map without_thread)
                    (fun frames => String.concat "" (map encode frames))).
      rewrite (aligned_reads_round_trip currentMessages assistantMsgId
                 (map (map without_thread) reads)).
      rewrite <- concat_map, received_without_thread. reflexivity. }
    pose proof (f_equal fst Hdecoded) as Hcontent.
    pose proof (f_equal snd Hdecoded) as Hcalls.
    cbn [decoded fst snd] in Hcontent, Hcalls.
    split; [exact Hcontent |]. split; [exact Hcalls |].
    unfold c, c'. rewrite !closed_body_messages. fold c c'. rewrite Hcontent.
    reflexivity.
Qed.

(** ** The errors of [getOrCreateAssistant] *)

Lemma ensureVectorStore_log :
  forall (V : Type) (openai : OpenAIClient V) (assistantId : string) (w : World V),
    exists log : list Call,
      calls (snd (OpenAIAssistants.ensureVectorStore openai assistantId w))
      = (calls w ++ log)%list
      /\ filter (fun c => match c with C_assistants_create _ => true | _ => false end) log
         = [].
Proof.
  intros V openai assistantId w. rewrite ensureVectorStore_run.
  destruct (beta_assistants_retrieve openai assistantId (vendor w))
    as [[assistant | e] v1]; [| eexists; split; reflexivity].
  assert (Hcreates :
    exists log : list Call,
      calls (snd (match beta_vectorStores_create openai "Editorial Knowledge Base" v1 with
                  | (Throw e, v2) =>
                      (Throw e,
                       mkWorld v2 (calls w ++ [C_assistants_retrieve assistantId;
                                               C_vectorStores_create
                                                 "Editorial Knowledge Base"])%list)
                  | (Ok vectorStore, v2) =>
                      match beta_assistants_update openai assistantId [vectorStore] v2 with
                      | (Throw e, v3) =>
                          (Throw e,
                           mkWorld v3 (calls w ++ [C_assistants_retrieve assistantId;
                                                   C_vectorStores_create
                                                     "Editorial Knowledge Base";
                                                   C_assistants_update assistantId
                                                     [vectorStore]])%list)
                      | (Ok _, v3) =>
                          (Ok vectorStore,
                           mkWorld v3 (calls w ++ [C_assistants_retrieve assistantId;
                                                   C_vectorStores_create
                                                     "Editorial Knowledge Base";
                                                   C_assistants_update assistantId
                                                     [vectorStore]])%list)
                      end
                  end))
      = (calls w ++ log)%list
      /\ filter (fun c => match c with C_assistants_create _ => true | _ => false end) log
         = []).
  { destruct (beta_vectorStores_create openai _ v1) as [[vectorStore | e] v2];
      [| eexists; split; reflexivity].
    destruct (beta_assistants_update openai assistantId [vectorStore] v2)
      as [[updated | e] v3]; eexists; split; reflexivity. }
  destruct (OpenAI.Assistant.vector_store_ids assistant) as [[| first rest] |];
    [exact Hcreates | eexists; split; reflexivity | exact Hcreates].
Qed.

(** X29. Only the creation can make [getOrCreateAssistant] throw: an
    error that it throws is the error of the creation of the store or of
    the assistant with which it ends; whatever is thrown while the given
    assistant is retrieved or its store is looked for is dropped, and the
    creation is tried, no assistant having been created before it. *)
Theorem only_creation_errors_escape :
  forall (V : Type) (openai : OpenAIClient V) (assistantId vectorStoreId : option string)
         (w w' : World V) (e : Error),
    OpenAIAssistants.getOrCreateAssistant openai assistantId vectorStoreId w = (Throw e, w') ->
    exists (w1 : World V) (log : list Call),
      OpenAIAssistants.createAssistant openai w1 = (Throw e, w')
      /\ calls w1 = (calls w ++ log)%list
      /\ filter (fun c => match c with C_assistants_create _ => true | _ => false end) log
         = [].
Proof.
  intros V openai assistantId vectorStoreId w w' e Hthrows.
  destruct (given_cases assistantId) as [[_ (h & -> & Hh)] | Hnone].
  - destruct (beta_assistants_retrieve openai h (vendor w)) as [[existing | e0] v1]
      eqn:Hretrieve.
    + destruct (given_cases vectorStoreId) as [[Hgiven (store & -> & Hstore)] | Hstore].
      * exfalso. revert Hthrows. unfold OpenAIAssistants.getOrCreateAssistant.
        destruct (given_Some h Hh) as [-> _]. rewrite Hgiven. run.
        rewrite Hretrieve. discriminate.
      * rewrite (getOrCreateAssistant_live V openai h vectorStoreId w existing v1
                   Hh Hstore Hretrieve) in Hthrows.
        destruct (ensureVectorStore_log V openai (OpenAI.Assistant.id existing)
                    (mkWorld v1 (calls w ++ [C_assistants_retrieve h])%list))
          as (log & Hlog & Hnone).
        destruct (OpenAIAssistants.ensureVectorStore openai (OpenAI.Assistant.id existing) _)
          as [[store | e1] w2]; [discriminate Hthrows |].
        exists w2, (C_assistants_retrieve h :: log). split; [exact Hthrows |].
        cbn [snd calls] in Hlog. rewrite Hlog, <- app_assoc. split; [reflexivity |].
        cbn [filter]. exact Hnone.
    + rewrite (getOrCreateAssistant_stale V openai h vectorStoreId w e0 v1 Hh Hretrieve)
        in Hthrows.
      eexists. eexists. split; [exact Hthrows |]. split; reflexivity.
  - exists w, []. split; [| rewrite app_nil_r; split; reflexivity].
    rewrite <- Hthrows. unfold OpenAIAssistants.getOrCreateAssistant.
    destruct assistantId as [h |]; [| reflexivity].
    rewrite Hnone. reflexivity.
Qed.

Lemma only_creation_errors_escape_witness :
  exists (w1 : World Sim.State) (log : list Call),
    OpenAIAssistants.createAssistant Sim_no_stores w1
    = (Throw (JsError "401 invalid_api_key"),
       mkWorld Sim.empty [C_assistants_retrieve "asst_deleted";
                          C_vectorStores_create "Editorial Knowledge Base"])
    /\ calls w1 = (calls (Sim.start Sim.empty) ++ log)%list
    /\ filter (fun c => match c with C_assistants_create _ => true | _ => false end) log = [].
Proof.
  apply (only_creation_errors_escape Sim.State Sim_no_stores (Some "asst_deleted") None
           (Sim.start Sim.empty)
           (mkWorld Sim.empty [C_assistants_retrieve "asst_deleted";
                               C_vectorStores_create "Editorial Knowledge Base"])
           (JsError "401 invalid_api_key")).
  reflexivity.
Defined.
